(** * prep_MHD: a verification development for [prep_MHD.py]

    The script derives a handful of run parameters of a FLASH MHD turbulence
    simulation (mean field [B0], maximum time, dump intervals) from the target
    Mach numbers and writes them into the matching lines of [flash.par].

    The development comes in five parts:
    - [Py]: the pieces of the Python 3 runtime the script relies on (binary64
      arithmetic, [str.find], slicing, [str.rstrip], the [repr] of a float,
      text-mode reading with universal newlines, a small file system with the
      exceptions its calls raise);
    - the class [UpdateFlashParameterFile] and [main], method by method, as
      computations in a state-and-exception monad;
    - the definitions the statements are written with;
    - the properties of the derived quantities, of the line rewriter and of the
      file transaction, each claim of the specification with its number;
    - further properties of a run, numbered X1 to X13: the files it touches
      and leaves behind, what running twice does, the lines it leaves alone,
      what it prints, and the inputs it accepts.

    Text is modelled as [string], one [ascii] per character: the code points
    below 256, which covers the ASCII parameter files of FLASH (a file that
    does not decode is outside the model).  Floats are the kernel's binary64
    numbers, so every definition below evaluates.  The platform is POSIX. *)

From stdpp Require Import gmap strings.
From Stdlib Require Import Ascii ZArith Floats DecimalString.

Local Open Scope string_scope.
Local Open Scope Z_scope.

(* ================================================================= *)
(** * The Python runtime *)

Module Py.

(** ** Exceptions and the state-and-exception monad *)

(** The call sites of the script that talk to the operating system; an
    environment decides which of them fail. *)
Inductive io_op : Type :=
| OpCopyfile
| OpMkstemp
| OpOpenWrite
| OpOpenRead
| OpReadLine (n : nat)
| OpWrite (n : nat)
| OpCloseTemp
| OpCloseFd
| OpCloseSource
| OpRemove
| OpMove
| OpChmod.

Inductive exn : Type :=
| ZeroDivisionError
| TypeError
| FileNotFoundError (path : string)
| FileExistsError (path : string)
| SameFileError (path : string)
| OSError (op : io_op).

Inductive outcome (A : Type) : Type :=
| Return (a : A)
| Raise (e : exn).
Arguments Return {A} a.
Arguments Raise {A} e.

(** A computation over a state [S]: it returns or raises, and the state it
    leaves behind holds whatever was mutated before the exception. *)
Definition M (S A : Type) : Type := S -> outcome A * S.

Definition ret {S A} (a : A) : M S A := fun s => (Return a, s).
Definition raise {S A} (e : exn) : M S A := fun s => (Raise e, s).
Definition bind {S A B} (m : M S A) (k : A -> M S B) : M S B :=
  fun s => match m s with
           | (Return a, s') => k a s'
           | (Raise e, s') => (Raise e, s')
           end.
Definition gets {S A} (f : S -> A) : M S A := fun s => (Return (f s), s).
Definition modify {S} (f : S -> S) : M S unit := fun s => (Return tt, f s).

(** ** Strings *)

(** [s.find(sub)]: the lowest index at which [sub] occurs in [s], or [-1]. *)
Fixpoint find_from (i : Z) (s sub : string) : Z :=
  if String.prefix sub s then i
  else match s with
       | EmptyString => -1
       | String _ s' => find_from (i + 1) s' sub
       end.
Definition find (s sub : string) : Z := find_from 0 s sub.

(** [s[start:stop]], with Python's treatment of negative and out-of-range
    bounds. *)
Definition clamp_index (len i : Z) : Z :=
  if i <? 0 then Z.max 0 (len + i) else Z.min i len.
Definition slice (s : string) (start stop : Z) : string :=
  let len := Z.of_nat (String.length s) in
  let a := clamp_index len start in
  let b := clamp_index len stop in
  String.substring (Z.to_nat a) (Z.to_nat (b - a)) s.

(** [c.isspace()] for the code points below 256. *)
Definition isspace (c : ascii) : bool :=
  let n := Z.of_nat (Ascii.nat_of_ascii c) in
  ((9 <=? n) && (n <=? 13)) || ((28 <=? n) && (n <=? 32))
  || (n =? 133) || (n =? 160).

(** [s.rstrip()]. *)
Fixpoint rstrip (s : string) : string :=
  match s with
  | EmptyString => EmptyString
  | String c s' =>
      match rstrip s' with
      | EmptyString => if isspace c then EmptyString else String c EmptyString
      | r => String c r
      end
  end.

Definition LF : ascii := Ascii.ascii_of_nat 10.
Definition CR : ascii := Ascii.ascii_of_nat 13.
Definition TAB : ascii := Ascii.ascii_of_nat 9.
Definition nl : string := String LF EmptyString.
Definition tab : string := String TAB EmptyString.

(** ** Floats *)

(** [float(z)] for a Python int: the nearest binary64. *)
Definition float_of_int (z : Z) : float :=
  SF2Prim (binary_normalize prec emax z 0 false).

(** [a / b] on Python floats raises on a zero divisor, of either sign. *)
Definition truediv {S} (a b : float) : M S float :=
  if PrimFloat.eqb b 0%float then raise ZeroDivisionError
  else ret (a / b)%float.

(** NumPy's [float64] scalars follow IEEE 754: a zero divisor gives an
    infinity or a NaN (and a warning), never an exception. *)
Definition np_pi : float := 0x1.921fb54442d18p+1%float.
Definition np_sqrt (x : float) : float := PrimFloat.sqrt x.
Definition np_mul (a b : float) : float := (a * b)%float.
Definition np_truediv (a b : float) : float := (a / b)%float.

(** ** [repr] of a float

    [repr(x)] (which is also [str(x)] and the empty format of an f-string,
    for a Python float and for a NumPy [float64] alike) prints the shortest
    decimal string that reads back as [x], choosing the closest one among the
    shortest, the even last digit on a tie.  All comparisons below are exact,
    on integers: the value [m * 2^e] and the bounds of the reals that round
    to it are counted in units of [2^(e-2)]. *)

Definition pow2_num (e : Z) : Z := if 0 <=? e then 2 ^ e else 1.
Definition pow2_den (e : Z) : Z := if 0 <=? e then 1 else 2 ^ (- e).
Definition pow10_num (q : Z) : Z := if 0 <=? q then 10 ^ q else 1.
Definition pow10_den (q : Z) : Z := if 0 <=? q then 1 else 10 ^ (- q).

Fixpoint count_digits (fuel : nat) (n : Z) : Z :=
  match fuel with
  | O => 1
  | S fuel' => if n <? 10 then 1 else 1 + count_digits fuel' (n / 10)
  end.

Fixpoint leading_zeros (fuel : nat) (xn xd : Z) : Z :=
  match fuel with
  | O => 0
  | S fuel' => if xd <=? xn then 0 else 1 + leading_zeros fuel' (10 * xn) xd
  end.

(** The [k] with [10^(k-1) <= xn/xd < 10^k]; a binary64 has at most 309
    digits before the point and at most 323 zeros after it. *)
Definition decimal_exponent (xn xd : Z) : Z :=
  if xd <=? xn then count_digits 400 (xn / xd)
  else 1 - leading_zeros 400 xn xd.

(** The reals that round to [m * 2^e] lie between [round_lo] and [round_hi],
    bounds included exactly when [m] is even; the lower neighbour of a power
    of two is twice as close. *)
Definition round_lo (m : positive) (e : Z) : Z :=
  if (Z.pos m =? 2 ^ 52) && (-1074 <? e) then 4 * Z.pos m - 1
  else 4 * Z.pos m - 2.
Definition round_hi (m : positive) : Z := 4 * Z.pos m + 2.

Definition reads_back (m : positive) (e : Z) (d q : Z) : bool :=
  let a := pow2_num (e - 2) * pow10_den q in
  let b := pow2_den (e - 2) * pow10_num q in
  if Z.even (Z.pos m)
  then (round_lo m e * a <=? d * b) && (d * b <=? round_hi m * a)
  else (round_lo m e * a <? d * b) && (d * b <? round_hi m * a).

(** The digits to print when the last one counts [10^q]: the neighbour of
    the value below or above it, whichever reads back and is closer. *)
Definition candidate (m : positive) (e : Z) (q : Z) : option Z :=
  let a := pow2_num (e - 2) * pow10_den q in
  let b := pow2_den (e - 2) * pow10_num q in
  let x := 4 * Z.pos m * a in
  let lo := x / b in
  let hi := if x mod b =? 0 then lo else lo + 1 in
  let lo_ok := reads_back m e lo q in
  let hi_ok := reads_back m e hi q in
  if lo_ok && hi_ok then
    Some (match (x - lo * b) ?= (hi * b - x) with
          | Lt => lo
          | Gt => hi
          | Eq => if Z.even lo then lo else hi
          end)
  else if lo_ok then Some lo
  else if hi_ok then Some hi
  else None.

(** One digit, then two, ... up to seventeen, which always read back. *)
Fixpoint shortest_from (fuel : nat) (m : positive) (e : Z) (q : Z) : Z * Z :=
  match fuel with
  | O => ((4 * Z.pos m * (pow2_num (e - 2) * pow10_den q))
            / (pow2_den (e - 2) * pow10_num q), q)
  | S fuel' =>
      match candidate m e q with
      | Some d => (d, q)
      | None => shortest_from fuel' m e (q - 1)
      end
  end.

Fixpoint strip_zeros (fuel : nat) (d q : Z) : Z * Z :=
  match fuel with
  | O => (d, q)
  | S fuel' =>
      if (d mod 10 =? 0) && (0 <? d) then strip_zeros fuel' (d / 10) (q + 1)
      else (d, q)
  end.

Definition shortest_digits (m : positive) (e : Z) : Z * Z :=
  let xn := 4 * Z.pos m * pow2_num (e - 2) in
  let xd := pow2_den (e - 2) in
  let k := decimal_exponent xn xd in
  let '(d, q) := shortest_from 17 m e (k - 1) in
  strip_zeros 20 d q.

Definition digits_of_Z (d : Z) : string :=
  NilZero.string_of_uint (N.to_uint (Z.to_N d)).

Fixpoint zeros (n : nat) : string :=
  match n with
  | O => EmptyString
  | S n' => String "0" (zeros n')
  end.

Definition format_exponent (ex : Z) : string :=
  let a := digits_of_Z (Z.abs ex) in
  (if ex <? 0 then "-" else "+") +:+ (if Z.abs ex <? 10 then "0" +:+ a else a).

(** The layout of the short float format, code ['r'], with [".0"] added to
    an integer: the digits [0.d1d2...] times [10^decpt], in exponent form
    when [decpt <= -4] or [decpt > 16]. *)
Definition format_short (digits : string) (decpt : Z) : string :=
  let n := Z.of_nat (String.length digits) in
  if (decpt <=? -4) || (16 <? decpt) then
    (if n =? 1 then digits
     else slice digits 0 1 +:+ "." +:+ slice digits 1 n)
    +:+ "e" +:+ format_exponent (decpt - 1)
  else if decpt <=? 0 then "0." +:+ zeros (Z.to_nat (- decpt)) +:+ digits
  else if decpt <? n then slice digits 0 decpt +:+ "." +:+ slice digits decpt n
  else digits +:+ zeros (Z.to_nat (decpt - n)) +:+ ".0".

Definition float_repr (x : float) : string :=
  match Prim2SF x with
  | S754_nan => "nan"
  | S754_infinity s => if s then "-inf" else "inf"
  | S754_zero s => if s then "-0.0" else "0.0"
  | S754_finite s m e =>
      let '(d, q) := shortest_digits m e in
      let digits := digits_of_Z d in
      (if s then "-" else "")
      +:+ format_short digits (Z.of_nat (String.length digits) + q)
  end.

(** ** Text files

    A file opened in text mode with the default [newline=None] is read with
    universal newlines: ["\r\n"] and a lone ["\r"] both arrive as ["\n"].
    Iterating over it yields the lines, each with its ["\n"], the last one
    possibly without.  On POSIX, where [os.linesep] is ["\n"], text is
    written as it is. *)
Fixpoint universal_newlines (s : string) : string :=
  match s with
  | EmptyString => EmptyString
  | String c s' =>
      if Ascii.eqb c CR then
        String LF match s' with
                  | String c' s'' =>
                      if Ascii.eqb c' LF then universal_newlines s''
                      else universal_newlines s'
                  | EmptyString => EmptyString
                  end
      else String c (universal_newlines s')
  end.

Fixpoint lines_of (s : string) : list string :=
  match s with
  | EmptyString => []
  | String c s' =>
      if Ascii.eqb c LF then nl :: lines_of s'
      else match lines_of s' with
           | [] => [String c EmptyString]
           | l :: ls => String c l :: ls
           end
  end.

Definition readlines (bytes : string) : list string :=
  lines_of (universal_newlines bytes).

(** ** The file system *)

Record file : Type := { content : string; mode : Z }.

Abbreviation filesystem := (gmap string file).

(** What a run can observe and change: the files and what was printed. *)
Record world : Type := { fs : filesystem; stdout : list string }.

Definition set_fs (f : filesystem -> filesystem) (w : world) : world :=
  {| fs := f (fs w); stdout := stdout w |}.

(** How far [shutil.move] got when it failed.  It tries [os.rename] first;
    when that fails, as it does when the temporary directory lies on another
    file system, it copies the file with [copy2], the content and then the
    metadata, and removes the source.  So a failed move has written nothing,
    or the first characters of the content (all of them when only the
    metadata could not be copied), or the whole file with its metadata, the
    source being what could not be removed. *)
Inductive leftover : Type :=
| Nothing
| Written (n : nat)
| Copied.

(** What the run does not decide: the name [mkstemp] picks, the calls the
    operating system refuses, the mode of a newly created file, and what a
    refused move had already done. *)
Record environment : Type :=
  { tmp_name : string; fails : io_op -> bool; default_mode : Z;
    move_left : leftover }.

Declare Scope py_scope.
Delimit Scope py_scope with py.
Notation "x <- m ;; k" := (bind m (fun x => k))
  (at level 100, m at next level, right associativity) : py_scope.
Notation "m ;; k" := (bind m (fun _ => k))
  (at level 100, right associativity) : py_scope.
Local Open Scope py_scope.

Section IO.
Variable E : environment.

Definition guard (op : io_op) : M world unit :=
  if fails E op then raise (OSError op) else ret tt.

(** [print(msg)] *)
Definition print (msg : string) : M world unit :=
  modify (fun w => {| fs := fs w; stdout := stdout w ++ [msg] |}).

(** [tempfile.mkstemp()]: a new, empty file readable and writable by its
    owner only; the descriptor it also returns is not modelled. *)
Definition mkstemp : M world string :=
  guard OpMkstemp ;;
  existing <- gets (fun w => fs w !! tmp_name E) ;;
  match existing with
  | Some _ => raise (FileExistsError (tmp_name E))
  | None =>
      modify (set_fs (insert (tmp_name E) {| content := ""; mode := 384 |})) ;;
      ret (tmp_name E)
  end.

(** [open(path, 'w')]: the file is created or emptied. *)
Definition open_w (path : string) : M world unit :=
  guard OpOpenWrite ;;
  existing <- gets (fun w => fs w !! path) ;;
  let m := match existing with Some f => mode f | None => default_mode E end in
  modify (set_fs (insert path {| content := ""; mode := m |})).

(** [open(path, 'r')] and the lines the iteration over it yields. *)
Definition open_r (path : string) : M world (list string) :=
  guard OpOpenRead ;;
  existing <- gets (fun w => fs w !! path) ;;
  match existing with
  | Some f => ret (readlines (content f))
  | None => raise (FileNotFoundError path)
  end.

(** [f.write(text)] for the [n]-th line written. *)
Definition write (path : string) (n : nat) (text : string) : M world unit :=
  guard (OpWrite n) ;;
  modify (set_fs (alter (fun f => {| content := content f +:+ text;
                                     mode := mode f |}) path)).

(** [os.remove(path)] *)
Definition remove (path : string) : M world unit :=
  guard OpRemove ;;
  existing <- gets (fun w => fs w !! path) ;;
  match existing with
  | Some _ => modify (set_fs (delete path))
  | None => raise (FileNotFoundError path)
  end.

(** What a move of the file [f] that failed left at [dst]: a file opened
    for writing keeps its mode, a new one gets the default mode, and [copy2]
    gives it the mode of [f] once the content is complete. *)
Definition left_at (l : leftover) (f : file) (dst : string) (m : filesystem)
    : filesystem :=
  match l with
  | Nothing => m
  | Written n =>
      <[dst := {| content := String.substring 0 n (content f);
                  mode := match m !! dst with
                          | Some g => mode g
                          | None => default_mode E
                          end |}]> m
  | Copied => <[dst := f]> m
  end.

(** [shutil.move(src, dst)]: a rename, or a copy with its metadata followed
    by the removal of [src].  When it succeeds either way gives the same
    files; when it fails, [dst] holds what the copy had written. *)
Definition move (src dst : string) : M world unit :=
  existing <- gets (fun w => fs w !! src) ;;
  match existing with
  | Some f =>
      if fails E OpMove
      then modify (set_fs (left_at (move_left E) f dst)) ;;
           raise (OSError OpMove)
      else modify (set_fs (fun m => <[dst := f]> (delete src m)))
  | None => raise (FileNotFoundError src)
  end.

(** [os.chmod(path, mode)] *)
Definition chmod (path : string) (m : Z) : M world unit :=
  guard OpChmod ;;
  existing <- gets (fun w => fs w !! path) ;;
  match existing with
  | Some f => modify (set_fs (insert path {| content := content f;
                                             mode := Z.land m 4095 |}))
  | None => raise (FileNotFoundError path)
  end.

(** [shutil.copyfile(src, dst)]: the content only. *)
Definition copyfile (src dst : string) : M world unit :=
  guard OpCopyfile ;;
  source <- gets (fun w => fs w !! src) ;;
  match source with
  | None => raise (FileNotFoundError src)
  | Some f =>
      if String.eqb src dst then raise (SameFileError src)
      else
        target <- gets (fun w => fs w !! dst) ;;
        let m := match target with Some g => mode g | None => default_mode E end in
        modify (set_fs (insert dst {| content := content f; mode := m |}))
  end.
End IO.

End Py.

(* ================================================================= *)
(** * The script *)

Import Py.
Local Open Scope py_scope.

(** An attribute that holds a float, or still the placeholder [[]] that
    [__init__] stores in the derived attributes. *)
Definition attribute : Type := option float.

(** Arithmetic on the placeholder is a type error, which the script never
    meets: each attribute is assigned before it is read. *)
Definition format_attribute (a : attribute) : string :=
  match a with
  | Some x => float_repr x
  | None => "[]"
  end.

(** [f"{self.forcing_file}"] *)
Definition format_forcing (f : option string) : string :=
  match f with
  | Some s => s
  | None => "None"
  end.

(** The instance attributes of [UpdateFlashParameterFile]. *)
Record UpdateFlashParameterFile : Type := {
  mach : float;
  mach_alfven : float;
  driving_scale : float;
  dumps_per_turnover : float;
  total_turn_overs : float;
  file_name : string;
  forcing_file : option string;
  debug : bool;
  B0 : attribute;
  tmax : attribute;
  checkpointFileIntervalTime : attribute;
  plotFileIntervalTime : attribute;
  movie_dt_dump : attribute;
  particleFileIntervalTime : attribute;
  dtmax : attribute
}.

(** The derived attributes, in the order of the record. *)
Definition derived (o : UpdateFlashParameterFile) : list attribute :=
  [B0 o; tmax o; checkpointFileIntervalTime o; plotFileIntervalTime o;
   movie_dt_dump o; particleFileIntervalTime o; dtmax o].

Definition with_derived (o : UpdateFlashParameterFile)
    (b t c p m q d : attribute) : UpdateFlashParameterFile :=
  {| mach := mach o; mach_alfven := mach_alfven o;
     driving_scale := driving_scale o;
     dumps_per_turnover := dumps_per_turnover o;
     total_turn_overs := total_turn_overs o;
     file_name := file_name o; forcing_file := forcing_file o;
     debug := debug o;
     B0 := b; tmax := t; checkpointFileIntervalTime := c;
     plotFileIntervalTime := p; movie_dt_dump := m;
     particleFileIntervalTime := q; dtmax := d |}.

Definition set_B0 (v : attribute) (o : UpdateFlashParameterFile) :=
  with_derived o v (tmax o) (checkpointFileIntervalTime o)
    (plotFileIntervalTime o) (movie_dt_dump o) (particleFileIntervalTime o)
    (dtmax o).
Definition set_tmax (v : attribute) (o : UpdateFlashParameterFile) :=
  with_derived o (B0 o) v (checkpointFileIntervalTime o)
    (plotFileIntervalTime o) (movie_dt_dump o) (particleFileIntervalTime o)
    (dtmax o).
Definition set_checkpointFileIntervalTime (v : attribute)
    (o : UpdateFlashParameterFile) :=
  with_derived o (B0 o) (tmax o) v (plotFileIntervalTime o) (movie_dt_dump o)
    (particleFileIntervalTime o) (dtmax o).
Definition set_plotFileIntervalTime (v : attribute)
    (o : UpdateFlashParameterFile) :=
  with_derived o (B0 o) (tmax o) (checkpointFileIntervalTime o) v
    (movie_dt_dump o) (particleFileIntervalTime o) (dtmax o).
Definition set_movie_dt_dump (v : attribute) (o : UpdateFlashParameterFile) :=
  with_derived o (B0 o) (tmax o) (checkpointFileIntervalTime o)
    (plotFileIntervalTime o) v (particleFileIntervalTime o) (dtmax o).
Definition set_particleFileIntervalTime (v : attribute)
    (o : UpdateFlashParameterFile) :=
  with_derived o (B0 o) (tmax o) (checkpointFileIntervalTime o)
    (plotFileIntervalTime o) (movie_dt_dump o) v (dtmax o).
Definition set_dtmax (v : attribute) (o : UpdateFlashParameterFile) :=
  with_derived o (B0 o) (tmax o) (checkpointFileIntervalTime o)
    (plotFileIntervalTime o) (movie_dt_dump o) (particleFileIntervalTime o) v.

(** [UpdateFlashParameterFile.__init__] *)
Definition init (mach_in mach_alfven_in driving_scale_in dumps_per_turnover_in
    total_turn_overs_in : float) (forcing_file_in : option string)
    (file_name_in : string) : UpdateFlashParameterFile :=
  {| mach := mach_in; mach_alfven := mach_alfven_in;
     driving_scale := driving_scale_in;
     dumps_per_turnover := dumps_per_turnover_in;
     total_turn_overs := total_turn_overs_in;
     file_name := file_name_in; forcing_file := forcing_file_in;
     debug := true;
     B0 := None; tmax := None; checkpointFileIntervalTime := None;
     plotFileIntervalTime := None; movie_dt_dump := None;
     particleFileIntervalTime := None; dtmax := None |}.

(** The state a method runs in: the object and the outside world. *)
Record state : Type := { self : UpdateFlashParameterFile; outside : world }.

Definition get_attr {A} (f : UpdateFlashParameterFile -> A) : M state A :=
  gets (fun st => f (self st)).

Definition set_attr (upd : UpdateFlashParameterFile -> UpdateFlashParameterFile)
    : M state unit :=
  modify (fun st => {| self := upd (self st); outside := outside st |}).

(** An attribute read as an operand of float arithmetic. *)
Definition get_float (f : UpdateFlashParameterFile -> attribute)
    : M state float :=
  a <- get_attr f ;;
  match a with
  | Some x => ret x
  | None => raise TypeError
  end.

(** A call of the runtime, made from a method. *)
Definition io {A} (m : M world A) : M state A :=
  fun st => let (r, w) := m (outside st) in
            (r, {| self := self st; outside := w |}).

(** [compute_B0] *)
Definition compute_B0 : M state unit :=
  let rho_0 := 1 in
  let c_s := 1 in
  mach_ <- get_attr mach ;;
  mach_alfven_ <- get_attr mach_alfven ;;
  set_attr (set_B0 (Some
    (np_truediv
       (np_mul (np_mul (float_of_int (2 * c_s))
                       (np_sqrt (float_of_int rho_0 * np_pi)%float))
               mach_)
       mach_alfven_))).

(** [compute_turnover_time_parameters] *)
Definition compute_turnover_time_parameters : M state unit :=
  total_turn_overs_ <- get_attr total_turn_overs ;;
  driving_scale_ <- get_attr driving_scale ;;
  mach_ <- get_attr mach ;;
  v <- truediv total_turn_overs_ (driving_scale_ * mach_)%float ;;
  set_attr (set_tmax (Some v)) ;;
  tmax_ <- get_float tmax ;;
  dumps_per_turnover_ <- get_attr dumps_per_turnover ;;
  v <- truediv tmax_ (total_turn_overs_ * dumps_per_turnover_)%float ;;
  set_attr (set_checkpointFileIntervalTime (Some v)) ;;
  v <- get_attr checkpointFileIntervalTime ;;
  set_attr (set_plotFileIntervalTime v) ;;
  plot_ <- get_float plotFileIntervalTime ;;
  v <- truediv plot_ (float_of_int 10) ;;
  set_attr (set_movie_dt_dump (Some v)) ;;
  v <- get_attr movie_dt_dump ;;
  set_attr (set_particleFileIntervalTime v) ;;
  movie_ <- get_float movie_dt_dump ;;
  v <- truediv movie_ (float_of_int 2) ;;
  set_attr (set_dtmax (Some v)).

(** The two diagnostic prints around a replacement. *)
Definition found_line (file line : string) : string :=
  file +:+ ": found line:" +:+ tab +:+ tab +:+ rstrip line.
Definition replaced_with (file line : string) : string :=
  file +:+ ": replaced with:" +:+ tab +:+ rstrip line.

Definition print_if_debug (msg : string -> string) : M state unit :=
  debug_ <- get_attr debug ;;
  file_name_ <- get_attr file_name ;;
  if debug_ then io (print (msg file_name_)) else ret tt.

(** The body shared by every branch that replaces a line:
    [i = line.find("="); newline = line[0:i+1] + f" {value}\n"], between the
    two prints. *)
Definition replace_value (line : string) (value : M state string)
    : M state string :=
  print_if_debug (fun f => found_line f line) ;;
  let i := find line "=" in
  v <- value ;;
  let newline := slice line 0 (i + 1) +:+ " " +:+ v +:+ nl in
  let line := newline in
  print_if_debug (fun f => replaced_with f line) ;;
  ret line.

Definition float_attr (f : UpdateFlashParameterFile -> attribute)
    : M state string :=
  a <- get_attr f ;; ret (format_attribute a).

(** [replace_magnetic_field] *)
Definition replace_magnetic_field (line : string) : M state string :=
  compute_B0 ;;
  if (find line "MagField_z" =? 0) || (find line "st_MPzBmeanTarget" =? 0)
  then replace_value line (float_attr B0)
  else ret line.

(** [replace_forcing_file] *)
Definition replace_forcing_file (line : string) : M state string :=
  if find line "st_infilename" =? 0
  then replace_value line (a <- get_attr forcing_file ;; ret (format_forcing a))
  else ret line.

(** [replace_turnover_times] *)
Definition replace_turnover_times (line : string) : M state string :=
  compute_turnover_time_parameters ;;
  if find line "movie_dt_dump" =? 0
  then replace_value line (float_attr movie_dt_dump)
  else if find line "checkpointFileIntervalTime" =? 0
  then replace_value line (float_attr checkpointFileIntervalTime)
  else if find line "plotFileIntervalTime" =? 0
  then replace_value line (float_attr plotFileIntervalTime)
  else if find line "particleFileIntervalTime" =? 0
  then replace_value line (float_attr particleFileIntervalTime)
  else if find line "dtmax" =? 0
  then replace_value line (float_attr dtmax)
  else if find line "tmax" =? 0
  then replace_value line (float_attr tmax)
  else ret line.

Section Script.
Variable E : environment.

(** The body of the loop of [update_flash_par] for one line. *)
Definition rewrite_line (line : string) : M state string :=
  line <- replace_magnetic_field line ;;
  line <- replace_turnover_times line ;;
  forcing_file_ <- get_attr forcing_file ;;
  match forcing_file_ with
  | Some _ => replace_forcing_file line
  | None => ret line
  end.

(** [for line in f: ...; ftemp.write(line)], from the [n]-th line on. *)
Fixpoint rewrite_lines (tempfile : string) (n : nat) (lines : list string)
    : M state unit :=
  match lines with
  | [] => ret tt
  | line :: rest =>
      io (guard E (OpReadLine n)) ;;
      line <- rewrite_line line ;;
      io (write E tempfile n line) ;;
      rewrite_lines tempfile (S n) rest
  end.

(** [update_flash_par] *)
Definition update_flash_par : M state unit :=
  tempfile <- io (mkstemp E) ;;
  io (open_w E tempfile) ;;
  file_name_ <- get_attr file_name ;;
  f <- io (open_r E file_name_) ;;
  rewrite_lines tempfile 0 f ;;
  io (guard E OpCloseTemp) ;;
  io (guard E OpCloseFd) ;;
  io (guard E OpCloseSource) ;;
  io (remove E file_name_) ;;
  io (move E tempfile file_name_) ;;
  io (chmod E file_name_ 644).

(** The parsed command line. *)
Record arguments : Type := {
  arg_file_name : string;
  arg_mach : float;
  arg_driving_scale : float;
  arg_mach_alfven : float;
  arg_dumps_per_turnover : float;
  arg_total_turn_overs : float;
  arg_forcing_file : option string
}.

(** [main]; the object it builds is part of the final state. *)
Definition main (args : arguments) (w : world) : outcome unit * state :=
  let flash_paramters :=
    init (arg_mach args) (arg_mach_alfven args) (arg_driving_scale args)
      (arg_dumps_per_turnover args) (arg_total_turn_overs args)
      (arg_forcing_file args) (arg_file_name args) in
  (io (print "Copying 'flash.par' to 'flash.par_restart_backup' as backup.") ;;
   io (copyfile E (arg_file_name args) "flash.par_restart_backup") ;;
   update_flash_par)
    {| self := flash_paramters; outside := w |}.
End Script.

(* ================================================================= *)
(** * Definitions for the statements *)

(** ** Derived quantities *)

(** What the two [compute_] methods store, as functions of the inputs. *)
Definition B0_of (o : UpdateFlashParameterFile) : float :=
  (2 * sqrt np_pi * mach o / mach_alfven o)%float.
Definition tmax_of (o : UpdateFlashParameterFile) : float :=
  (total_turn_overs o / (driving_scale o * mach o))%float.
Definition checkpoint_of (o : UpdateFlashParameterFile) : float :=
  (tmax_of o / (total_turn_overs o * dumps_per_turnover o))%float.
Definition plot_of (o : UpdateFlashParameterFile) : float := checkpoint_of o.
Definition movie_of (o : UpdateFlashParameterFile) : float :=
  (plot_of o / 10)%float.
Definition particle_of (o : UpdateFlashParameterFile) : float := movie_of o.
Definition dtmax_of (o : UpdateFlashParameterFile) : float :=
  (movie_of o / 2)%float.

Definition with_self (o : UpdateFlashParameterFile) (st : state) : state :=
  {| self := o; outside := outside st |}.

(** The object once the six time attributes are assigned. *)
Definition set_times (o : UpdateFlashParameterFile) : UpdateFlashParameterFile :=
  with_derived o (B0 o) (Some (tmax_of o)) (Some (checkpoint_of o))
    (Some (plot_of o)) (Some (movie_of o)) (Some (particle_of o))
    (Some (dtmax_of o)).

(** The two divisors that Python checks. *)
Definition times_defined (o : UpdateFlashParameterFile) : bool :=
  negb (driving_scale o * mach o =? 0)%float
  && negb (total_turn_overs o * dumps_per_turnover o =? 0)%float.

(** A float that is not negative: NaN, or one with a clear sign bit. *)
Definition unsigned_sf (x : spec_float) : bool :=
  match x with
  | S754_nan => true
  | S754_zero s | S754_infinity s | S754_finite s _ _ => negb s
  end.

Definition unsigned (x : float) : bool := unsigned_sf (Prim2SF x).

(** Strictly positive, as Python's [0 < x] decides it. *)
Definition positive_float (x : float) : bool := (0 <? x)%float.

(** ** Lines and keys *)

(** The key token of a line: the text before its first ['='], if it has one. *)
Fixpoint before_eq (s : string) : option string :=
  match s with
  | EmptyString => None
  | String c s' =>
      if Ascii.eqb c "=" then Some EmptyString
      else option_map (String c) (before_eq s')
  end.

(** The text up to and including the first ['='], empty without one. *)
Definition upto_eq (s : string) : string :=
  match before_eq s with
  | Some t => t +:+ "="
  | None => EmptyString
  end.

(** What a replacing branch makes of a line. *)
Definition substituted (line value : string) : string :=
  slice line 0 (find line "=" + 1) +:+ " " +:+ value +:+ nl.

(** The keys of the three [replace_] methods and the text each key is
    given, in the order the methods test them. *)
Definition mag_table (o : UpdateFlashParameterFile) : list (string * string) :=
  [ ("MagField_z", format_attribute (B0 o));
    ("st_MPzBmeanTarget", format_attribute (B0 o)) ].

Definition time_table (o : UpdateFlashParameterFile) : list (string * string) :=
  [ ("movie_dt_dump", format_attribute (movie_dt_dump o));
    ("checkpointFileIntervalTime", format_attribute (checkpointFileIntervalTime o));
    ("plotFileIntervalTime", format_attribute (plotFileIntervalTime o));
    ("particleFileIntervalTime", format_attribute (particleFileIntervalTime o));
    ("dtmax", format_attribute (dtmax o));
    ("tmax", format_attribute (tmax o)) ].

Definition forcing_table (o : UpdateFlashParameterFile) : list (string * string) :=
  match forcing_file o with
  | Some f => [("st_infilename", f)]
  | None => []
  end.

(** The whole table, in the order the loop body goes through it: the
    magnetic field, the turnover times, the forcing file when one is given. *)
Definition target_table (o : UpdateFlashParameterFile) : list (string * string) :=
  mag_table o ++ time_table o ++ forcing_table o.

Definition all_keys : list string :=
  [ "MagField_z"; "st_MPzBmeanTarget"; "movie_dt_dump";
    "checkpointFileIntervalTime"; "plotFileIntervalTime";
    "particleFileIntervalTime"; "dtmax"; "tmax"; "st_infilename" ].

(** [line] starts with the key of the entry. *)
Definition starts (line : string) (kv : string * string) : bool :=
  String.prefix (fst kv) line.

(** The first entry of the table whose key the line starts with. *)
Definition first_match (o : UpdateFlashParameterFile) (line : string)
    : option (string * string) :=
  List.find (starts line) (target_table o).

(** The line written for [line], and what is printed on the way. *)
Definition image (o : UpdateFlashParameterFile) (line : string) : string :=
  match first_match o line with
  | Some (_, v) => substituted line v
  | None => line
  end.

Definition messages (o : UpdateFlashParameterFile) (line newline : string)
    : list string :=
  if debug o
  then [found_line (file_name o) line; replaced_with (file_name o) newline]
  else [].

Definition log_of (o : UpdateFlashParameterFile) (line : string) : list string :=
  match first_match o line with
  | Some (_, v) => messages o line (substituted line v)
  | None => []
  end.

(** The object once both [compute_] methods have run. *)
Definition derive (o : UpdateFlashParameterFile) : UpdateFlashParameterFile :=
  set_times (set_B0 (Some (B0_of o)) o).

Definition printed (msgs : list string) (st : state) : state :=
  {| self := self st;
     outside := {| fs := fs (outside st); stdout := stdout (outside st) ++ msgs |} |}.

(** A key: it has no ['='] and starts with a character other than a space. *)
Definition key_ok (k : string) : bool :=
  match k with
  | String c _ => negb (Ascii.eqb c " ")
  | EmptyString => false
  end
  && match before_eq k with
     | None => true
     | Some _ => false
     end.

(** What a method that goes through [table] returns and prints. *)
Definition replaced_by (table : list (string * string))
    (o : UpdateFlashParameterFile) (line : string) (st : state)
    : outcome string * state :=
  match List.find (starts line) table with
  | Some (_, v) =>
      (Return (substituted line v),
       printed (messages o line (substituted line v)) st)
  | None => (Return line, st)
  end.

(** ** Files and runs *)

(** The lines written one after the other. *)
Fixpoint concat_lines (ls : list string) : string :=
  match ls with
  | [] => EmptyString
  | l :: ls' => l +:+ concat_lines ls'
  end.

Definition appended (text : string) (f : file) : file :=
  {| content := content f +:+ text; mode := mode f |}.

(** The object after the loop went through [lines]. *)
Definition after_lines (o : UpdateFlashParameterFile) (lines : list string)
    : UpdateFlashParameterFile :=
  match lines with
  | [] => o
  | _ :: _ => derive o
  end.

(** An environment in which every call succeeds. *)
Definition no_faults (E : environment) : Prop := forall op, fails E op = false.

(** An exception raised before [move] is reached. *)
Definition early (e : exn) : Prop :=
  e <> OSError OpMove /\ e <> OSError OpChmod.

Definition with_fs (f : filesystem -> filesystem) (st : state) : state :=
  {| self := self st;
     outside := {| fs := f (fs (outside st)); stdout := stdout (outside st) |} |}.

(** The object [main] builds from the command line. *)
Definition object_of (args : arguments) : UpdateFlashParameterFile :=
  init (arg_mach args) (arg_mach_alfven args) (arg_driving_scale args)
    (arg_dumps_per_turnover args) (arg_total_turn_overs args)
    (arg_forcing_file args) (arg_file_name args).

Definition backup_name : string := "flash.par_restart_backup".
Definition backup_message : string :=
  "Copying 'flash.par' to 'flash.par_restart_backup' as backup.".

(** The mode of the backup copy: that of the file it overwrites, if any. *)
Definition backup_mode (E : environment) (w : world) : Z :=
  match fs w !! backup_name with
  | Some g => mode g
  | None => default_mode E
  end.

(** A run in which nothing fails, on an existing file other than the backup,
    with a fresh name for the temporary file. *)
Record ordinary_run (E : environment) (args : arguments) (w : world) (f : file)
    : Prop := {
  run_no_faults : no_faults E;
  run_file : fs w !! arg_file_name args = Some f;
  run_not_backup : arg_file_name args <> backup_name;
  run_tmp_fresh : fs w !! tmp_name E = None;
  run_tmp_not_backup : tmp_name E <> backup_name
}.

(** The documented example:
    [prep_MHD -m 10 -ma 1.0 -forcing forcingfile_M10.dat], with the default
    driving scale, dumps per turnover and number of turnovers, in a world
    that holds [flash.par] only. *)
Definition example_args : arguments :=
  {| arg_file_name := "flash.par";
     arg_mach := 10;
     arg_driving_scale := 2;
     arg_mach_alfven := 1;
     arg_dumps_per_turnover := 10;
     arg_total_turn_overs := 10;
     arg_forcing_file := Some "forcingfile_M10.dat" |}.

Definition example_env : environment :=
  {| tmp_name := "/tmp/tmpk3v9x_2a"; fails := fun _ => false; default_mode := 420;
     move_left := Nothing |}.

Definition world_with (text : string) : world :=
  {| fs := {[ "flash.par" := {| content := text; mode := 436 |} ]};
     stdout := [] |}.

Definition example_state : state :=
  {| self := object_of example_args; outside := world_with "" |}.

(** Not negative: strictly positive, a zero, or NaN. *)
Definition not_negative (x : float) : Prop :=
  positive_float x = true \/ (x =? 0)%float = true \/ is_nan x = true.

(** An attribute that holds a float that is not negative. *)
Definition holds_not_negative (a : attribute) : Prop :=
  exists x, a = Some x /\ not_negative x.

(** The five inputs are strictly positive. *)
Definition positive_inputs (o : UpdateFlashParameterFile) : Prop :=
  positive_float (mach o) = true
  /\ positive_float (mach_alfven o) = true
  /\ positive_float (driving_scale o) = true
  /\ positive_float (dumps_per_turnover o) = true
  /\ positive_float (total_turn_overs o) = true.

(** The four inputs of the time parameters are strictly positive. *)
Definition positive_time_inputs (o : UpdateFlashParameterFile) : Prop :=
  positive_float (mach o) = true
  /\ positive_float (driving_scale o) = true
  /\ positive_float (dumps_per_turnover o) = true
  /\ positive_float (total_turn_overs o) = true.

(** Between [2^-200] and [2^200], that is about [6.2e-61] and [1.6e60]. *)
Definition in_range (x : float) : bool :=
  (0x1p-200 <=? x)%float && (x <=? 0x1p+200)%float.

Definition time_inputs_in_range (o : UpdateFlashParameterFile) : Prop :=
  in_range (mach o) = true
  /\ in_range (driving_scale o) = true
  /\ in_range (dumps_per_turnover o) = true
  /\ in_range (total_turn_overs o) = true.

Definition inputs_in_range (o : UpdateFlashParameterFile) : Prop :=
  in_range (mach_alfven o) = true /\ time_inputs_in_range o.

(** A positive normal number of a given size: [m * 2^e] with a mantissa of
    53 bits, so at least [2^(e+52)] and less than [2^(e+53)], where
    [a <= e + 53 <= b]. *)
Definition binade (a b : Z) (x : float) : Prop :=
  exists m e, Prim2SF x = S754_finite false m e
              /\ Zdigits2 (Z.pos m) = 53 /\ a <= e + 53 <= b.

(** The character [c] does not occur in the text. *)
Fixpoint absent (c : ascii) (s : string) : bool :=
  match s with
  | EmptyString => true
  | String x s' => negb (Ascii.eqb x c) && absent c s'
  end.

(** The text has no carriage return; no line feed; neither. *)
Definition no_cr (s : string) : bool := absent CR s.
Definition no_lf (s : string) : bool := absent LF s.
Definition no_break (s : string) : bool := no_cr s && no_lf s.

(** The environment in which [op], a write, the move or the chmod, is the
    only call that fails; the move fails before it has written anything. *)
Definition failing (op : io_op) : environment :=
  {| tmp_name := tmp_name example_env;
     fails := fun op' => match op, op' with
                         | OpMove, OpMove => true
                         | OpWrite n, OpWrite n' => Nat.eqb n n'
                         | OpChmod, OpChmod => true
                         | _, _ => false
                         end;
     default_mode := default_mode example_env;
     move_left := Nothing |}.

(** The environment in which the move is the only call that fails, after it
    has got as far as [l]. *)
Definition failing_move (l : leftover) : environment :=
  {| tmp_name := tmp_name example_env;
     fails := fails (failing OpMove);
     default_mode := default_mode example_env;
     move_left := l |}.

Definition tmax_line : string := "tmax = 999.0" +:+ nl.

(** A finite float: a zero or a number, neither an infinity nor NaN. *)
Definition finite_float (x : float) : bool :=
  match Prim2SF x with
  | S754_zero _ | S754_finite _ _ _ => true
  | S754_infinity _ | S754_nan => false
  end.

(** An attribute that holds a strictly positive, finite float. *)
Definition holds_positive (a : attribute) : Prop :=
  exists x, a = Some x /\ positive_float x = true /\ finite_float x = true.

Definition with_mach (m ma : float) (args : arguments) : arguments :=
  {| arg_file_name := arg_file_name args;
     arg_mach := m;
     arg_driving_scale := arg_driving_scale args;
     arg_mach_alfven := ma;
     arg_dumps_per_turnover := arg_dumps_per_turnover args;
     arg_total_turn_overs := arg_total_turn_overs args;
     arg_forcing_file := arg_forcing_file args |}.

(** A list of lines as a text file yields them: each one ends with its only
    line feed, except that the last one may end without. *)
Inductive line_list : list string -> Prop :=
| line_list_nil : line_list []
| line_list_last (body : string) :
    no_lf body = true -> body <> "" -> line_list [body]
| line_list_cons (body : string) (ls : list string) :
    no_lf body = true -> line_list ls -> line_list ((body +:+ nl) :: ls).

(** The values of the table contain no line break. *)
Definition plain_values (o : UpdateFlashParameterFile) : Prop :=
  forall kv, In kv (target_table o) -> no_break (snd kv) = true.

Definition line_break (c : ascii) : Prop := c = LF \/ c = CR.

(** The values of the table contain no line break when the name of the
    forcing file contains none. *)
Definition plain_forcing (o : UpdateFlashParameterFile) : bool :=
  match forcing_file o with
  | Some f => no_break f
  | None => true
  end.

(** ** Whole runs *)

(** The line starts with the first character of one of the keys. *)
Definition shares_initial (line : string) : bool :=
  existsb (fun k => match k, line with
                    | String a _, String b _ => Ascii.eqb a b
                    | _, _ => false
                    end) all_keys.

(** The line is one that the loop body replaces. *)
Definition is_target (o : UpdateFlashParameterFile) (line : string) : bool :=
  match first_match o line with
  | Some _ => true
  | None => false
  end.

(** The state [main] starts [update_flash_par] from when the backup copy
    could not be made: the notice is printed and nothing else happened. *)
Definition refused (args : arguments) (w : world) : state :=
  printed [backup_message] {| self := object_of args; outside := w |}.


Definition with_file (name : string) (args : arguments) : arguments :=
  {| arg_file_name := name;
     arg_mach := arg_mach args;
     arg_driving_scale := arg_driving_scale args;
     arg_mach_alfven := arg_mach_alfven args;
     arg_dumps_per_turnover := arg_dumps_per_turnover args;
     arg_total_turn_overs := arg_total_turn_overs args;
     arg_forcing_file := arg_forcing_file args |}.

(** The command line [prep_MHD -m m -ma ma]: the options left out take the
    defaults that the argument parser declares. *)
Definition parsed_defaults (m ma : float) : arguments :=
  {| arg_file_name := "flash.par";
     arg_mach := m;
     arg_driving_scale := 2;
     arg_mach_alfven := ma;
     arg_dumps_per_turnover := 10;
     arg_total_turn_overs := 10;
     arg_forcing_file := None |}.


(* ================================================================= *)
(** * The derived quantities *)

Lemma float_of_int_2 : float_of_int 2 = 2%float.
Proof. reflexivity. Qed.

Lemma float_of_int_10 : float_of_int 10 = 10%float.
Proof. reflexivity. Qed.

Lemma one_times_pi : (float_of_int 1 * np_pi)%float = np_pi.
Proof. reflexivity. Qed.

Lemma compute_B0_run (st : state) :
  compute_B0 st = (Return tt, with_self (set_B0 (Some (B0_of (self st))) (self st)) st).
Proof.
  unfold compute_B0, bind, get_attr, gets, set_attr, modify, with_self, B0_of,
    np_truediv, np_mul, np_sqrt.
  cbv zeta. change (2 * 1) with 2.
  rewrite float_of_int_2, one_times_pi. reflexivity.
Qed.

Lemma truediv_run {S : Type} (a b : float) (s : S) :
  truediv a b s =
  if (b =? 0)%float then (Raise ZeroDivisionError, s) else (Return (a / b)%float, s).
Proof. unfold truediv. destruct (b =? 0)%float; reflexivity. Qed.

Lemma ten_nonzero : (float_of_int 10 =? 0)%float = false.
Proof. reflexivity. Qed.

Lemma two_nonzero : (float_of_int 2 =? 0)%float = false.
Proof. reflexivity. Qed.

(** Stepping through a method: unfold the monad, project the records. *)
Ltac py_unfold :=
  unfold bind, get_attr, get_float, gets, set_attr, modify, ret, raise.

Ltac py_proj :=
  cbn beta iota zeta delta
    [self outside fs stdout with_self with_derived set_B0 set_tmax
     set_checkpointFileIntervalTime set_plotFileIntervalTime
     set_movie_dt_dump set_particleFileIntervalTime set_dtmax
     mach mach_alfven driving_scale dumps_per_turnover total_turn_overs
     file_name forcing_file debug B0 tmax checkpointFileIntervalTime
     plotFileIntervalTime movie_dt_dump particleFileIntervalTime dtmax].

Ltac py_step := py_unfold; py_proj.

Lemma compute_turnover_time_parameters_run (st : state) :
  compute_turnover_time_parameters st =
  let o := self st in
  if (driving_scale o * mach o =? 0)%float then (Raise ZeroDivisionError, st)
  else if (total_turn_overs o * dumps_per_turnover o =? 0)%float
  then (Raise ZeroDivisionError, with_self (set_tmax (Some (tmax_of o)) o) st)
  else (Return tt, with_self (set_times o) st).
Proof.
  destruct st as [o w]. cbv zeta.
  unfold compute_turnover_time_parameters. py_step. rewrite truediv_run.
  destruct (driving_scale o * mach o =? 0)%float; [reflexivity|].
  py_step. rewrite truediv_run.
  destruct (total_turn_overs o * dumps_per_turnover o =? 0)%float;
    [reflexivity|].
  py_step. rewrite truediv_run, ten_nonzero.
  py_step. rewrite truediv_run, two_nonzero.
  rewrite float_of_int_10, float_of_int_2. reflexivity.
Qed.

(** ** Signs in binary64 arithmetic *)

Lemma binary_round_aux_unsigned (m e : Z) (l : location) :
  unsigned_sf (binary_round_aux prec emax false m e l) = true.
Proof.
  unfold binary_round_aux.
  destruct (shr_fexp prec emax m e l) as [mrs' e'].
  destruct (shr_fexp prec emax _ e' loc_Exact) as [mrs'' e''].
  destruct (shr_m mrs''); try reflexivity.
  destruct (e'' <=? emax - prec); reflexivity.
Qed.

Lemma SFmul_unsigned (x y : spec_float) :
  unsigned_sf x = true -> unsigned_sf y = true ->
  unsigned_sf (SFmul prec emax x y) = true.
Proof.
  destruct x as [[]|[]| |[] mx ex], y as [[]|[]| |[] my ey];
    cbn; try discriminate; try reflexivity.
  intros _ _. apply binary_round_aux_unsigned.
Qed.

Lemma SFdiv_unsigned (x y : spec_float) :
  unsigned_sf x = true -> unsigned_sf y = true ->
  unsigned_sf (SFdiv prec emax x y) = true.
Proof.
  destruct x as [[]|[]| |[] mx ex], y as [[]|[]| |[] my ey];
    cbn -[SFdiv_core_binary]; try discriminate; try reflexivity.
  intros _ _.
  destruct (SFdiv_core_binary prec emax (Z.pos mx) ex (Z.pos my) ey)
    as [[mz ez] lz].
  apply binary_round_aux_unsigned.
Qed.

Lemma mul_unsigned (x y : float) :
  unsigned x = true -> unsigned y = true -> unsigned (x * y)%float = true.
Proof. unfold unsigned. rewrite mul_spec. apply SFmul_unsigned. Qed.

Lemma div_unsigned (x y : float) :
  unsigned x = true -> unsigned y = true -> unsigned (x / y)%float = true.
Proof. unfold unsigned. rewrite div_spec. apply SFdiv_unsigned. Qed.

Lemma positive_unsigned (x : float) :
  positive_float x = true -> unsigned x = true.
Proof.
  unfold positive_float, unsigned. rewrite ltb_spec.
  change (Prim2SF 0) with (S754_zero false).
  destruct (Prim2SF x) as [[]|[]| |[] m e]; cbn; congruence.
Qed.

(** Not negative means: positive, a zero, or NaN. *)
Lemma unsigned_cases (x : float) :
  unsigned x = true ->
  positive_float x = true \/ (x =? 0)%float = true \/ is_nan x = true.
Proof.
  unfold positive_float, unsigned, is_nan.
  rewrite ltb_spec, !eqb_spec.
  change (Prim2SF 0) with (S754_zero false).
  destruct (Prim2SF x) as [[]|[]| |[] m e]; cbn; try discriminate; auto.
Qed.

(** ** Sizes in binary64 arithmetic

    Products and quotients of normal numbers stay normal, and so neither
    underflow nor overflow, as long as their binade exponents stay between
    [-1021] and [1024]. *)

Lemma Zdigits2_log2 (z : Z) : 0 < z -> Zdigits2 z = Z.log2 z + 1.
Proof.
  destruct z as [|p|p]; try lia. intros _. cbn [Zdigits2].
  assert (H : forall q, digits2_pos q = Pos.size q).
  { induction q as [q IH|q IH|]; cbn [digits2_pos Pos.size];
      try rewrite IH; reflexivity. }
  rewrite H. destruct p as [p|p|]; cbn [Z.log2 Pos.size];
    try rewrite Pos2Z.inj_succ; lia.
Qed.

Lemma shr_1_m (r : shr_record) :
  0 <= shr_m r -> shr_m (shr_1 r) = Z.div2 (shr_m r).
Proof.
  destruct r as [m b c]. cbn [shr_m]. intros Hm.
  destruct m as [|[p|p|]|p]; try reflexivity; lia.
Qed.

Lemma iter_shr_1_m (n : positive) :
  forall r, 0 <= shr_m r ->
            shr_m (iter_pos shr_1 n r) = shr_m r / 2 ^ Z.pos n.
Proof.
  assert (Hstep : forall r, 0 <= shr_m r -> shr_m (shr_1 r) = shr_m r / 2).
  { intros r Hr. rewrite shr_1_m by exact Hr. apply Z.div2_div. }
  assert (Hpos : forall r, 0 <= shr_m r -> 0 <= shr_m (shr_1 r)).
  { intros r Hr. rewrite Hstep by exact Hr. apply Z.div_pos; lia. }
  induction n as [n IH|n IH|]; intros r Hr; cbn [iter_pos].
  - rewrite IH, IH, Hstep by (try rewrite IH; try apply Z.div_pos; auto; lia).
    rewrite !Z.div_div by lia. f_equal.
    rewrite Pos2Z.inj_xI, <- !Z.pow_add_r by lia.
    replace (2 * Z.pos n + 1) with (1 + Z.pos n + Z.pos n) by lia.
    rewrite !Z.pow_add_r by lia. lia.
  - rewrite IH, IH by (try rewrite IH; try apply Z.div_pos; auto; lia).
    rewrite !Z.div_div by lia. f_equal.
    rewrite Pos2Z.inj_xO, <- Z.pow_add_r by lia. f_equal. lia.
  - rewrite Hstep by exact Hr. reflexivity.
Qed.

Lemma round_nearest_even_bounds (m : Z) (l : location) :
  m <= round_nearest_even m l <= m + 1.
Proof.
  unfold round_nearest_even. destruct l as [|[]]; try lia.
  destruct (Z.even m); lia.
Qed.

Lemma shr_record_of_loc_m (m : Z) (l : location) :
  shr_m (shr_record_of_loc m l) = m.
Proof. destruct l as [|[]]; reflexivity. Qed.

Lemma log2_div_pow2 (m n : Z) :
  0 < m -> 0 <= n -> n <= Z.log2 m -> Z.log2 (m / 2 ^ n) = Z.log2 m - n
  /\ 0 < m / 2 ^ n.
Proof.
  intros Hm Hn Hle. rewrite <- Z.shiftr_div_pow2 by lia.
  rewrite Z.log2_shiftr by lia. split; [lia|].
  destruct (Z.eq_dec (Z.shiftr m n) 0) as [H0|H0].
  - apply Z.shiftr_eq_0_iff in H0. lia.
  - pose proof (Z.shiftr_nonneg m n). lia.
Qed.

(** What [shr_fexp] does to a mantissa of at least 53 bits in the normal
    range: it keeps the 53 leading bits. *)
Lemma shr_fexp_normal (m e : Z) (l : location) :
  0 < m -> 52 <= Z.log2 m -> -1021 <= Z.log2 m + 1 + e ->
  exists r, shr_fexp prec emax m e l = (r, Z.log2 m + 1 + e - 53)
            /\ 0 < shr_m r /\ Z.log2 (shr_m r) = 52.
Proof.
  intros Hm Hd Hk. unfold shr_fexp, fexp, SpecFloat.emin.
  rewrite Zdigits2_log2 by exact Hm.
  change prec with 53. change emax with 1024.
  replace (Z.max (Z.log2 m + 1 + e - 53) (3 - 1024 - 53) - e)
    with (Z.log2 m - 52) by lia.
  unfold shr. destruct (Z.log2 m - 52) as [|p|p] eqn:Hn; try lia.
  - eexists. split; [f_equal; lia|].
    rewrite shr_record_of_loc_m. split; [exact Hm|lia].
  - eexists. split; [f_equal; lia|].
    rewrite iter_shr_1_m by (rewrite shr_record_of_loc_m; lia).
    rewrite shr_record_of_loc_m.
    destruct (log2_div_pow2 m (Z.pos p)) as [H1 H2]; try lia.
Qed.

Lemma binary_round_aux_normal (s : bool) (m e : Z) (l : location) :
  0 < m -> 52 <= Z.log2 m ->
  -1021 <= Z.log2 m + 1 + e -> Z.log2 m + 1 + e + 1 <= 1024 ->
  exists m' e',
    binary_round_aux prec emax s m e l = S754_finite s m' e'
    /\ Zdigits2 (Z.pos m') = 53
    /\ Z.log2 m + 1 + e <= e' + 53 <= Z.log2 m + 1 + e + 1.
Proof.
  intros Hm Hd Hlo Hhi. unfold binary_round_aux.
  destruct (shr_fexp_normal m e l Hm Hd Hlo) as (r1 & -> & Hr1 & Hl1).
  set (k := Z.log2 m + 1 + e) in *.
  pose proof (round_nearest_even_bounds (shr_m r1) (loc_of_shr_record r1)) as Hb.
  set (m2 := round_nearest_even (shr_m r1) (loc_of_shr_record r1)) in *.
  assert (Hm2 : 0 < m2) by lia.
  assert (Hl2 : 52 <= Z.log2 m2 <= 53).
  { split.
    - rewrite <- Hl1. apply Z.log2_le_mono. lia.
    - transitivity (Z.log2 (Z.succ (shr_m r1))).
      + apply Z.log2_le_mono. lia.
      + pose proof (Z.log2_succ_le (shr_m r1)). lia. }
  destruct (shr_fexp_normal m2 (k - 53) loc_Exact Hm2) as (r2 & -> & Hr2 & Hl3);
    try lia.
  destruct (shr_m r2) as [|p|p] eqn:Hp; try lia.
  change prec with 53. change emax with 1024.
  destruct (Z.leb_spec (Z.log2 m2 + 1 + (k - 53) - 53) (1024 - 53)); [|lia].
  do 2 eexists. split; [reflexivity|].
  rewrite Zdigits2_log2 by lia. lia.
Qed.

Lemma mul_binade (a b c d : Z) (x y : float) :
  binade a b x -> binade c d y ->
  -1021 <= a + c - 1 -> b + d + 1 <= 1024 ->
  binade (a + c - 1) (b + d + 1) (x * y).
Proof.
  intros (mx & ex & Hx & Dx & Ex) (my & ey & Hy & Dy & Ey) Hlo Hhi.
  unfold binade. rewrite mul_spec, Hx, Hy. unfold SF64mul. cbn [SFmul xorb].
  rewrite Zdigits2_log2 in Dx, Dy by lia.
  pose proof (Z.log2_mul_below (Z.pos mx) (Z.pos my) ltac:(lia) ltac:(lia)) as H1.
  pose proof (Z.log2_mul_above (Z.pos mx) (Z.pos my) ltac:(lia) ltac:(lia)) as H2.
  change (Z.pos (mx * my)) with (Z.pos mx * Z.pos my).
  destruct (binary_round_aux_normal false (Z.pos mx * Z.pos my) (ex + ey) loc_Exact)
    as (m' & e' & -> & D' & E'); try lia.
  exists m', e'. split; [reflexivity|]. split; [exact D'|lia].
Qed.

Lemma div_binade (a b c d : Z) (x y : float) :
  binade a b x -> binade c d y ->
  -1021 <= a - d -> b - c + 2 <= 1024 ->
  binade (a - d) (b - c + 2) (x / y).
Proof.
  intros (mx & ex & Hx & Dx & Ex) (my & ey & Hy & Dy & Ey) Hlo Hhi.
  unfold binade. rewrite div_spec, Hx, Hy. unfold SF64div.
  cbn [SFdiv xorb]. unfold SFdiv_core_binary.
  rewrite Dx, Dy. unfold fexp, SpecFloat.emin.
  change prec with 53. change emax with 1024.
  replace (Z.min (Z.max (53 + ex - (53 + ey) - 53) (3 - 1024 - 53)) (ex - ey))
    with (ex - ey - 53) by lia.
  replace (ex - ey - (ex - ey - 53)) with 53 by lia.
  cbv zeta. rewrite Z.shiftl_mul_pow2 by lia.
  rewrite Zdigits2_log2 in Dx, Dy by lia.
  pose proof (Z.log2_spec (Z.pos mx) ltac:(lia)) as Sx.
  pose proof (Z.log2_spec (Z.pos my) ltac:(lia)) as Sy.
  replace (Z.log2 (Z.pos mx)) with 52 in Sx by lia.
  replace (Z.log2 (Z.pos my)) with 52 in Sy by lia.
  change (Z.succ 52) with 53 in *.
  destruct (Z.div_eucl (Z.pos mx * 2 ^ 53) (Z.pos my)) as [q r] eqn:Hqr.
  assert (Hq : q = Z.pos mx * 2 ^ 53 / Z.pos my)
    by (unfold Z.div; rewrite Hqr; reflexivity).
  assert (Hq1 : 2 ^ 52 <= q).
  { rewrite Hq. apply Z.div_le_lower_bound; [lia|].
    change (2 ^ 53) with (2 * 2 ^ 52) in *. nia. }
  assert (Hq2 : q < 2 ^ 54).
  { rewrite Hq. apply Z.div_lt_upper_bound; [lia|].
    change (2 ^ 54) with (2 * 2 ^ 53). nia. }
  assert (Hl : 52 <= Z.log2 q <= 53).
  { split.
    - apply Z.log2_le_pow2; lia.
    - assert (Z.log2 q < 54) by (apply Z.log2_lt_pow2; lia). lia. }
  destruct (binary_round_aux_normal false q (ex - ey - 53) (new_location (Z.pos my) r))
    as (m' & e' & Hr & D' & E'); try lia.
  exists m', e'. split; [exact Hr|]. split; [exact D'|lia].
Qed.

Lemma binade_positive (a b : Z) (x : float) :
  binade a b x -> (0 <? x)%float = true.
Proof.
  intros (m & e & H & _). rewrite ltb_spec, H. reflexivity.
Qed.

Lemma binade_finite (a b : Z) (x : float) :
  binade a b x -> finite_float x = true.
Proof. intros (m & e & H & _). unfold finite_float. rewrite H. reflexivity. Qed.


Lemma binade_not_zero (a b : Z) (x : float) :
  binade a b x -> (x =? 0)%float = false.
Proof. intros (m & e & H & _). rewrite eqb_spec, H. reflexivity. Qed.

Lemma binade_widen (a b a' b' : Z) (x : float) :
  binade a b x -> a' <= a -> b <= b' -> binade a' b' x.
Proof.
  intros (m & e & H & D & E) Ha Hb. exists m, e. repeat split; try assumption; lia.
Qed.

Lemma in_range_binade (x : float) : in_range x = true -> binade (-199) 201 x.
Proof.
  unfold in_range. rewrite !leb_spec. intros H.
  apply andb_prop in H as [H1 H2].
  pose proof (Prim2SF_valid x) as Hv.
  change (Prim2SF 0x1p-200) with (S754_finite false 4503599627370496 (-252)) in H1.
  change (Prim2SF 0x1p+200) with (S754_finite false 4503599627370496 148) in H2.
  destruct (Prim2SF x) as [[]|[]| |[] m e] eqn:Hx; try discriminate.
  unfold SFleb in H1, H2. cbn [SFcompare] in H1, H2.
  assert (He1 : -252 <= e).
  { destruct (Z.compare_spec (-252) e); first [lia | discriminate]. }
  assert (He2 : e <= 148).
  { destruct (Z.compare_spec e 148); first [lia | discriminate]. }
  unfold SpecFloat.valid_binary, bounded, canonical_mantissa in Hv.
  apply andb_prop in Hv as [Hc _]. apply Z.eqb_eq in Hc.
  unfold fexp, SpecFloat.emin in Hc.
  change prec with 53 in Hc. change emax with 1024 in Hc.
  exists m, e. split; [exact Hx|]. cbn [Zdigits2]. lia.
Qed.

Lemma in_range_positive (x : float) :
  in_range x = true -> positive_float x = true.
Proof. intros H. eapply binade_positive, in_range_binade, H. Qed.

(** The sizes of the constants of the script. *)
Lemma binade_two_sqrt_pi : binade 2 2 (2 * sqrt np_pi).
Proof.
  eexists _, _. split; [vm_compute; reflexivity|]. split; [reflexivity|lia].
Qed.

Lemma binade_ten : binade 4 4 10.
Proof.
  eexists _, _. split; [vm_compute; reflexivity|]. split; [reflexivity|lia].
Qed.

Lemma binade_two : binade 2 2 2.
Proof.
  eexists _, _. split; [vm_compute; reflexivity|]. split; [reflexivity|lia].
Qed.

(** The sizes of the derived quantities for inputs between [2^-200] and
    [2^200]: every product and quotient on the way is a normal number. *)
Lemma B0_binade (o : UpdateFlashParameterFile) :
  in_range (mach o) = true -> in_range (mach_alfven o) = true ->
  binade (-399) 405 (B0_of o).
Proof.
  intros Hm%in_range_binade Ha%in_range_binade. unfold B0_of.
  eapply binade_widen;
    [eapply div_binade;
       [eapply mul_binade; [exact binade_two_sqrt_pi|exact Hm|lia|lia]
       |exact Ha|lia|lia]
    |lia|lia].
Qed.

Lemma times_binade (o : UpdateFlashParameterFile) :
  time_inputs_in_range o ->
  binade (-399) 403 (driving_scale o * mach o)
  /\ binade (-399) 403 (total_turn_overs o * dumps_per_turnover o)
  /\ binade (-602) 602 (tmax_of o)
  /\ binade (-1005) 1003 (checkpoint_of o)
  /\ binade (-1009) 1001 (movie_of o)
  /\ binade (-1011) 1001 (dtmax_of o).
Proof.
  intros (Hm%in_range_binade & Hd%in_range_binade & Hn%in_range_binade
          & Ht%in_range_binade).
  assert (P1 : binade (-399) 403 (driving_scale o * mach o))
    by (eapply binade_widen; [eapply mul_binade; eauto; lia|lia|lia]).
  assert (P2 : binade (-399) 403 (total_turn_overs o * dumps_per_turnover o))
    by (eapply binade_widen; [eapply mul_binade; eauto; lia|lia|lia]).
  assert (T1 : binade (-602) 602 (tmax_of o))
    by (unfold tmax_of; eapply binade_widen;
        [eapply div_binade; eauto; lia|lia|lia]).
  assert (T2 : binade (-1005) 1003 (checkpoint_of o))
    by (unfold checkpoint_of; eapply binade_widen;
        [eapply div_binade; eauto; lia|lia|lia]).
  assert (T3 : binade (-1009) 1001 (movie_of o))
    by (unfold movie_of, plot_of; eapply binade_widen;
        [eapply div_binade; [exact T2|exact binade_ten|lia|lia]|lia|lia]).
  assert (T4 : binade (-1011) 1001 (dtmax_of o))
    by (unfold dtmax_of; eapply binade_widen;
        [eapply div_binade; [exact T3|exact binade_two|lia|lia]|lia|lia]).
  auto 10.
Qed.

Lemma times_defined_in_range (o : UpdateFlashParameterFile) :
  time_inputs_in_range o -> times_defined o = true.
Proof.
  intros H. destruct (times_binade o H) as (P1 & P2 & _).
  unfold times_defined.
  rewrite (binade_not_zero _ _ _ P1), (binade_not_zero _ _ _ P2). reflexivity.
Qed.

Lemma positive_in_range (o : UpdateFlashParameterFile) :
  time_inputs_in_range o -> positive_time_inputs o.
Proof.
  intros (Hm & Hd & Hn & Ht). repeat split; apply in_range_positive; assumption.
Qed.

(* ================================================================= *)
(** * The line rewriter *)

(** ** [find], [slice] and prefixes *)

Lemma prefix_empty (s : string) : String.prefix "" s = true.
Proof. destruct s; reflexivity. Qed.

Lemma prefix_cons (a b : ascii) (k s : string) :
  String.prefix (String a k) (String b s) = Ascii.eqb a b && String.prefix k s.
Proof.
  cbn. destruct (ascii_dec a b) as [->|ne].
  - rewrite Ascii.eqb_refl. reflexivity.
  - apply Ascii.eqb_neq in ne. rewrite ne. reflexivity.
Qed.

Lemma find_from_range (sub s : string) (i : Z) :
  find_from i s sub = -1 \/ i <= find_from i s sub.
Proof.
  revert i. induction s as [|c s IH]; intros i; cbn -[String.prefix].
  - destruct (String.prefix sub ""); lia.
  - destruct (String.prefix sub (String c s)); [lia|].
    destruct (IH (i + 1)); lia.
Qed.

(** [line.find(key) == 0] says that the line starts with the key. *)
Lemma find_zero (s sub : string) : (find s sub =? 0) = String.prefix sub s.
Proof.
  unfold find. destruct s as [|c s]; cbn -[String.prefix].
  - destruct (String.prefix sub ""); reflexivity.
  - destruct (String.prefix sub (String c s)); [reflexivity|].
    destruct (find_from_range sub s (0 + 1)); lia.
Qed.

Lemma find_from_eq (s : string) (i : Z) :
  find_from i s "=" =
  match before_eq s with
  | Some t => i + Z.of_nat (String.length t)
  | None => -1
  end.
Proof.
  revert i. induction s as [|c s IH]; intros i.
  - reflexivity.
  - cbn [find_from before_eq]. rewrite prefix_cons, prefix_empty, andb_true_r.
    rewrite (Ascii.eqb_sym "=" c).
    destruct (Ascii.eqb c "="); cbn [option_map String.length].
    + lia.
    + rewrite IH. destruct (before_eq s); cbn [option_map String.length]; lia.
Qed.

Lemma substring_0_0 (s : string) : String.substring 0 0 s = "".
Proof. destruct s; reflexivity. Qed.

Lemma before_eq_substring (s t : string) :
  before_eq s = Some t ->
  String.substring 0 (S (String.length t)) s = t +:+ "="
  /\ (String.length t < String.length s)%nat.
Proof.
  revert t. induction s as [|c s IH]; intros t; cbn [before_eq].
  - discriminate.
  - destruct (Ascii.eqb c "=") eqn:Ec.
    + intros [= <-]. apply Ascii.eqb_eq in Ec as ->.
      split; [|cbn; lia]. cbn. rewrite substring_0_0. reflexivity.
    + destruct (before_eq s) as [t'|]; cbn [option_map]; [|discriminate].
      intros [= <-]. destruct (IH t' eq_refl) as [Hs Hl].
      split; [|cbn; lia].
      cbn [String.length String.substring String.append].
      cbn [String.length] in Hs. rewrite Hs. reflexivity.
Qed.

(** [line[0:i+1]] for [i = line.find("=")] is the text up to and including
    the first ['='], and nothing at all when [i] is [-1]. *)
Lemma slice_upto_eq (s : string) : slice s 0 (find s "=" + 1) = upto_eq s.
Proof.
  unfold find, upto_eq, slice, clamp_index. rewrite find_from_eq.
  destruct (before_eq s) as [t|] eqn:Et.
  - destruct (before_eq_substring s t Et) as [Hs Hl].
    replace (0 <? 0) with false by reflexivity.
    destruct (0 + Z.of_nat (String.length t) + 1 <? 0) eqn:Hneg; [lia|].
    rewrite Z.min_l by lia. rewrite Z.min_l by lia.
    replace (Z.to_nat 0) with 0%nat by reflexivity.
    replace (Z.to_nat (0 + Z.of_nat (String.length t) + 1 - 0))
      with (S (String.length t)) by lia.
    exact Hs.
  - replace (-1 + 1) with 0 by reflexivity.
    replace (0 <? 0) with false by reflexivity.
    rewrite Z.sub_diag. replace (Z.to_nat 0) with 0%nat by reflexivity.
    rewrite Z.min_l by lia. apply substring_0_0.
Qed.

Lemma prefix_app (k t r : string) :
  String.prefix k t = true -> String.prefix k (t +:+ r) = true.
Proof.
  revert t. induction k as [|a k IH]; intros t H; [apply prefix_empty|].
  destruct t as [|b t]; [discriminate|].
  change (String b t +:+ r) with (String b (t +:+ r)).
  rewrite prefix_cons in *.
  apply andb_true_iff in H as [-> H]. cbn. auto.
Qed.

Lemma prefix_refl (s : string) : String.prefix s s = true.
Proof.
  induction s as [|c s IH]; [reflexivity|].
  rewrite prefix_cons, Ascii.eqb_refl. exact IH.
Qed.

(** The first characters of a text are a beginning of it. *)
Lemma prefix_substring (n : nat) (s : string) :
  String.prefix (String.substring 0 n s) s = true.
Proof.
  revert n. induction s as [|c s IH]; intros [|n]; try reflexivity.
  cbn [String.substring]. rewrite prefix_cons, Ascii.eqb_refl. apply IH.
Qed.

Lemma prefix_comparable (a b s : string) :
  String.prefix a s = true -> String.prefix b s = true ->
  String.prefix a b = true \/ String.prefix b a = true.
Proof.
  revert a b. induction s as [|c s IH]; intros [|x a] [|y b] Ha Hb;
    try discriminate; try (left; apply prefix_empty);
    try (right; apply prefix_empty).
  rewrite prefix_cons in Ha, Hb.
  apply andb_true_iff in Ha as [Hx Ha]. apply andb_true_iff in Hb as [Hy Hb].
  apply Ascii.eqb_eq in Hx as ->. apply Ascii.eqb_eq in Hy as ->.
  rewrite !prefix_cons, !Ascii.eqb_refl. cbn. apply IH; assumption.
Qed.

(** A key without ['='] that starts a line starts its key token too. *)
Lemma key_in_token (k s t : string) :
  before_eq k = None -> String.prefix k s = true -> before_eq s = Some t ->
  String.prefix k t = true.
Proof.
  revert s t. induction k as [|a k IH]; intros s t Hk Hp Ht;
    [apply prefix_empty|].
  destruct s as [|b s]; [discriminate|].
  rewrite prefix_cons in Hp. apply andb_true_iff in Hp as [Hab Hp].
  apply Ascii.eqb_eq in Hab as <-.
  cbn [before_eq] in Hk, Ht. destruct (Ascii.eqb a "="); [discriminate|].
  destruct (before_eq k) eqn:Ek; [discriminate|].
  destruct (before_eq s) as [t'|] eqn:Es; [|discriminate].
  cbn in Ht. injection Ht as <-.
  rewrite prefix_cons, Ascii.eqb_refl. cbn. eauto.
Qed.

Lemma all_keys_ok : forallb key_ok all_keys = true.
Proof. reflexivity. Qed.

(** No key is the beginning of another. *)
Lemma all_keys_incomparable :
  forallb (fun k => forallb (fun k' => String.eqb k k' || negb (String.prefix k k'))
                      all_keys) all_keys = true.
Proof. vm_compute. reflexivity. Qed.

Lemma substituted_upto (line v : string) :
  substituted line v = upto_eq line +:+ " " +:+ v +:+ nl.
Proof. unfold substituted. rewrite slice_upto_eq. reflexivity. Qed.

(** Once a line that starts with a key is replaced, the new line starts with
    no other key: it starts with the same key, or with a space. *)
Lemma other_key_fails (k k' line v : string) :
  In k all_keys -> In k' all_keys -> k <> k' ->
  String.prefix k line = true ->
  String.prefix k' (substituted line v) = false.
Proof.
  intros Hk Hk' Hne Hp.
  pose proof all_keys_ok as Hok. rewrite forallb_forall in Hok.
  pose proof all_keys_incomparable as Hinc. rewrite forallb_forall in Hinc.
  pose proof (Hok k Hk) as Ok. pose proof (Hok k' Hk') as Ok'.
  unfold key_ok in Ok, Ok'.
  apply andb_true_iff in Ok as [_ Ok]. apply andb_true_iff in Ok' as [Ok' _].
  destruct (before_eq k) eqn:Ek; [discriminate|].
  rewrite substituted_upto. unfold upto_eq.
  destruct (before_eq line) as [t|] eqn:Et.
  - destruct (String.prefix k' ((t +:+ "=") +:+ " " +:+ v +:+ nl)) eqn:Hp';
      [|reflexivity].
    assert (Hkt : String.prefix k ((t +:+ "=") +:+ " " +:+ v +:+ nl) = true).
    { apply prefix_app, prefix_app. eapply key_in_token; eauto. }
    pose proof (Hinc k Hk) as H1. rewrite forallb_forall in H1.
    pose proof (Hinc k' Hk') as H2. rewrite forallb_forall in H2.
    specialize (H1 k' Hk'). specialize (H2 k Hk).
    apply String.eqb_neq in Hne as Hne1. rewrite Hne1 in H1.
    assert (Hne2 : (k' =? k)%string = false)
      by (rewrite String.eqb_sym; exact Hne1).
    rewrite Hne2 in H2. cbn in H1, H2.
    destruct (prefix_comparable _ _ _ Hkt Hp') as [H|H]; rewrite H in *;
      discriminate.
  - change ("" +:+ " " +:+ v +:+ nl) with (String " " (v +:+ nl)).
    destruct k' as [|c k']; [discriminate|].
    rewrite prefix_cons. rewrite negb_true_iff in Ok'. rewrite Ok'. reflexivity.
Qed.

(** ** The methods, run *)

Lemma printed_nil (st : state) : printed [] st = st.
Proof. destruct st as [o [f out]]. unfold printed; cbn. rewrite app_nil_r. reflexivity. Qed.

Lemma printed_app (a b : list string) (st : state) :
  printed b (printed a st) = printed (a ++ b) st.
Proof. unfold printed; cbn. rewrite app_assoc. reflexivity. Qed.

Lemma print_if_debug_run (msg : string -> string) (st : state) :
  print_if_debug msg st =
  (Return tt,
   printed (if debug (self st) then [msg (file_name (self st))] else []) st).
Proof.
  unfold print_if_debug. py_step.
  destruct (debug (self st)); [reflexivity|]. rewrite printed_nil. reflexivity.
Qed.

Lemma replace_value_run (line : string) (value : M state string) (v : string)
    (st : state) :
  (forall s, self s = self st -> value s = (Return v, s)) ->
  replace_value line value st =
  (Return (substituted line v),
   printed (messages (self st) line (substituted line v)) st).
Proof.
  intros Hv. unfold replace_value, bind. rewrite print_if_debug_run.
  rewrite Hv by reflexivity. cbv zeta. fold (substituted line v).
  rewrite print_if_debug_run. unfold ret. rewrite printed_app.
  unfold messages. cbn [self printed]. destruct (debug (self st)); reflexivity.
Qed.

Lemma float_attr_run (f : UpdateFlashParameterFile -> attribute) (s : state) :
  float_attr f s = (Return (format_attribute (f (self s))), s).
Proof. reflexivity. Qed.

Lemma target_table_split (o : UpdateFlashParameterFile) :
  target_table o = (mag_table o ++ time_table o ++ forcing_table o)%list.
Proof. reflexivity. Qed.

Lemma replace_magnetic_field_run (line : string) (st : state) :
  replace_magnetic_field line st =
  let o1 := set_B0 (Some (B0_of (self st))) (self st) in
  replaced_by (mag_table o1) o1 line (with_self o1 st).
Proof.
  unfold replace_magnetic_field, bind. rewrite compute_B0_run.
  rewrite !find_zero. cbv zeta. unfold replaced_by, mag_table, starts.
  cbn [List.find fst]. 
  destruct (String.prefix "MagField_z" line); cbn [orb].
  - erewrite replace_value_run; [reflexivity|]. intros s Hs.
    rewrite float_attr_run, Hs. reflexivity.
  - destruct (String.prefix "st_MPzBmeanTarget" line); [|reflexivity].
    erewrite replace_value_run; [reflexivity|]. intros s Hs.
    rewrite float_attr_run, Hs. reflexivity.
Qed.

Lemma times_defined_split (o : UpdateFlashParameterFile) :
  times_defined o = true ->
  (driving_scale o * mach o =? 0)%float = false
  /\ (total_turn_overs o * dumps_per_turnover o =? 0)%float = false.
Proof.
  unfold times_defined. intros H. apply andb_true_iff in H as [H1 H2].
  rewrite negb_true_iff in H1, H2. auto.
Qed.

Lemma replace_turnover_times_cases (line : string) (st : state) :
  replace_turnover_times line st =
  let o := self st in
  if (driving_scale o * mach o =? 0)%float then (Raise ZeroDivisionError, st)
  else if (total_turn_overs o * dumps_per_turnover o =? 0)%float
  then (Raise ZeroDivisionError, with_self (set_tmax (Some (tmax_of o)) o) st)
  else replaced_by (time_table (set_times o)) (set_times o) line
         (with_self (set_times o) st).
Proof.
  unfold replace_turnover_times, bind.
  rewrite compute_turnover_time_parameters_run. cbv zeta.
  destruct (driving_scale (self st) * mach (self st) =? 0)%float;
    [reflexivity|].
  destruct (total_turn_overs (self st) * dumps_per_turnover (self st) =? 0)%float;
    [reflexivity|].
  rewrite !find_zero. unfold replaced_by, time_table, starts.
  cbn [List.find fst].
  repeat match goal with
         | |- context [String.prefix ?k line] =>
             destruct (String.prefix k line);
             [ erewrite replace_value_run; [reflexivity|]; intros s Hs;
               rewrite float_attr_run, Hs; reflexivity | ]
         end.
  reflexivity.
Qed.

Lemma replace_turnover_times_run (line : string) (st : state) :
  times_defined (self st) = true ->
  replace_turnover_times line st =
  let o2 := set_times (self st) in
  replaced_by (time_table o2) o2 line (with_self o2 st).
Proof.
  intros Hd. destruct (times_defined_split _ Hd) as [H1 H2].
  rewrite replace_turnover_times_cases. cbv zeta. rewrite H1, H2. reflexivity.
Qed.

Lemma replace_forcing_file_run (line : string) (st : state) :
  replace_forcing_file line st =
  replaced_by [("st_infilename", format_forcing (forcing_file (self st)))]
    (self st) line st.
Proof.
  unfold replace_forcing_file. rewrite find_zero.
  unfold replaced_by, starts. cbn [List.find fst].
  destruct (String.prefix "st_infilename" line); [|reflexivity].
  erewrite replace_value_run; [reflexivity|]. intros s Hs.
  unfold bind, get_attr, gets, ret. rewrite Hs. reflexivity.
Qed.

Lemma find_starts_some (table : list (string * string)) (line k v : string) :
  List.find (starts line) table = Some (k, v) ->
  In k (map fst table) /\ String.prefix k line = true.
Proof.
  intros H. apply find_some in H as [Hin Hp]. split; [|exact Hp].
  apply in_map_iff. exists (k, v). auto.
Qed.

(** After a replacement for the key [k], no entry for another key applies. *)
Lemma find_after_substitution (table : list (string * string))
    (line k v : string) :
  In k all_keys -> String.prefix k line = true ->
  (forall k', In k' (map fst table) -> In k' all_keys /\ k <> k') ->
  List.find (starts (substituted line v)) table = None.
Proof.
  intros Hk Hp Hall. induction table as [|[k' v'] table IH]; [reflexivity|].
  cbn [List.find]. unfold starts at 1. cbn [fst].
  destruct (Hall k') as [Hk' Hne]; [left; reflexivity|].
  rewrite (other_key_fails k k' line v Hk Hk' Hne Hp).
  apply IH. intros k'' Hin. apply Hall. right. exact Hin.
Qed.

Ltac in_keys := cbn; repeat first [left; reflexivity | right].

Lemma keys_of_tables (o : UpdateFlashParameterFile) (k : string) :
  (In k (map fst (mag_table o)) ->
   In k all_keys
   /\ forall k', In k' (map fst (time_table o ++ forcing_table o)) ->
                 In k' all_keys /\ k <> k')
  /\ (In k (map fst (time_table o)) ->
      In k all_keys
      /\ forall k', In k' (map fst (forcing_table o)) ->
                    In k' all_keys /\ k <> k').
Proof.
  unfold forcing_table.
  split; intros Hk; cbn in Hk;
    repeat (destruct Hk as [<-|Hk]); try contradiction;
    (split; [in_keys|]); intros k' Hk';
    destruct (forcing_file o); cbn in Hk';
    repeat (destruct Hk' as [<-|Hk']); try contradiction;
    (split; [in_keys|discriminate]).
Qed.

Lemma find_app_list {A} (p : A -> bool) (l1 l2 : list A) :
  List.find p (l1 ++ l2) =
  match List.find p l1 with
  | Some x => Some x
  | None => List.find p l2
  end.
Proof.
  induction l1 as [|a l1 IH]; [reflexivity|].
  cbn. destruct (p a); [reflexivity|exact IH].
Qed.

(** The loop body on one line: its image is written, and the two messages
    are printed when a key applied. *)
Lemma rewrite_line_run (line : string) (st : state) :
  times_defined (self st) = true ->
  rewrite_line line st =
  (Return (image (derive (self st)) line),
   printed (log_of (derive (self st)) line) (with_self (derive (self st)) st)).
Proof.
  intros Hd. destruct st as [o w]. cbn [self] in *.
  unfold rewrite_line, bind.
  rewrite replace_magnetic_field_run. cbv zeta. cbn [self].
  unfold image, log_of, first_match.
  rewrite target_table_split, !find_app_list.
  change (mag_table (derive o)) with (mag_table (set_B0 (Some (B0_of o)) o)).
  unfold replaced_by at 1.
  destruct (List.find (starts line) (mag_table _)) as [[k v]|] eqn:Hm.
  - apply find_starts_some in Hm as [Hin Hp].
    destruct (proj1 (keys_of_tables _ k) Hin) as [Hk Hother].
    rewrite replace_turnover_times_run by exact Hd.
    cbv zeta. unfold replaced_by at 1.
    rewrite (find_after_substitution _ line k v Hk Hp).
    2:{ intros k' Hk'. apply (Hother k').
        rewrite map_app. apply in_or_app. left. exact Hk'. }
    unfold get_attr, gets. cbn [self printed with_self].
    change (forcing_file (set_times (set_B0 (Some (B0_of o)) o)))
      with (forcing_file o).
    destruct (forcing_file o) as [f|] eqn:Hf; [|reflexivity].
    rewrite replace_forcing_file_run. unfold replaced_by.
    rewrite (find_after_substitution _ line k v Hk Hp); [reflexivity|].
    intros k' Hk'. apply (Hother k').
    rewrite map_app. apply in_or_app. right. unfold forcing_table.
    change (forcing_file (set_B0 (Some (B0_of o)) o)) with (forcing_file o).
    rewrite Hf. exact Hk'.
  - rewrite replace_turnover_times_run by exact Hd.
    cbv zeta. cbn [self with_self outside].
    change (set_times (set_B0 (Some (B0_of o)) o)) with (derive o).
    unfold replaced_by at 1.
    destruct (List.find (starts line) (time_table _)) as [[k v]|] eqn:Ht.
    + apply find_starts_some in Ht as [Hin Hp].
      destruct (proj2 (keys_of_tables _ k) Hin) as [Hk Hother].
      unfold get_attr, gets. cbn [self printed with_self].
      destruct (forcing_file (derive o)) as [f|] eqn:Hf; [|reflexivity].
      rewrite replace_forcing_file_run. unfold replaced_by.
      rewrite (find_after_substitution _ line k v Hk Hp); [reflexivity|].
      intros k' Hk'. apply (Hother k'). unfold forcing_table.
      rewrite Hf. exact Hk'.
    + unfold get_attr, gets. cbn [self with_self outside].
      unfold forcing_table.
      destruct (forcing_file (derive o)) as [f|] eqn:Hf.
      * rewrite replace_forcing_file_run. cbn [self with_self outside].
        rewrite Hf. unfold replaced_by. cbn [format_forcing].
        destruct (List.find (starts line) [("st_infilename", f)]) as [[k v]|];
          [reflexivity|]. rewrite printed_nil. reflexivity.
      * cbn [List.find]. rewrite printed_nil. reflexivity.
Qed.

(* ================================================================= *)
(** * The file transaction *)

Lemma append_cons (c : ascii) (s t : string) :
  String c s +:+ t = String c (s +:+ t).
Proof. reflexivity. Qed.

Lemma append_nil_r (s : string) : s +:+ "" = s.
Proof.
  induction s as [|c s IH]; [reflexivity|]. rewrite append_cons, IH. reflexivity.
Qed.

Lemma append_assoc (a b c : string) : (a +:+ b) +:+ c = a +:+ b +:+ c.
Proof.
  induction a as [|x a IH]; [reflexivity|]. rewrite !append_cons, IH. reflexivity.
Qed.

Lemma derive_idem (o : UpdateFlashParameterFile) : derive (derive o) = derive o.
Proof. reflexivity. Qed.

Lemma times_defined_derive (o : UpdateFlashParameterFile) :
  times_defined (derive o) = times_defined o.
Proof. reflexivity. Qed.

Lemma appended_appended (a b : string) (f : file) :
  appended b (appended a f) = appended (a +:+ b) f.
Proof. unfold appended; cbn. rewrite append_assoc. reflexivity. Qed.

Lemma appended_nil (f : file) : appended "" f = f.
Proof. destruct f. unfold appended; cbn. rewrite append_nil_r. reflexivity. Qed.

Section Transaction.
Variable E : environment.

Lemma guard_ok (op : io_op) (w : world) :
  fails E op = false -> guard E op w = (Return tt, w).
Proof. unfold guard. intros ->. reflexivity. Qed.

Lemma guard_fails (op : io_op) (w : world) :
  fails E op = true -> guard E op w = (Raise (OSError op), w).
Proof. unfold guard. intros ->. reflexivity. Qed.

(** The loop when no read and no write fails: every line's image is
    appended to the temporary file, in order. *)
Lemma rewrite_lines_run (tmp : string) :
  (forall n, fails E (OpReadLine n) = false) ->
  (forall n, fails E (OpWrite n) = false) ->
  forall (lines : list string) (n : nat) (st : state) (ft : file),
    times_defined (self st) = true ->
    fs (outside st) !! tmp = Some ft ->
    rewrite_lines E tmp n lines st =
    (Return tt,
     {| self := after_lines (self st) lines;
        outside :=
          {| fs := <[tmp := appended (concat_lines
                               (map (image (derive (self st))) lines)) ft]>
                     (fs (outside st));
             stdout := stdout (outside st)
                         ++ flat_map (log_of (derive (self st))) lines |} |}).
Proof.
  intros Hr Hw lines. induction lines as [|line rest IH]; intros n st ft Hd Hft.
  - destruct st as [o [f out]]. cbn [rewrite_lines after_lines map concat_lines
      flat_map self outside fs stdout] in *.
    rewrite appended_nil, app_nil_r, insert_id by exact Hft. reflexivity.
  - cbn [rewrite_lines]. unfold bind at 1. unfold io at 1.
    rewrite guard_ok by apply Hr.
    unfold bind at 1. rewrite rewrite_line_run by exact Hd.
    unfold bind at 1. unfold io at 1, write, bind at 1.
    cbn [self outside printed with_self]. rewrite guard_ok by apply Hw.
    unfold modify, set_fs. cbn [fs stdout].
    erewrite IH; cycle 1.
    { cbn [self]. rewrite times_defined_derive. exact Hd. }
    { cbn [outside fs]. rewrite lookup_alter_eq, Hft. reflexivity. }
    cbn [self outside fs stdout after_lines map concat_lines flat_map].
    rewrite derive_idem, insert_alter_eq.
    fold (appended (image (derive (self st)) line) ft).
    rewrite appended_appended, <- app_assoc.
    destruct rest; reflexivity.
Qed.

(** The calls of the runtime when they succeed. *)
Lemma mkstemp_run (w : world) :
  fails E OpMkstemp = false -> fs w !! tmp_name E = None ->
  mkstemp E w =
  (Return (tmp_name E),
   set_fs (insert (tmp_name E) {| content := ""; mode := 384 |}) w).
Proof.
  intros Hf Hn. unfold mkstemp, bind, gets, modify, ret.
  rewrite guard_ok by exact Hf. rewrite Hn. reflexivity.
Qed.

Lemma open_w_run (path : string) (g : file) (w : world) :
  fails E OpOpenWrite = false -> fs w !! path = Some g ->
  open_w E path w =
  (Return tt, set_fs (insert path {| content := ""; mode := mode g |}) w).
Proof.
  intros Hf Hg. unfold open_w, bind, gets, modify.
  rewrite guard_ok by exact Hf. rewrite Hg. reflexivity.
Qed.

Lemma open_r_run (path : string) (f : file) (w : world) :
  fails E OpOpenRead = false -> fs w !! path = Some f ->
  open_r E path w = (Return (readlines (content f)), w).
Proof.
  intros Hf Hg. unfold open_r, bind, gets, ret.
  rewrite guard_ok by exact Hf. rewrite Hg. reflexivity.
Qed.

Lemma remove_run (path : string) (f : file) (w : world) :
  fails E OpRemove = false -> fs w !! path = Some f ->
  remove E path w = (Return tt, set_fs (delete path) w).
Proof.
  intros Hf Hg. unfold remove, bind, gets, modify.
  rewrite guard_ok by exact Hf. rewrite Hg. reflexivity.
Qed.

Lemma move_run (src dst : string) (f : file) (w : world) :
  fails E OpMove = false -> fs w !! src = Some f ->
  move E src dst w =
  (Return tt, set_fs (fun m => <[dst := f]> (delete src m)) w).
Proof.
  intros Hf Hg. unfold move, bind, gets, modify.
  rewrite Hg, Hf. reflexivity.
Qed.

Lemma chmod_run (path : string) (m : Z) (f : file) (w : world) :
  fails E OpChmod = false -> fs w !! path = Some f ->
  chmod E path m w =
  (Return tt,
   set_fs (insert path {| content := content f; mode := Z.land m 4095 |}) w).
Proof.
  intros Hf Hg. unfold chmod, bind, gets, modify.
  rewrite guard_ok by exact Hf. rewrite Hg. reflexivity.
Qed.

(** [update_flash_par] when nothing fails: the file holds the images of
    its lines, with the mode that [chmod] was given. *)
Lemma update_flash_par_run (st : state) (f : file) :
  no_faults E ->
  times_defined (self st) = true ->
  fs (outside st) !! tmp_name E = None ->
  fs (outside st) !! file_name (self st) = Some f ->
  let lines := readlines (content f) in
  let d := derive (self st) in
  update_flash_par E st =
  (Return tt,
   {| self := after_lines (self st) lines;
      outside :=
        {| fs := <[file_name (self st) :=
                     {| content := concat_lines (map (image d) lines);
                        mode := 644 |}]> (fs (outside st));
           stdout := stdout (outside st) ++ flat_map (log_of d) lines |} |}).
Proof.
  intros HE Hd Htmp Hfile lines d. destruct st as [o [m out]].
  cbn [self outside fs stdout] in *.
  assert (Hne : tmp_name E <> file_name o) by congruence.
  set (t0 := {| content := ""; mode := 384 |}).
  unfold update_flash_par.
  unfold bind at 1, io at 1. cbn [outside self].
  rewrite mkstemp_run by first [apply HE | exact Htmp].
  unfold bind at 1, io at 1. unfold set_fs; cbn [outside self fs stdout].
  rewrite (open_w_run _ t0)
    by first [apply HE | cbn [fs]; apply lookup_insert_eq].
  unfold bind at 1, get_attr, gets. unfold set_fs; cbn [self outside fs stdout mode t0].
  unfold bind at 1, io at 1. cbn [outside self].
  rewrite (open_r_run _ f)
    by first [apply HE
             | cbn [fs]; rewrite !lookup_insert_ne by exact Hne; exact Hfile].
  fold lines.
  unfold bind at 1.
  rewrite (rewrite_lines_run _ (fun n => HE (OpReadLine n))
             (fun n => HE (OpWrite n)) lines 0%nat _ t0)
    by first [exact Hd | cbn [outside fs]; apply lookup_insert_eq].
  cbn [self outside fs stdout]. fold d.
  unfold bind at 1, io at 1. cbn [outside self]. rewrite guard_ok by apply HE.
  unfold bind at 1, io at 1. cbn [outside self]. rewrite guard_ok by apply HE.
  unfold bind at 1, io at 1. cbn [outside self]. rewrite guard_ok by apply HE.
  unfold bind at 1, io at 1. cbn [outside self].
  rewrite (remove_run _ f)
    by first [apply HE
             | cbn [fs]; rewrite !lookup_insert_ne by exact Hne; exact Hfile].
  unfold bind at 1, io at 1. unfold set_fs; cbn [outside self fs stdout].
  set (t1 := appended (concat_lines (map (image d) lines)) t0).
  rewrite (move_run _ _ t1)
    by first [apply HE
             | cbn [fs]; rewrite lookup_delete_ne by congruence;
               apply lookup_insert_eq].
  unfold io. unfold set_fs; cbn [outside self fs stdout].
  rewrite (chmod_run _ _ t1)
    by first [apply HE | cbn [fs]; apply lookup_insert_eq].
  unfold set_fs; cbn [fs stdout content appended mode t1 t0].
  change (Z.land 644 4095) with 644.
  change ("" +:+ concat_lines (map (image d) lines))
    with (concat_lines (map (image d) lines)).
  f_equal. f_equal. f_equal.
  apply map_eq. intros p.
  destruct (decide (p = file_name o)) as [->|Hp].
  { rewrite !lookup_insert_eq. reflexivity. }
  rewrite !(lookup_insert_ne _ (file_name o)) by congruence.
  destruct (decide (p = tmp_name E)) as [->|Hp'].
  { rewrite lookup_delete_eq. symmetry. exact Htmp. }
  rewrite lookup_delete_ne by congruence.
  rewrite lookup_delete_ne by congruence.
  rewrite !lookup_insert_ne by congruence. reflexivity.
Qed.

(** ** Failure paths *)

(** The loop body never touches a file, and the only exception it raises
    is the [ZeroDivisionError] of an undefined time parameter. *)
Lemma rewrite_line_frame (line : string) (st : state) :
  fs (outside (snd (rewrite_line line st))) = fs (outside st)
  /\ (times_defined (self st) = true ->
      fst (rewrite_line line st) = Return (image (derive (self st)) line))
  /\ (times_defined (self st) = false ->
      fst (rewrite_line line st) = Raise ZeroDivisionError).
Proof.
  destruct (times_defined (self st)) eqn:Hd.
  - rewrite rewrite_line_run by exact Hd. cbn [fst snd].
    split; [reflexivity|]. split; [reflexivity|discriminate].
  - assert (Hraise :
      forall s l, self s = with_derived (self st) (B0 (self s)) (tmax (self s))
                    (checkpointFileIntervalTime (self s))
                    (plotFileIntervalTime (self s)) (movie_dt_dump (self s))
                    (particleFileIntervalTime (self s)) (dtmax (self s)) ->
        fst (replace_turnover_times l s) = Raise ZeroDivisionError
        /\ fs (outside (snd (replace_turnover_times l s))) = fs (outside s)).
    { intros s l Hs. rewrite replace_turnover_times_cases. cbv zeta.
      rewrite Hs. cbn [driving_scale mach total_turn_overs dumps_per_turnover
                       with_derived].
      unfold times_defined in Hd.
      destruct (driving_scale (self st) * mach (self st) =? 0)%float;
        [split; reflexivity|].
      destruct (total_turn_overs (self st) * dumps_per_turnover (self st) =? 0)%float;
        [split; reflexivity|discriminate]. }
    assert (Hex : exists s', rewrite_line line st = (Raise ZeroDivisionError, s')
                             /\ fs (outside s') = fs (outside st)).
    { unfold rewrite_line, bind.
      rewrite replace_magnetic_field_run. cbv zeta. unfold replaced_by at 1.
      destruct (List.find (starts line) (mag_table _)) as [[k v]|];
        match goal with
        | |- context [replace_turnover_times ?l ?s] =>
            destruct (Hraise s l eq_refl) as [H1 H2];
            destruct (replace_turnover_times l s) as [[a|e] s'] eqn:Hr
        end; cbn [fst snd] in *; try discriminate;
        injection H1 as ->; eexists; (split; [reflexivity|]);
        rewrite H2; reflexivity. }
    destruct Hex as (s' & -> & Hfs). cbn [fst snd].
    split; [exact Hfs|]. split; [discriminate|reflexivity].
Qed.

Lemma io_guard_run (op : io_op) (st : state) :
  io (guard E op) st =
  if fails E op then (Raise (OSError op), st) else (Return tt, st).
Proof.
  unfold io, guard. destruct st as [o w].
  destruct (fails E op); reflexivity.
Qed.

(** The loop writes to the temporary file only, whatever happens. *)
Lemma rewrite_lines_frame (tmp : string) (lines : list string) :
  forall (n : nat) (st : state) (r : outcome unit) (st' : state),
    rewrite_lines E tmp n lines st = (r, st') ->
    (forall p, p <> tmp -> fs (outside st') !! p = fs (outside st) !! p)
    /\ (forall ft, fs (outside st) !! tmp = Some ft ->
          exists c, fs (outside st') !! tmp
                    = Some {| content := c; mode := mode ft |})
    /\ (forall e, r = Raise e -> early e).
Proof.
  assert (Hsame : forall (m : filesystem) (ft : file),
            m !! tmp = Some ft ->
            exists c, m !! tmp = Some {| content := c; mode := mode ft |}).
  { intros m [c md] ->. exists c. reflexivity. }
  induction lines as [|line rest IH]; intros n st r st' H.
  - injection H as <- <-. split; [reflexivity|]. split; [auto|discriminate].
  - cbn [rewrite_lines] in H. unfold bind at 1 in H.
    rewrite io_guard_run in H.
    destruct (fails E (OpReadLine n)).
    { injection H as <- <-. split; [reflexivity|]. split; [auto|].
      intros e [= <-]. split; discriminate. }
    unfold bind at 1 in H.
    destruct (rewrite_line_frame line st) as (Hfs & Hret & Hraise).
    destruct (rewrite_line line st) as [[l|e] s1] eqn:Hl; cbn [fst snd] in *.
    2:{ injection H as <- <-. rewrite Hfs.
        split; [reflexivity|]. split; [auto|].
        intros e' [= <-]. destruct (times_defined (self st));
          [discriminate (Hret eq_refl)|].
        injection (Hraise eq_refl) as ->. split; discriminate. }
    unfold bind at 1, io at 1, write, bind at 1, guard in H.
    destruct (fails E (OpWrite n)).
    { injection H as <- <-. cbn [outside]. rewrite Hfs.
      split; [reflexivity|]. split; [auto|].
      intros e [= <-]. split; discriminate. }
    unfold modify, set_fs in H. cbn [fs stdout outside self] in H.
    destruct (IH _ _ _ _ H) as (IH1 & IH2 & IH3).
    cbn [outside fs] in IH1, IH2.
    split; [|split].
    + intros p Hp. rewrite IH1 by exact Hp.
      rewrite lookup_alter_ne by congruence. rewrite Hfs. reflexivity.
    + intros ft Hft.
      destruct (IH2 {| content := content ft +:+ l; mode := mode ft |})
        as [c Hc]; [|exists c; exact Hc].
      rewrite lookup_alter_eq, Hfs, Hft. reflexivity.
    + exact IH3.
Qed.

Lemma io_mkstemp_cases (st : state) :
  io (mkstemp E) st =
  if fails E OpMkstemp then (Raise (OSError OpMkstemp), st)
  else match fs (outside st) !! tmp_name E with
       | Some _ => (Raise (FileExistsError (tmp_name E)), st)
       | None =>
           (Return (tmp_name E),
            with_fs (insert (tmp_name E) {| content := ""; mode := 384 |}) st)
       end.
Proof.
  destruct st as [o w]. unfold io, mkstemp, bind, guard, gets, modify, raise, ret.
  cbn [outside self]. destruct (fails E OpMkstemp); [reflexivity|].
  destruct (fs w !! tmp_name E); reflexivity.
Qed.

Lemma io_open_w_cases (path : string) (st : state) :
  io (open_w E path) st =
  if fails E OpOpenWrite then (Raise (OSError OpOpenWrite), st)
  else (Return tt,
        with_fs (insert path
                   {| content := "";
                      mode := match fs (outside st) !! path with
                              | Some f => mode f
                              | None => default_mode E
                              end |}) st).
Proof.
  destruct st as [o w]. unfold io, open_w, bind, guard, gets, modify, raise, ret.
  cbn [outside self]. destruct (fails E OpOpenWrite); reflexivity.
Qed.

Lemma io_open_r_cases (path : string) (st : state) :
  io (open_r E path) st =
  if fails E OpOpenRead then (Raise (OSError OpOpenRead), st)
  else match fs (outside st) !! path with
       | Some f => (Return (readlines (content f)), st)
       | None => (Raise (FileNotFoundError path), st)
       end.
Proof.
  destruct st as [o w]. unfold io, open_r, bind, guard, gets, raise, ret.
  cbn [outside self]. destruct (fails E OpOpenRead); [reflexivity|].
  destruct (fs w !! path); reflexivity.
Qed.

Lemma io_remove_cases (path : string) (st : state) :
  io (remove E path) st =
  if fails E OpRemove then (Raise (OSError OpRemove), st)
  else match fs (outside st) !! path with
       | Some _ => (Return tt, with_fs (delete path) st)
       | None => (Raise (FileNotFoundError path), st)
       end.
Proof.
  destruct st as [o w]. unfold io, remove, bind, guard, gets, modify, raise, ret.
  cbn [outside self]. destruct (fails E OpRemove); [reflexivity|].
  destruct (fs w !! path); reflexivity.
Qed.

Lemma io_move_cases (src dst : string) (st : state) :
  io (move E src dst) st =
  match fs (outside st) !! src with
  | Some f =>
      if fails E OpMove
      then (Raise (OSError OpMove), with_fs (left_at E (move_left E) f dst) st)
      else (Return tt, with_fs (fun m => <[dst := f]> (delete src m)) st)
  | None => (Raise (FileNotFoundError src), st)
  end.
Proof.
  destruct st as [o w]. unfold io, move, bind, guard, gets, modify, raise, ret.
  cbn [outside self]. destruct (fs w !! src); [|reflexivity].
  destruct (fails E OpMove); reflexivity.
Qed.

Lemma io_chmod_cases (path : string) (m : Z) (st : state) :
  io (chmod E path m) st =
  if fails E OpChmod then (Raise (OSError OpChmod), st)
  else match fs (outside st) !! path with
       | Some f =>
           (Return tt,
            with_fs (insert path {| content := content f;
                                    mode := Z.land m 4095 |}) st)
       | None => (Raise (FileNotFoundError path), st)
       end.
Proof.
  destruct st as [o w]. unfold io, chmod, bind, guard, gets, modify, raise, ret.
  cbn [outside self]. destruct (fails E OpChmod); [reflexivity|].
  destruct (fs w !! path); reflexivity.
Qed.

(** A raise, seen from the original path [fn]: an exception raised before
    [move] leaves the file as it was. *)
Ltac raised_early H Hne :=
  injection H as <- <-;
  split;
  [ intros _; unfold with_fs; cbn [outside fs self];
    repeat (rewrite lookup_insert_ne by exact Hne);
    first [reflexivity | assumption | congruence]
  | split; intros ?; discriminate ].

(** Where a failed [update_flash_par] leaves the parameter file. *)
Lemma update_flash_par_raises (st st' : state) (e : exn) :
  tmp_name E <> file_name (self st) ->
  update_flash_par E st = (Raise e, st') ->
  let fn := file_name (self st) in
  (early e -> fs (outside st') !! fn = fs (outside st) !! fn)
  /\ (e = OSError OpMove ->
      exists c,
        fs (outside st') !! tmp_name E = Some {| content := c; mode := 384 |}
        /\ (fs (outside st') !! fn = None
            \/ exists c' m',
                 fs (outside st') !! fn = Some {| content := c'; mode := m' |}
                 /\ String.prefix c' c = true
                 /\ (m' = default_mode E \/ m' = 384 /\ c' = c)))
  /\ (e = OSError OpChmod ->
      exists c, fs (outside st') !! fn = Some {| content := c; mode := 384 |}).
Proof.
  intros Hne H fn. unfold update_flash_par in H.
  unfold bind at 1 in H. rewrite io_mkstemp_cases in H.
  destruct (fails E OpMkstemp); [raised_early H Hne|].
  destruct (fs (outside st) !! tmp_name E) eqn:Htmp; [raised_early H Hne|].
  unfold bind at 1 in H. rewrite io_open_w_cases in H.
  destruct (fails E OpOpenWrite); [raised_early H Hne|].
  unfold with_fs in H. cbn [self outside fs stdout] in H.
  rewrite lookup_insert_eq in H. cbn [mode] in H.
  unfold bind at 1, get_attr, gets in H. cbn [self] in H.
  unfold bind at 1 in H. rewrite io_open_r_cases in H.
  destruct (fails E OpOpenRead); [raised_early H Hne|].
  cbn [outside fs] in H. rewrite !lookup_insert_ne in H by exact Hne.
  fold fn in H.
  destruct (fs (outside st) !! fn) as [f|] eqn:Hfn; [|raised_early H Hne].
  unfold bind at 1 in H.
  match type of H with
  | context [rewrite_lines E ?t ?n ?l ?s] =>
      destruct (rewrite_lines E t n l s) as [[[]|e1] s1] eqn:Hloop;
      destruct (rewrite_lines_frame _ _ _ _ _ _ Hloop) as (F1 & F2 & F3)
  end.
  2:{ injection H as <- <-. pose proof (F3 _ eq_refl) as [E1 E2].
      split; [|split; congruence].
      intros _. rewrite F1 by congruence. cbn [outside fs].
      rewrite !lookup_insert_ne by exact Hne. exact Hfn. }
  cbn [outside fs] in F1, F2.
  assert (Hfn1 : fs (outside s1) !! fn = Some f).
  { rewrite F1 by congruence. rewrite !lookup_insert_ne by exact Hne.
    exact Hfn. }
  destruct (F2 _ (lookup_insert_eq _ _ _)) as [c Hc]. cbn [mode] in Hc.
  unfold bind at 1 in H. rewrite io_guard_run in H.
  destruct (fails E OpCloseTemp);
    [injection H as <- <-; split; [intros _; exact Hfn1|split; intros ?; discriminate]|].
  unfold bind at 1 in H. rewrite io_guard_run in H.
  destruct (fails E OpCloseFd);
    [injection H as <- <-; split; [intros _; exact Hfn1|split; intros ?; discriminate]|].
  unfold bind at 1 in H. rewrite io_guard_run in H.
  destruct (fails E OpCloseSource);
    [injection H as <- <-; split; [intros _; exact Hfn1|split; intros ?; discriminate]|].
  unfold bind at 1 in H. rewrite io_remove_cases in H.
  destruct (fails E OpRemove);
    [injection H as <- <-; split; [intros _; exact Hfn1|split; intros ?; discriminate]|].
  rewrite Hfn1 in H.
  unfold bind at 1 in H. rewrite io_move_cases in H.
  unfold with_fs in H. cbn [self outside fs stdout] in H.
  rewrite lookup_delete_ne in H by congruence. rewrite Hc in H.
  destruct (fails E OpMove).
  { injection H as <- <-. split; [intros [? _]; congruence|].
    split; [|intros ?; discriminate]. intros _. exists c. cbn [outside fs].
    unfold left_at. destruct (move_left E) as [|n|].
    - rewrite lookup_delete_ne by congruence.
      split; [exact Hc|]. left. apply lookup_delete_eq.
    - rewrite lookup_insert_ne, lookup_delete_ne by congruence.
      split; [exact Hc|]. right. rewrite lookup_insert_eq, lookup_delete_eq.
      cbn [content]. do 2 eexists. split; [reflexivity|].
      split; [apply prefix_substring|]. left. reflexivity.
    - rewrite lookup_insert_ne, lookup_delete_ne by congruence.
      split; [exact Hc|]. right. rewrite lookup_insert_eq.
      do 2 eexists. split; [reflexivity|].
      split; [apply prefix_refl|]. right. split; reflexivity. }
  rewrite io_chmod_cases in H. cbn [self outside fs stdout] in H.
  destruct (fails E OpChmod).
  { injection H as <- <-. split; [intros [_ ?]; congruence|].
    split; [intros ?; discriminate|]. intros _. exists c. cbn [outside fs].
    apply lookup_insert_eq. }
  rewrite lookup_insert_eq in H. discriminate H.
Qed.

(** [update_flash_par] when a time parameter is undefined and the file has
    a line: the first pass through the loop body raises, and what is left
    is the original file and the empty temporary file. *)
Lemma update_flash_par_undefined (st : state) (f : file) :
  no_faults E ->
  times_defined (self st) = false ->
  fs (outside st) !! tmp_name E = None ->
  fs (outside st) !! file_name (self st) = Some f ->
  readlines (content f) <> [] ->
  exists st',
    update_flash_par E st = (Raise ZeroDivisionError, st')
    /\ fs (outside st')
       = <[tmp_name E := {| content := ""; mode := 384 |}]> (fs (outside st)).
Proof.
  intros HE Hd Htmp Hfile Hlines. destruct st as [o [m out]].
  cbn [self outside fs stdout] in *.
  assert (Hne : tmp_name E <> file_name o) by congruence.
  set (t0 := {| content := ""; mode := 384 |}).
  unfold update_flash_par.
  unfold bind at 1, io at 1. cbn [outside self].
  rewrite mkstemp_run by first [apply HE | exact Htmp].
  unfold bind at 1, io at 1. unfold set_fs; cbn [outside self fs stdout].
  rewrite (open_w_run _ t0)
    by first [apply HE | cbn [fs]; apply lookup_insert_eq].
  unfold bind at 1, get_attr, gets. unfold set_fs; cbn [self outside fs stdout mode t0].
  unfold bind at 1, io at 1. cbn [outside self].
  rewrite (open_r_run _ f)
    by first [apply HE
             | cbn [fs]; rewrite !lookup_insert_ne by exact Hne; exact Hfile].
  destruct (readlines (content f)) as [|line rest]; [congruence|].
  unfold bind at 1. cbn [rewrite_lines]. unfold bind at 1.
  rewrite io_guard_run, HE. unfold bind at 1.
  match goal with
  | |- context [rewrite_line line ?s] =>
      destruct (rewrite_line_frame line s) as (Hfs & _ & Hraise);
      specialize (Hraise Hd);
      destruct (rewrite_line line s) as [[l|e] s'] eqn:Hl
  end; cbn [fst snd] in *; [discriminate|]. injection Hraise as ->.
  exists s'. split; [reflexivity|]. rewrite Hfs. cbn [outside fs].
  apply insert_insert_eq.
Qed.

Lemma io_print_run (msg : string) (st : state) :
  io (print msg) st = (Return tt, printed [msg] st).
Proof. destruct st as [o w]. reflexivity. Qed.

Lemma io_copyfile_cases (src dst : string) (st : state) :
  io (copyfile E src dst) st =
  if fails E OpCopyfile then (Raise (OSError OpCopyfile), st)
  else match fs (outside st) !! src with
       | None => (Raise (FileNotFoundError src), st)
       | Some f =>
           if String.eqb src dst then (Raise (SameFileError src), st)
           else (Return tt,
                 with_fs (insert dst
                            {| content := content f;
                               mode := match fs (outside st) !! dst with
                                       | Some g => mode g
                                       | None => default_mode E
                                       end |}) st)
       end.
Proof.
  destruct st as [o w]. unfold io, copyfile, bind, guard, gets, modify, raise, ret.
  cbn [outside self]. destruct (fails E OpCopyfile); [reflexivity|].
  destruct (fs w !! src); [|reflexivity].
  destruct (String.eqb src dst); reflexivity.
Qed.
End Transaction.

(** What [main] does up to the call of [update_flash_par]. *)
Lemma main_prelude (E : environment) (args : arguments) (w : world) (f : file) :
  ordinary_run E args w f ->
  main E args w =
  update_flash_par E
    {| self := object_of args;
       outside :=
         {| fs := <[backup_name := {| content := content f;
                                      mode := backup_mode E w |}]> (fs w);
            stdout := stdout w ++ [backup_message] |} |}.
Proof.
  intros [HE Hf Hnb Htmp Htb]. unfold main. fold (object_of args).
  unfold bind at 1. rewrite io_print_run.
  unfold bind at 1. rewrite io_copyfile_cases, HE.
  cbn [printed self outside fs stdout]. rewrite Hf.
  fold backup_name.
  apply String.eqb_neq in Hnb. rewrite Hnb. reflexivity.
Qed.

(* ================================================================= *)
(** * Claims about the derived quantities *)

(** C1: [compute_B0] stores [2 * c_s * sqrt(rho_0 * pi) * mach / mach_alfven]
    with [rho_0 = c_s = 1], which is [2 * sqrt(pi) * mach / mach_alfven]
    evaluated from left to right in binary64, for every [mach] and
    [mach_alfven] (the strictly positive ones among them); for [mach = 10]
    and [mach_alfven = 1] the value is [4989014064043426 * 2^-47], printed as
    [35.449077018110316] and within [1e-4] of [35.4491]. *)
Theorem compute_B0_formula :
  (forall st : state,
      compute_B0 st =
      (Return tt,
       with_self
         (set_B0 (Some (2 * sqrt np_pi * mach (self st)
                          / mach_alfven (self st))%float) (self st)) st))
  /\ (let b := (2 * sqrt np_pi * 10 / 1)%float in
      B0 (self (snd (compute_B0 example_state))) = Some b
      /\ Prim2SF b = S754_finite false 4989014064043426 (-47)
      /\ Z.abs (10000 * 4989014064043426 - 354491 * 2 ^ 47) < 2 ^ 47
      /\ float_repr b = "35.449077018110316").
Proof.
  split; [exact compute_B0_run|]. cbv zeta.
  split; [vm_compute; reflexivity|].
  split; [vm_compute; reflexivity|].
  split; [vm_compute; reflexivity|].
  vm_compute. reflexivity.
Qed.

(** C2, as stated, fails: with the strictly positive inputs
    [driving_scale = mach = 2^-600] the product [driving_scale * mach]
    underflows to [0.0], the first division raises [ZeroDivisionError] and
    none of the six attributes is assigned. *)
Lemma turnover_underflow_counterexample :
  let o := init 0x1p-600 1 0x1p-600 10 10 None "flash.par" in
  let r := compute_turnover_time_parameters
             {| self := o; outside := world_with "" |} in
  (positive_float (mach o) && positive_float (driving_scale o)
   && positive_float (dumps_per_turnover o)
   && positive_float (total_turn_overs o) = true)
  /\ (driving_scale o * mach o =? 0)%float = true
  /\ fst r = Raise ZeroDivisionError
  /\ derived (self (snd r)) = [None; None; None; None; None; None; None].
Proof. cbv zeta. repeat split; vm_compute; reflexivity. Qed.

(** C2, amended: for strictly positive [mach], [driving_scale],
    [dumps_per_turnover] and [total_turn_overs] whose products
    [driving_scale * mach] and [total_turn_overs * dumps_per_turnover] are
    not zero in binary64, [compute_turnover_time_parameters] returns and
    stores exactly
    [tmax = total_turn_overs / (driving_scale * mach)],
    [checkpointFileIntervalTime = tmax / (total_turn_overs * dumps_per_turnover)],
    [plotFileIntervalTime = checkpointFileIntervalTime],
    [movie_dt_dump = plotFileIntervalTime / 10],
    [particleFileIntervalTime = movie_dt_dump] and [dtmax = movie_dt_dump / 2],
    each the binary64 result of the Python expression; where one of the two
    products is zero it raises [ZeroDivisionError] instead.  The products
    are not zero for all inputs between [2^-200] and [2^200], which are
    strictly positive.  For [mach = 10], [driving_scale = 2],
    [total_turn_overs = 10], [dumps_per_turnover = 10] the six values print
    as 0.5, 0.005, 0.005, 0.0005, 0.0005, 0.00025. *)
Theorem compute_turnover_time_parameters_formulas :
  (forall st : state,
      let o := self st in
      let tmax_ := (total_turn_overs o / (driving_scale o * mach o))%float in
      let checkpoint_ :=
        (tmax_ / (total_turn_overs o * dumps_per_turnover o))%float in
      let plot_ := checkpoint_ in
      let movie_ := (plot_ / 10)%float in
      let particle_ := movie_ in
      let dtmax_ := (movie_ / 2)%float in
      positive_time_inputs o ->
      ((driving_scale o * mach o =? 0)%float = false ->
       (total_turn_overs o * dumps_per_turnover o =? 0)%float = false ->
       compute_turnover_time_parameters st =
       (Return tt,
        with_self
          (with_derived o (B0 o) (Some tmax_) (Some checkpoint_)
             (Some plot_) (Some movie_) (Some particle_) (Some dtmax_)) st))
      /\ ((driving_scale o * mach o =? 0)%float = true
          \/ (total_turn_overs o * dumps_per_turnover o =? 0)%float = true ->
          fst (compute_turnover_time_parameters st) = Raise ZeroDivisionError))
  /\ (forall o : UpdateFlashParameterFile,
         time_inputs_in_range o ->
         positive_time_inputs o
         /\ (driving_scale o * mach o =? 0)%float = false
         /\ (total_turn_overs o * dumps_per_turnover o =? 0)%float = false)
  /\ (let st' := snd (compute_turnover_time_parameters example_state) in
      fst (compute_turnover_time_parameters example_state) = Return tt
      /\ tmax (self st') = Some 0.5%float
      /\ map format_attribute (derived (self st'))
         = ["[]"; "0.5"; "0.005"; "0.005"; "0.0005"; "0.0005"; "0.00025"]).
Proof.
  split; [|split].
  - intros st o tmax_ checkpoint_ plot_ movie_ particle_ dtmax_ _.
    rewrite compute_turnover_time_parameters_run. cbv zeta. fold o. split.
    + intros -> ->. reflexivity.
    + intros [->| H2]; [reflexivity|].
      destruct (driving_scale o * mach o =? 0)%float; [reflexivity|].
      rewrite H2. reflexivity.
  - intros o H. split; [apply positive_in_range; exact H|].
    destruct (times_binade o H) as (P1 & P2 & _).
    split; eapply binade_not_zero; eassumption.
  - cbv zeta. split; [vm_compute; reflexivity|].
    split; vm_compute; reflexivity.
Qed.

Lemma compute_turnover_time_parameters_formulas_witness :
  positive_time_inputs (self example_state)
  /\ time_inputs_in_range (self example_state)
  /\ compute_turnover_time_parameters example_state
     = (Return tt,
        with_self
          (with_derived (self example_state) None (Some 0.5%float)
             (Some (0.5 / (10 * 10))%float) (Some (0.5 / (10 * 10))%float)
             (Some (0.5 / (10 * 10) / 10)%float)
             (Some (0.5 / (10 * 10) / 10)%float)
             (Some (0.5 / (10 * 10) / 10 / 2)%float)) example_state).
Proof.
  assert (Hp : positive_time_inputs (self example_state))
    by (repeat split; vm_compute; reflexivity).
  assert (Hr : time_inputs_in_range (self example_state))
    by (repeat split; vm_compute; reflexivity).
  split; [exact Hp|]. split; [exact Hr|].
  destruct (proj1 (proj2 compute_turnover_time_parameters_formulas)
              (self example_state) Hr) as (_ & H1 & H2).
  exact (proj1 (proj1 compute_turnover_time_parameters_formulas example_state Hp)
           H1 H2).
Defined.

Lemma sqrt_pi_unsigned : unsigned (2 * sqrt np_pi)%float = true.
Proof. reflexivity. Qed.

Lemma B0_of_unsigned (o : UpdateFlashParameterFile) :
  positive_float (mach o) = true -> positive_float (mach_alfven o) = true ->
  unsigned (B0_of o) = true.
Proof.
  intros Hm Ha. unfold B0_of.
  apply div_unsigned; [|apply positive_unsigned; exact Ha].
  apply mul_unsigned; [exact sqrt_pi_unsigned|apply positive_unsigned; exact Hm].
Qed.

Lemma times_unsigned (o : UpdateFlashParameterFile) :
  positive_inputs o ->
  unsigned (tmax_of o) = true /\ unsigned (checkpoint_of o) = true
  /\ unsigned (movie_of o) = true /\ unsigned (dtmax_of o) = true.
Proof.
  intros (Hm & _ & Hd & Hn & Ht).
  apply positive_unsigned in Hm, Hd, Hn, Ht.
  assert (H1 : unsigned (tmax_of o) = true)
    by (unfold tmax_of; auto using div_unsigned, mul_unsigned).
  assert (H2 : unsigned (checkpoint_of o) = true)
    by (unfold checkpoint_of; auto using div_unsigned, mul_unsigned).
  assert (H3 : unsigned (movie_of o) = true)
    by (unfold movie_of, plot_of; apply div_unsigned; [exact H2|reflexivity]).
  assert (H4 : unsigned (dtmax_of o) = true)
    by (unfold dtmax_of; apply div_unsigned; [exact H3|reflexivity]).
  auto.
Qed.

(** C9, as stated, fails: with the strictly positive inputs
    [mach = 2^-600], [mach_alfven = 2^600] (and the default driving scale,
    dumps and turnovers) the quotient underflows and [compute_B0] stores
    [0.0], which is not strictly positive; with [total_turn_overs = 2^1000],
    [driving_scale = mach = 2^-50], [dumps_per_turnover = 2^100] the time
    [tmax] overflows to infinity and the checkpoint interval is NaN. *)
Lemma derived_positive_counterexample :
  let o := init 0x1p-600 0x1p+600 2 10 10 None "flash.par" in
  let o' := init 0x1p-50 1 0x1p-50 0x1p+100 0x1p+1000 None "flash.par" in
  let run (o : UpdateFlashParameterFile) :=
    (compute_B0 ;; compute_turnover_time_parameters)%py
      {| self := o; outside := world_with "" |} in
  (positive_float (mach o) && positive_float (mach_alfven o)
   && positive_float (driving_scale o) && positive_float (dumps_per_turnover o)
   && positive_float (total_turn_overs o) = true)
  /\ fst (run o) = Return tt
  /\ B0 (self (snd (run o))) = Some 0%float
  /\ positive_float 0 = false
  /\ (positive_float (mach o') && positive_float (mach_alfven o')
      && positive_float (driving_scale o') && positive_float (dumps_per_turnover o')
      && positive_float (total_turn_overs o') = true)
  /\ fst (run o') = Return tt
  /\ tmax (self (snd (run o'))) = Some infinity
  /\ checkpointFileIntervalTime (self (snd (run o'))) = Some nan
  /\ positive_float nan = false.
Proof. cbv zeta. repeat split; vm_compute; reflexivity. Qed.

(** C9, amended: for inputs between [2^-200] and [2^200] (about [6.2e-61]
    and [1.6e60]), which are strictly positive, both [compute_] methods
    return and all seven derived quantities are strictly positive, and
    finite.  For strictly positive inputs of any size whose two divisors are
    not zero the methods still return and no derived quantity is negative,
    but one can be a zero or NaN, as the counterexample shows. *)
Theorem derived_strictly_positive_in_range :
  (forall st : state,
      inputs_in_range (self st) ->
      positive_inputs (self st)
      /\ exists st',
           (compute_B0 ;; compute_turnover_time_parameters)%py st
           = (Return tt, st')
           /\ Forall holds_positive (derived (self st')))
  /\ (forall st : state,
         positive_inputs (self st) ->
         times_defined (self st) = true ->
         exists st',
           (compute_B0 ;; compute_turnover_time_parameters)%py st
           = (Return tt, st')
           /\ Forall holds_not_negative (derived (self st'))).
Proof.
  split.
  - intros st [Ha Ht].
    pose proof (positive_in_range _ Ht) as (Pm & Pd & Pn & Pt).
    split.
    { repeat split; try assumption. apply in_range_positive. exact Ha. }
    destruct (times_defined_split _ (times_defined_in_range _ Ht)) as [H1 H2].
    unfold bind. rewrite compute_B0_run, compute_turnover_time_parameters_run.
    cbv zeta. cbn [self with_self set_B0 with_derived driving_scale mach
                   total_turn_overs dumps_per_turnover].
    rewrite H1, H2. eexists. split; [reflexivity|].
    destruct (times_binade _ Ht) as (_ & _ & T1 & T2 & T3 & T4).
    pose proof (B0_binade _ (proj1 Ht) Ha) as T0.
    cbn [self with_self derived set_times with_derived B0 tmax
         checkpointFileIntervalTime plotFileIntervalTime movie_dt_dump
         particleFileIntervalTime dtmax].
    repeat constructor; eexists; (split; [reflexivity|]);
      (split; [eapply binade_positive|eapply binade_finite]); eassumption.
  - intros st Hpos Hd. destruct (times_defined_split _ Hd) as [H1 H2].
    unfold bind. rewrite compute_B0_run, compute_turnover_time_parameters_run.
    cbv zeta. cbn [self with_self set_B0 with_derived driving_scale mach
                   total_turn_overs dumps_per_turnover].
    rewrite H1, H2. eexists. split; [reflexivity|].
    destruct (times_unsigned _ Hpos) as (T1 & T2 & T3 & T4).
    destruct Hpos as (Hm & Ha & _).
    pose proof (B0_of_unsigned _ Hm Ha) as T0.
    cbn [self with_self derived set_times with_derived B0 tmax
         checkpointFileIntervalTime plotFileIntervalTime movie_dt_dump
         particleFileIntervalTime dtmax].
    repeat constructor; eexists; (split; [reflexivity|]);
      apply unsigned_cases; assumption.
Qed.

Lemma derived_strictly_positive_in_range_witness :
  inputs_in_range (self example_state)
  /\ exists st',
       (compute_B0 ;; compute_turnover_time_parameters)%py example_state
       = (Return tt, st')
       /\ Forall holds_positive (derived (self st')).
Proof.
  assert (Hr : inputs_in_range (self example_state))
    by (repeat split; vm_compute; reflexivity).
  split; [exact Hr|].
  exact (proj2 (proj1 derived_strictly_positive_in_range example_state Hr)).
Defined.

(* ================================================================= *)
(** * Claims about the line rewriter *)

Lemma before_eq_prefix (s t : string) :
  before_eq s = Some t ->
  String.prefix (t +:+ "=") s = true /\ before_eq t = None.
Proof.
  revert t. induction s as [|c s IH]; intros t; cbn [before_eq]; [discriminate|].
  destruct (Ascii.eqb c "=") eqn:Ec.
  - intros [= <-]. apply Ascii.eqb_eq in Ec as ->.
    split; [|reflexivity]. change ("" +:+ "=") with (String "=" "").
    rewrite prefix_cons, prefix_empty. reflexivity.
  - destruct (before_eq s) as [t'|]; [|discriminate]. intros [= <-].
    destruct (IH t' eq_refl) as [Hp Hn]. rewrite append_cons, prefix_cons.
    rewrite Ascii.eqb_refl, Hp. cbn [before_eq]. rewrite Ec, Hn. auto.
Qed.

Lemma find_eq_none (s : string) : before_eq s = None -> find s "=" = -1.
Proof. intros H. unfold find. rewrite find_from_eq, H. reflexivity. Qed.

Lemma one_key_per_line (line k k' : string) :
  In k all_keys -> In k' all_keys ->
  String.prefix k line = true -> String.prefix k' line = true -> k = k'.
Proof.
  intros Hk Hk' Hp Hp'. destruct (String.eqb_spec k k') as [|Hne]; [assumption|].
  pose proof all_keys_incomparable as Hinc. rewrite forallb_forall in Hinc.
  pose proof (Hinc k Hk) as H1. rewrite forallb_forall in H1.
  pose proof (Hinc k' Hk') as H2. rewrite forallb_forall in H2.
  specialize (H1 k' Hk'). specialize (H2 k Hk).
  apply String.eqb_neq in Hne as Hne1. rewrite Hne1 in H1.
  rewrite String.eqb_sym, Hne1 in H2. cbn in H1, H2.
  destruct (prefix_comparable _ _ _ Hp Hp') as [H|H]; rewrite H in *;
    discriminate.
Qed.

(** C3, as stated, fails: the key token of the line [tmax_old=1] is
    [tmax_old], which is none of the nine keys, yet the line starts with
    [tmax] and is replaced. *)
Lemma key_token_counterexample :
  let line := "tmax_old=1" +:+ nl in
  before_eq line = Some "tmax_old"
  /\ existsb (String.eqb "tmax_old") all_keys = false
  /\ fst (rewrite_line line example_state) = Return ("tmax_old= 0.5" +:+ nl)
  /\ stdout (outside (snd (rewrite_line line example_state)))
     = [ found_line "flash.par" line;
         replaced_with "flash.par" ("tmax_old= 0.5" +:+ nl) ].
Proof. cbv zeta. repeat split; vm_compute; reflexivity. Qed.

(** C3, amended: when the time parameters are defined, the loop body replaces
    a line if and only if the line starts with one of the keys (at column 0,
    case-sensitively, whatever follows the key, with or without an ['=']):
    the eight fixed keys, and [st_infilename] when a forcing file is given.
    The keys are tried in the order magnetic field, movie, checkpoint, plot,
    particle, dtmax, tmax, forcing file, and the first one that matches
    decides the value; no line starts with two keys, and one replacement is
    made and reported per line at most. *)
Theorem substitution_iff_line_starts_with_key (st : state) (line : string) :
  times_defined (self st) = true ->
  let d := derive (self st) in
  rewrite_line line st
  = (Return (image d line), printed (log_of d line) (with_self d st))
  /\ image d line
     = match List.find (starts line) (target_table d) with
       | Some (_, v) => substituted line v
       | None => line
       end
  /\ log_of d line
     = match List.find (starts line) (target_table d) with
       | Some (_, v) => messages d line (substituted line v)
       | None => []
       end
  /\ (List.find (starts line) (target_table d) <> None <->
      exists k, In k (map fst (target_table d)) /\ String.prefix k line = true)
  /\ map fst (target_table d)
     = ([ "MagField_z"; "st_MPzBmeanTarget"; "movie_dt_dump";
          "checkpointFileIntervalTime"; "plotFileIntervalTime";
          "particleFileIntervalTime"; "dtmax"; "tmax" ]
        ++ match forcing_file (self st) with
           | Some _ => ["st_infilename"]
           | None => []
           end)%list
  /\ (forall k k', In k all_keys -> In k' all_keys ->
                   String.prefix k line = true -> String.prefix k' line = true ->
                   k = k')
  /\ (length (log_of d line) <= 2)%nat.
Proof.
  intros Hd d. split; [apply rewrite_line_run; exact Hd|].
  split; [reflexivity|]. split; [reflexivity|]. split; [|split; [|split]].
  - split.
    + destruct (List.find (starts line) (target_table d)) as [[k v]|] eqn:Hf;
        [intros _|congruence].
      apply find_starts_some in Hf. exists k. exact Hf.
    + intros (k & Hin & Hp) Hnone.
      apply in_map_iff in Hin as ([k' v] & <- & Hin).
      pose proof (List.find_none _ _ Hnone _ Hin) as Hs.
      unfold starts in Hs. cbn [fst] in *. congruence.
  - unfold target_table, forcing_table. subst d.
    change (forcing_file (derive (self st))) with (forcing_file (self st)).
    destruct (forcing_file (self st)); reflexivity.
  - intros k k'. apply one_key_per_line.
  - unfold log_of, first_match, messages.
    destruct (List.find (starts line) (target_table d)) as [[k v]|];
      [destruct (debug d)|]; cbn; lia.
Qed.

Lemma substitution_iff_line_starts_with_key_witness :
  let line := "dtmax = 1.0e-3" +:+ nl in
  let d := derive (self example_state) in
  times_defined (self example_state) = true
  /\ rewrite_line line example_state
     = (Return (image d line), printed (log_of d line) (with_self d example_state))
  /\ image d line = "dtmax = 0.00025" +:+ nl.
Proof.
  cbv zeta. split; [vm_compute; reflexivity|]. split.
  - apply (substitution_iff_line_starts_with_key example_state).
    vm_compute. reflexivity.
  - vm_compute. reflexivity.
Defined.

(** C4: when the time parameters are defined, a line that starts with a key
    and contains an ['='] is rewritten as its own text up to and including
    the first ['='] (a prefix of the line, kept as it is), a single space, the
    string form of the key's value and a newline; the line [tmax = 999.0],
    with [tmax] computed as [0.5], becomes [tmax = 0.5]. *)
Theorem replacement_keeps_text_up_to_equals :
  (forall (st : state) (line k v t : string),
      times_defined (self st) = true ->
      first_match (derive (self st)) line = Some (k, v) ->
      before_eq line = Some t ->
      fst (rewrite_line line st) = Return ((t +:+ "=") +:+ " " +:+ v +:+ nl)
      /\ String.prefix (t +:+ "=") line = true
      /\ before_eq t = None)
  /\ fst (rewrite_line ("tmax = 999.0" +:+ nl) example_state)
     = Return ("tmax = 0.5" +:+ nl).
Proof.
  split; [|vm_compute; reflexivity].
  intros st line k v t Hd Hm Ht.
  rewrite rewrite_line_run by exact Hd. cbn [fst]. unfold image. rewrite Hm.
  rewrite substituted_upto. unfold upto_eq. rewrite Ht.
  split; [reflexivity|]. apply before_eq_prefix. exact Ht.
Qed.

Lemma replacement_keeps_text_up_to_equals_witness :
  let line := "tmax = 999.0" +:+ nl in
  times_defined (self example_state) = true
  /\ first_match (derive (self example_state)) line = Some ("tmax", "0.5")
  /\ before_eq line = Some "tmax "
  /\ fst (rewrite_line line example_state)
     = Return (("tmax " +:+ "=") +:+ " " +:+ "0.5" +:+ nl).
Proof.
  cbv zeta.
  split; [vm_compute; reflexivity|].
  split; [vm_compute; reflexivity|].
  split; [vm_compute; reflexivity|].
  apply (proj1 replacement_keeps_text_up_to_equals example_state
           ("tmax = 999.0" +:+ nl) "tmax" "0.5" "tmax ");
    vm_compute; reflexivity.
Defined.

(** C10: when the time parameters are defined, for a line that starts with a
    key and contains no ['='], [line.find("=")] is [-1], the slice
    [line[0:i+1]] is empty, and the line is rewritten as a single space, the
    string form of the value and a newline: nothing of the original line,
    the key included, is kept. *)
Theorem line_without_equals_is_discarded (st : state) (line k v : string) :
  times_defined (self st) = true ->
  first_match (derive (self st)) line = Some (k, v) ->
  before_eq line = None ->
  find line "=" = -1
  /\ slice line 0 (find line "=" + 1) = ""
  /\ fst (rewrite_line line st) = Return (" " +:+ v +:+ nl).
Proof.
  intros Hd Hm Hn. split; [apply find_eq_none; exact Hn|].
  split; [rewrite slice_upto_eq; unfold upto_eq; rewrite Hn; reflexivity|].
  rewrite rewrite_line_run by exact Hd. cbn [fst]. unfold image. rewrite Hm.
  rewrite substituted_upto. unfold upto_eq. rewrite Hn. reflexivity.
Qed.

Lemma line_without_equals_is_discarded_witness :
  let line := "tmax" +:+ nl in
  times_defined (self example_state) = true
  /\ first_match (derive (self example_state)) line = Some ("tmax", "0.5")
  /\ before_eq line = None
  /\ find line "=" = -1
  /\ fst (rewrite_line line example_state) = Return (" 0.5" +:+ nl).
Proof.
  cbv zeta.
  split; [vm_compute; reflexivity|].
  split; [vm_compute; reflexivity|].
  split; [vm_compute; reflexivity|].
  pose proof (line_without_equals_is_discarded example_state
                ("tmax" +:+ nl) "tmax" "0.5") as H.
  destruct H as (H1 & _ & H3); try (vm_compute; reflexivity).
  split; [exact H1|exact H3].
Defined.

(* ================================================================= *)
(** * Claims about the file transaction *)

Lemma universal_newlines_no_cr (s : string) :
  no_cr s = true -> universal_newlines s = s.
Proof.
  unfold no_cr.
  induction s as [|c s IH]; [reflexivity|]. cbn [absent universal_newlines].
  intros H. apply andb_true_iff in H as [Hc Hs].
  rewrite negb_true_iff in Hc. rewrite Hc, IH by exact Hs. reflexivity.
Qed.

(** Splitting into lines loses nothing. *)
Lemma concat_lines_of (s : string) : concat_lines (lines_of s) = s.
Proof.
  induction s as [|c s IH]; [reflexivity|]. cbn [lines_of].
  destruct (Ascii.eqb c LF) eqn:Ec.
  - apply Ascii.eqb_eq in Ec as ->. cbn [concat_lines]. rewrite IH. reflexivity.
  - destruct (lines_of s) as [|l ls]; cbn [concat_lines] in *.
    + rewrite <- IH. reflexivity.
    + rewrite append_cons, IH. reflexivity.
Qed.

Lemma map_image_id (o : UpdateFlashParameterFile) (lines : list string) :
  (forall line, In line lines -> first_match o line = None) ->
  map (image o) lines = lines.
Proof.
  induction lines as [|l ls IH]; intros H; [reflexivity|]. cbn [map].
  unfold image at 1. rewrite (H l) by (left; reflexivity).
  rewrite IH; [reflexivity|]. intros line Hin. apply H. right. exact Hin.
Qed.

(** [main] when nothing fails and the time parameters are defined. *)
Lemma main_run (E : environment) (args : arguments) (w : world) (f : file) :
  ordinary_run E args w f ->
  times_defined (object_of args) = true ->
  let lines := readlines (content f) in
  let d := derive (object_of args) in
  main E args w =
  (Return tt,
   {| self := after_lines (object_of args) lines;
      outside :=
        {| fs := <[arg_file_name args :=
                     {| content := concat_lines (map (image d) lines);
                        mode := 644 |}]>
                   (<[backup_name := {| content := content f;
                                        mode := backup_mode E w |}]> (fs w));
           stdout := (stdout w ++ [backup_message])
                       ++ flat_map (log_of d) lines |} |}).
Proof.
  intros Hrun Hd lines d. rewrite (main_prelude E args w f Hrun).
  destruct Hrun as [HE Hf Hnb Htmp Htb].
  rewrite (update_flash_par_run E _ f); [reflexivity|exact HE|exact Hd| |].
  - cbn [outside fs]. rewrite lookup_insert_ne by congruence. exact Htmp.
  - cbn [outside fs self]. change (file_name (object_of args)) with (arg_file_name args).
    rewrite lookup_insert_ne by congruence. exact Hf.
Qed.

(** [update_flash_par] when the parameter file does not exist: the run
    raises before anything is written at its path. *)
Lemma update_flash_par_missing (E : environment) (st : state) :
  tmp_name E <> file_name (self st) ->
  fs (outside st) !! file_name (self st) = None ->
  exists e st',
    update_flash_par E st = (Raise e, st')
    /\ fs (outside st') !! file_name (self st) = None
    /\ (fails E OpMkstemp = false -> fs (outside st) !! tmp_name E = None ->
        fails E OpOpenWrite = false -> fails E OpOpenRead = false ->
        e = FileNotFoundError (file_name (self st))).
Proof.
  intros Hne Hfn. unfold update_flash_par.
  unfold bind at 1. rewrite io_mkstemp_cases.
  destruct (fails E OpMkstemp);
    [do 2 eexists; split; [reflexivity|]; split; [exact Hfn|discriminate]|].
  destruct (fs (outside st) !! tmp_name E) eqn:Htmp;
    [do 2 eexists; split; [reflexivity|]; split; [exact Hfn|discriminate]|].
  unfold bind at 1. rewrite io_open_w_cases.
  destruct (fails E OpOpenWrite).
  { do 2 eexists. split; [reflexivity|]. unfold with_fs. cbn [outside fs].
    rewrite lookup_insert_ne by exact Hne. split; [exact Hfn|discriminate]. }
  unfold with_fs. cbn [self outside fs stdout].
  rewrite lookup_insert_eq. cbn [mode].
  unfold bind at 1, get_attr, gets. cbn [self].
  unfold bind at 1. rewrite io_open_r_cases.
  cbn [outside fs]. rewrite !lookup_insert_ne by exact Hne. rewrite Hfn.
  destruct (fails E OpOpenRead);
    do 2 eexists; (split; [reflexivity|]); cbn [outside fs];
    rewrite !lookup_insert_ne by exact Hne; (split; [exact Hfn|]);
    intros; try reflexivity; discriminate.
Qed.

(** C7, as stated, fails: when [move] fails after [remove] succeeded, the
    run ends with [OSError] and no file at the original path. *)
Lemma failed_move_counterexample :
  let st := {| self := object_of example_args; outside := world_with tmax_line |} in
  let r := update_flash_par (failing OpMove) st in
  fs (outside st) !! "flash.par" = Some {| content := tmax_line; mode := 436 |}
  /\ fst r = Raise (OSError OpMove)
  /\ fs (outside (snd r)) !! "flash.par" = None
  /\ fs (outside (snd r)) !! tmp_name example_env
     = Some {| content := "tmax = 0.5" +:+ nl; mode := 384 |}.
Proof. cbv zeta. repeat split; vm_compute; reflexivity. Qed.

(** C7, amended: [update_flash_par] leaves the parameter file as it was on
    every failure up to and including a failed [remove]: the temporary file
    cannot be created or opened, the source cannot be opened or read, a
    division raises, a write or a close fails, the removal fails.  An
    absent source makes the run raise ([FileNotFoundError] when the
    temporary file could be set up) with still nothing at its path.  When
    [move] fails the original is gone: its path holds no file, or what the
    copy that [move] falls back on had written, that is a beginning of the
    rewritten text (under the mode of a new file) or all of it (with the
    mode [0o600] once the metadata were copied); the temporary file is still
    there.  When [chmod] fails the path holds the rewritten file with the
    mode [0o600] of the temporary file. *)
Theorem failure_leaves_file_until_move (E : environment) (st st' : state)
    (e : exn) :
  tmp_name E <> file_name (self st) ->
  update_flash_par E st = (Raise e, st') ->
  let fn := file_name (self st) in
  (e <> OSError OpMove -> e <> OSError OpChmod ->
   fs (outside st') !! fn = fs (outside st) !! fn)
  /\ (e = OSError OpMove ->
      exists c,
        fs (outside st') !! tmp_name E = Some {| content := c; mode := 384 |}
        /\ (fs (outside st') !! fn = None
            \/ exists c' m',
                 fs (outside st') !! fn = Some {| content := c'; mode := m' |}
                 /\ String.prefix c' c = true
                 /\ (m' = default_mode E \/ m' = 384 /\ c' = c)))
  /\ (e = OSError OpChmod ->
      exists c, fs (outside st') !! fn = Some {| content := c; mode := 384 |})
  /\ (fs (outside st) !! fn = None ->
      fs (outside st') !! fn = None
      /\ (fails E OpMkstemp = false -> fs (outside st) !! tmp_name E = None ->
          fails E OpOpenWrite = false -> fails E OpOpenRead = false ->
          e = FileNotFoundError fn)).
Proof.
  intros Hne H fn.
  destruct (update_flash_par_raises E st st' e Hne H) as (H1 & H2 & H3).
  split; [intros A B; apply H1; split; assumption|].
  split; [exact H2|]. split; [exact H3|].
  intros Hmiss.
  destruct (update_flash_par_missing E st Hne Hmiss) as (e0 & st0 & Hr & Hn & He).
  rewrite H in Hr. injection Hr as <- <-. split; assumption.
Qed.

Lemma failure_leaves_file_until_move_witness :
  let E := failing_move (Written 4) in
  let st := {| self := object_of example_args; outside := world_with tmax_line |} in
  let st' := snd (update_flash_par E st) in
  tmp_name E <> file_name (self st)
  /\ fst (update_flash_par E st) = Raise (OSError OpMove)
  /\ fs (outside st') !! "flash.par" = Some {| content := "tmax"; mode := 420 |}
  /\ exists c,
       fs (outside st') !! tmp_name E = Some {| content := c; mode := 384 |}
       /\ (fs (outside st') !! "flash.par" = None
           \/ exists c' m',
                fs (outside st') !! "flash.par"
                = Some {| content := c'; mode := m' |}
                /\ String.prefix c' c = true
                /\ (m' = default_mode E \/ m' = 384 /\ c' = c)).
Proof.
  cbv zeta. split; [discriminate|]. split; [vm_compute; reflexivity|].
  split; [vm_compute; reflexivity|].
  refine (proj1 (proj2 (failure_leaves_file_until_move (failing_move (Written 4))
            {| self := object_of example_args; outside := world_with tmax_line |}
            (snd (update_flash_par (failing_move (Written 4))
                    {| self := object_of example_args;
                       outside := world_with tmax_line |}))
            (OSError OpMove) _ _)) _).
  - discriminate.
  - vm_compute. reflexivity.
  - reflexivity.
Defined.

Lemma mul_by_zero (d m : float) :
  finite_float d = true -> (m =? 0)%float = true -> (d * m =? 0)%float = true.
Proof.
  unfold finite_float. rewrite !eqb_spec, mul_spec.
  change (Prim2SF 0) with (S754_zero false).
  destruct (Prim2SF d) as [[]|[]| |[] md ed], (Prim2SF m) as [[]|[]| |[] mm em];
    cbn; congruence.
Qed.

(** C5, as stated, fails: with [mach_alfven = 0] nothing is rejected; the run
    completes, [B0] is infinite and [MagField_z = inf] is written. *)
Lemma zero_alfven_counterexample :
  let args := with_mach 10 0 example_args in
  let w := world_with ("MagField_z = 1.0" +:+ nl) in
  let r := main example_env args w in
  (arg_mach_alfven args =? 0)%float = true
  /\ fst r = Return tt
  /\ B0 (self (snd r)) = Some infinity
  /\ fs (outside (snd r)) !! "flash.par"
     = Some {| content := "MagField_z = inf" +:+ nl; mode := 644 |}.
Proof. cbv zeta. repeat split; vm_compute; reflexivity. Qed.

(** C5, amended: the script checks no input.  In a run on an existing,
    non-empty file in which no call of the runtime fails, the only rejection
    is the [ZeroDivisionError] of Python's float division, raised when
    [driving_scale * mach] or [total_turn_overs * dumps_per_turnover] is zero
    (so when [mach] is zero and the driving scale finite); it is raised while
    the first line is processed, after the backup copy and the temporary file
    were written, and leaves the parameter file as it was.  Whenever the two
    products are not zero the run completes: [mach_alfven] is never looked
    at, and negative inputs are accepted. *)
Theorem only_zero_division_rejects (E : environment) (args : arguments)
    (w : world) (f : file) :
  ordinary_run E args w f ->
  readlines (content f) <> [] ->
  let o := object_of args in
  let r := main E args w in
  times_defined o
  = negb (arg_driving_scale args * arg_mach args =? 0)%float
    && negb (arg_total_turn_overs args * arg_dumps_per_turnover args =? 0)%float
  /\ (times_defined o = true -> fst r = Return tt)
  /\ (times_defined o = false ->
      fst r = Raise ZeroDivisionError
      /\ fs (outside (snd r)) !! arg_file_name args = Some f
      /\ fs (outside (snd r)) !! backup_name
         = Some {| content := content f; mode := backup_mode E w |}
      /\ fs (outside (snd r)) !! tmp_name E
         = Some {| content := ""; mode := 384 |})
  /\ ((arg_mach args =? 0)%float = true ->
      finite_float (arg_driving_scale args) = true ->
      times_defined o = false).
Proof.
  intros Hrun Hlines o r. split; [reflexivity|]. split; [|split].
  - intros Hd. subst r. rewrite (main_run E args w f Hrun Hd). reflexivity.
  - intros Hd. subst r. rewrite (main_prelude E args w f Hrun).
    destruct Hrun as [HE Hf Hnb Htmp Htb].
    match goal with
    | |- context [update_flash_par E ?s] =>
        destruct (update_flash_par_undefined E s f HE Hd) as (st' & -> & Hfs)
    end.
    + cbn [outside fs]. rewrite lookup_insert_ne by congruence. exact Htmp.
    + cbn [outside fs self].
      change (file_name (object_of args)) with (arg_file_name args).
      rewrite lookup_insert_ne by congruence. exact Hf.
    + exact Hlines.
    + cbn [fst snd]. rewrite Hfs. cbn [outside fs].
      split; [reflexivity|].
      assert (Hne : tmp_name E <> arg_file_name args) by congruence.
      split; [|split].
      * rewrite lookup_insert_ne by exact Hne.
        rewrite lookup_insert_ne by congruence. exact Hf.
      * rewrite lookup_insert_ne by exact Htb. apply lookup_insert_eq.
      * apply lookup_insert_eq.
  - intros Hm Hfin. unfold times_defined, o. cbn [driving_scale mach object_of init].
    rewrite (mul_by_zero _ _ Hfin Hm). reflexivity.
Qed.

Lemma only_zero_division_rejects_witness :
  let args := with_mach 0 1 example_args in
  let w := world_with tmax_line in
  let r := main example_env args w in
  (arg_mach args =? 0)%float = true
  /\ fst r = Raise ZeroDivisionError
  /\ fs (outside (snd r)) !! "flash.par" = fs w !! "flash.par".
Proof.
  cbv zeta. split; [vm_compute; reflexivity|].
  assert (Hrun : ordinary_run example_env (with_mach 0 1 example_args)
                   (world_with tmax_line) {| content := tmax_line; mode := 436 |}).
  { split; [intros op; reflexivity|vm_compute; reflexivity|discriminate
           |vm_compute; reflexivity|discriminate]. }
  assert (Hlines : readlines (content {| content := tmax_line; mode := 436 |}) <> [])
    by (vm_compute; discriminate).
  destruct (only_zero_division_rejects _ _ _ _ Hrun Hlines) as (_ & _ & H & _).
  destruct H as (H1 & H2 & _); [vm_compute; reflexivity|].
  split; [exact H1|]. etransitivity; [exact H2|]. vm_compute. reflexivity.
Defined.

(** C8: the mode that reaches [chmod] in [update_flash_par] is the decimal
    number 644, which is [0o1204] (sticky bit, write for the owner, read for
    the others) and not [0o644 = 420]: after a successful run the file has
    mode 644 in decimal, here on the documented example and in every run in
    which nothing fails. *)
Theorem chmod_mode_is_decimal_644 :
  (forall (E : environment) (args : arguments) (w : world) (f : file),
      ordinary_run E args w f ->
      times_defined (object_of args) = true ->
      exists c, fs (outside (snd (main E args w))) !! arg_file_name args
                = Some {| content := c; mode := 644 |})
  /\ (exists c, fs (outside (snd (main example_env example_args
                                     (world_with tmax_line)))) !! "flash.par"
                = Some {| content := c; mode := 644 |})
  /\ 644 = 1 * 8 ^ 3 + 2 * 8 ^ 2 + 0 * 8 + 4
  /\ 420 = 6 * 8 ^ 2 + 4 * 8 + 4
  /\ 644 <> 420.
Proof.
  split; [|split; [|split; [|split]]].
  - intros E args w f Hrun Hd. rewrite (main_run E args w f Hrun Hd).
    cbn [snd outside fs]. eexists. apply lookup_insert_eq.
  - eexists. vm_compute. reflexivity.
  - reflexivity.
  - reflexivity.
  - discriminate.
Qed.

(** ** Lines that stay lines *)

Lemma absent_app (c : ascii) (a b : string) :
  absent c (a +:+ b) = absent c a && absent c b.
Proof.
  induction a as [|x a IH]; [reflexivity|].
  rewrite append_cons. cbn [absent]. rewrite IH, andb_assoc. reflexivity.
Qed.

Lemma lines_of_app_line (body rest : string) :
  no_lf body = true ->
  lines_of (body +:+ nl +:+ rest) = (body +:+ nl) :: lines_of rest.
Proof.
  unfold no_lf. induction body as [|c b IH]; intros H; [reflexivity|].
  cbn [absent] in H. apply andb_true_iff in H as [Hc Hb].
  rewrite negb_true_iff in Hc.
  rewrite !append_cons. cbn [lines_of]. rewrite Hc, IH by exact Hb. reflexivity.
Qed.

Lemma lines_of_last (body : string) :
  no_lf body = true -> body <> "" -> lines_of body = [body].
Proof.
  unfold no_lf. induction body as [|c b IH]; intros H Hne; [congruence|].
  cbn [absent] in H. apply andb_true_iff in H as [Hc Hb].
  rewrite negb_true_iff in Hc. cbn [lines_of]. rewrite Hc.
  destruct b as [|c' b']; [reflexivity|]. rewrite IH by (auto; discriminate).
  reflexivity.
Qed.

Lemma lines_of_line_list (s : string) : line_list (lines_of s).
Proof.
  induction s as [|c s IH]; [constructor|]. cbn [lines_of].
  destruct (Ascii.eqb c LF) eqn:Ec.
  - apply (line_list_cons "" _ eq_refl IH).
  - assert (Hc : negb (Ascii.eqb c LF) = true) by (rewrite Ec; reflexivity).
    inversion IH as [Hn|body Hb Hne Hn|body ls Hb Hls Hn].
    + apply line_list_last; [|discriminate]. cbn. rewrite Ec. reflexivity.
    + apply line_list_last; [|discriminate].
      unfold no_lf in *. cbn [absent]. rewrite Hc, Hb. reflexivity.
    + rewrite <- append_cons. apply line_list_cons; [|exact Hls].
      unfold no_lf in *. cbn [absent]. rewrite Hc, Hb. reflexivity.
Qed.

(** Reading back what was written line by line gives the lines again. *)
Lemma lines_of_concat (ls : list string) :
  line_list ls -> lines_of (concat_lines ls) = ls.
Proof.
  induction 1 as [|body Hb Hne|body ls Hb Hls IH]; [reflexivity| |].
  - cbn [concat_lines]. rewrite append_nil_r. apply lines_of_last; assumption.
  - cbn [concat_lines]. rewrite append_assoc, lines_of_app_line, IH by exact Hb.
    reflexivity.
Qed.

Lemma before_eq_app_nl (body : string) :
  before_eq (body +:+ nl) = before_eq body.
Proof.
  induction body as [|c b IH]; [reflexivity|].
  rewrite append_cons. cbn [before_eq]. rewrite IH. reflexivity.
Qed.

Lemma absent_upto_eq (c : ascii) (s : string) :
  absent c s = true -> absent c (upto_eq s) = true.
Proof.
  unfold upto_eq. induction s as [|x s IH]; [reflexivity|].
  cbn [absent before_eq]. intros H. apply andb_true_iff in H as [Hx Hs].
  destruct (Ascii.eqb x "=") eqn:Ex.
  - apply Ascii.eqb_eq in Ex as ->. change ("" +:+ "=") with (String "=" "").
    cbn [absent]. rewrite Hx. reflexivity.
  - specialize (IH Hs). destruct (before_eq s) as [t|]; [|reflexivity].
    cbn [option_map]. rewrite append_cons. cbn [absent]. rewrite Hx, IH.
    reflexivity.
Qed.

Lemma image_of_line (o : UpdateFlashParameterFile) (body : string) :
  plain_values o -> no_lf body = true ->
  exists body', image o (body +:+ nl) = body' +:+ nl /\ no_lf body' = true.
Proof.
  intros Hv Hb. unfold image, first_match.
  destruct (List.find (starts (body +:+ nl)) (target_table o)) as [[k v]|] eqn:Hf;
    [|exists body; auto].
  apply List.find_some in Hf as [Hin _]. specialize (Hv _ Hin).
  cbn [snd] in Hv. unfold no_break in Hv. apply andb_true_iff in Hv as [_ Hv].
  rewrite substituted_upto. unfold upto_eq. rewrite before_eq_app_nl.
  fold (upto_eq body).
  exists (upto_eq body +:+ " " +:+ v). split.
  - rewrite !append_assoc. reflexivity.
  - unfold no_lf in *. rewrite !absent_app, absent_upto_eq, Hv by exact Hb.
    reflexivity.
Qed.

Lemma image_of_last_line (o : UpdateFlashParameterFile) (body : string) :
  plain_values o -> no_lf body = true -> body <> "" ->
  line_list [image o body].
Proof.
  intros Hv Hb Hne. unfold image, first_match.
  destruct (List.find (starts body) (target_table o)) as [[k v]|] eqn:Hf;
    [|apply line_list_last; assumption].
  apply List.find_some in Hf as [Hin _]. specialize (Hv _ Hin).
  cbn [snd] in Hv. unfold no_break in Hv. apply andb_true_iff in Hv as [_ Hv].
  rewrite substituted_upto.
  replace (upto_eq body +:+ " " +:+ v +:+ nl)
    with ((upto_eq body +:+ " " +:+ v) +:+ nl)
    by (rewrite !append_assoc; reflexivity).
  apply line_list_cons; [|constructor].
  unfold no_lf in *. rewrite !absent_app, absent_upto_eq, Hv by exact Hb.
  reflexivity.
Qed.

Lemma map_image_line_list (o : UpdateFlashParameterFile) (ls : list string) :
  plain_values o -> line_list ls -> line_list (map (image o) ls).
Proof.
  intros Hv. induction 1 as [|body Hb Hne|body ls Hb Hls IH]; [constructor| |].
  - apply image_of_last_line; assumption.
  - cbn [map]. destruct (image_of_line o body Hv Hb) as (body' & -> & Hb').
    apply line_list_cons; assumption.
Qed.

(** ** No line break in a printed float *)

Lemma absent_uint (c : ascii) (u : Decimal.uint) :
  line_break c -> absent c (NilEmpty.string_of_uint u) = true.
Proof.
  intros [-> | ->]; induction u as [|u IH|u IH|u IH|u IH|u IH|u IH|u IH|u IH|u IH|u IH];
    cbn [NilEmpty.string_of_uint absent]; try rewrite IH; reflexivity.
Qed.

Lemma absent_digits_of_Z (c : ascii) (d : Z) :
  line_break c -> absent c (digits_of_Z d) = true.
Proof.
  intros Hc. unfold digits_of_Z, NilZero.string_of_uint.
  destruct (N.to_uint (Z.to_N d)) eqn:Hu; try (rewrite <- Hu; apply absent_uint; exact Hc).
  destruct Hc as [-> | ->]; reflexivity.
Qed.

Lemma absent_substring (c : ascii) (s : string) (n m : nat) :
  absent c s = true -> absent c (String.substring n m s) = true.
Proof.
  revert n m. induction s as [|x s IH]; intros n m H.
  - destruct n, m; reflexivity.
  - cbn [absent] in H. apply andb_true_iff in H as [Hx Hs].
    destruct n as [|n]; [destruct m as [|m]|]; cbn [String.substring absent];
      [reflexivity| |apply IH; exact Hs].
    rewrite Hx, IH by exact Hs. reflexivity.
Qed.

Lemma absent_slice (c : ascii) (s : string) (a b : Z) :
  absent c s = true -> absent c (slice s a b) = true.
Proof. intros H. unfold slice. apply absent_substring. exact H. Qed.

Lemma absent_zeros (c : ascii) (n : nat) :
  line_break c -> absent c (zeros n) = true.
Proof.
  intros [-> | ->]; induction n as [|n IH]; cbn [zeros absent];
    try rewrite IH; reflexivity.
Qed.

Lemma absent_format_short (c : ascii) (digits : string) (decpt : Z) :
  line_break c -> absent c digits = true ->
  absent c (format_short digits decpt) = true.
Proof.
  intros Hc Hd. unfold format_short, format_exponent.
  assert (Hs : forall a b, absent c (slice digits a b) = true)
    by (intros; apply absent_slice; exact Hd).
  assert (Hz : forall n, absent c (zeros n) = true)
    by (intros; apply absent_zeros; exact Hc).
  assert (Hx : forall z, absent c (digits_of_Z z) = true)
    by (intros; apply absent_digits_of_Z; exact Hc).
  repeat match goal with
         | |- context [if ?b then _ else _] => destruct b
         end;
    rewrite ?absent_app, ?Hs, ?Hz, ?Hx, ?Hd;
    destruct Hc as [-> | ->]; reflexivity.
Qed.

Lemma float_repr_plain (x : float) : no_break (float_repr x) = true.
Proof.
  assert (H : forall c, line_break c -> absent c (float_repr x) = true).
  { intros c Hc. unfold float_repr.
    destruct (Prim2SF x) as [[]|[]| |s m e];
      try (destruct Hc as [-> | ->]; reflexivity).
    destruct (shortest_digits m e) as [d q].
    rewrite absent_app, absent_format_short
      by (auto using absent_digits_of_Z).
    destruct s, Hc as [-> | ->]; reflexivity. }
  unfold no_break, no_cr, no_lf.
  rewrite (H CR), (H LF) by (unfold line_break; auto). reflexivity.
Qed.

Lemma plain_values_derive (o : UpdateFlashParameterFile) :
  plain_forcing o = true -> plain_values (derive o).
Proof.
  intros Hf kv Hin. unfold target_table in Hin.
  apply in_app_or in Hin as [Hin|Hin]; [|apply in_app_or in Hin as [Hin|Hin]].
  - cbn in Hin.
    repeat (destruct Hin as [<-|Hin]; [apply float_repr_plain|]).
    contradiction.
  - cbn in Hin.
    repeat (destruct Hin as [<-|Hin]; [apply float_repr_plain|]).
    contradiction.
  - unfold plain_forcing in Hf. unfold forcing_table in Hin.
    change (forcing_file (derive o)) with (forcing_file o) in Hin.
    destruct (forcing_file o); cbn in Hin; [|contradiction].
    destruct Hin as [<-|[]]. exact Hf.
Qed.

(** ** Carriage returns *)

Lemma no_cr_universal_newlines (s : string) :
  no_cr (universal_newlines s) = true.
Proof.
  unfold no_cr.
  assert (H : forall n s, (String.length s <= n)%nat ->
                          absent CR (universal_newlines s) = true).
  { clear s. induction n as [|n IH]; intros [|c s] Hl; try reflexivity;
      cbn [String.length] in Hl; [lia|].
    cbn [universal_newlines]. destruct (Ascii.eqb c CR) eqn:Ec.
    - cbn [absent]. replace (Ascii.eqb LF CR) with false by reflexivity.
      cbn [negb andb]. destruct s as [|c' s']; [reflexivity|].
      cbn [String.length] in Hl.
      destruct (Ascii.eqb c' LF); apply IH; cbn [String.length]; lia.
    - cbn [absent]. rewrite Ec. cbn [negb andb]. apply IH. lia. }
  apply (H (String.length s)). lia.
Qed.

Lemma absent_concat_lines (c : ascii) (ls : list string) :
  absent c (concat_lines ls) = forallb (absent c) ls.
Proof.
  induction ls as [|l ls IH]; [reflexivity|].
  cbn [concat_lines forallb]. rewrite absent_app, IH. reflexivity.
Qed.

Lemma no_cr_image (o : UpdateFlashParameterFile) (line : string) :
  plain_values o -> no_cr line = true -> no_cr (image o line) = true.
Proof.
  intros Hv Hl. unfold image, first_match.
  destruct (List.find (starts line) (target_table o)) as [[k v]|] eqn:Hf;
    [|exact Hl].
  apply List.find_some in Hf as [Hin _]. specialize (Hv _ Hin).
  cbn [snd] in Hv. unfold no_break in Hv. apply andb_true_iff in Hv as [Hv _].
  rewrite substituted_upto. unfold no_cr in *.
  rewrite !absent_app, absent_upto_eq, Hv by exact Hl. reflexivity.
Qed.

(** What the loop writes is read back as the very lines it wrote. *)
Lemma readlines_written (o : UpdateFlashParameterFile) (bytes : string) :
  plain_values o ->
  readlines (concat_lines (map (image o) (readlines bytes)))
  = map (image o) (readlines bytes).
Proof.
  intros Hv. unfold readlines at 1.
  rewrite universal_newlines_no_cr.
  - apply lines_of_concat, map_image_line_list; [exact Hv|].
    apply lines_of_line_list.
  - unfold no_cr. rewrite absent_concat_lines. apply forallb_forall.
    intros l Hin. apply in_map_iff in Hin as (l0 & <- & Hin).
    apply no_cr_image; [exact Hv|].
    pose proof (no_cr_universal_newlines bytes) as Hcr. unfold no_cr in Hcr.
    unfold readlines in Hin. rewrite <- (concat_lines_of (universal_newlines bytes)) in Hcr.
    rewrite absent_concat_lines, forallb_forall in Hcr. apply Hcr. exact Hin.
Qed.

(** C6, as stated, fails: a file with no key at all whose line ends with
    a carriage return and a line feed is written back with a line feed only,
    so the new content differs from the old one. *)
Lemma crlf_counterexample :
  let text := "nblockx = 1" +:+ String CR nl in
  let r := main example_env example_args (world_with text) in
  forallb (fun line => match first_match (derive (object_of example_args)) line with
                       | None => true
                       | Some _ => false
                       end) (readlines text) = true
  /\ fst r = Return tt
  /\ fs (outside (snd r)) !! "flash.par"
     = Some {| content := "nblockx = 1" +:+ nl; mode := 644 |}
  /\ String.eqb ("nblockx = 1" +:+ nl) text = false.
Proof. cbv zeta. repeat split; vm_compute; reflexivity. Qed.

(** C6, amended: in a run in which nothing fails, the new content of the
    file is the images of the lines read from it, written one after the
    other in the order read, none added or dropped; a line that starts with
    no key is written as it was read, that is after a carriage return and
    line feed, or a lone carriage return, became a line feed.  So a file
    without carriage returns and without a line that starts with a key is
    rewritten byte for byte; and when the name of the forcing file has no
    line break, the new file reads as exactly the images of the old lines,
    as many lines in the same order. *)
Theorem rewrite_is_linewise (E : environment) (args : arguments) (w : world)
    (f : file) :
  ordinary_run E args w f ->
  times_defined (object_of args) = true ->
  let lines := readlines (content f) in
  let d := derive (object_of args) in
  let written := map (image d) lines in
  fst (main E args w) = Return tt
  /\ fs (outside (snd (main E args w))) !! arg_file_name args
     = Some {| content := concat_lines written; mode := 644 |}
  /\ length written = length lines
  /\ (forall (i : nat) (line : string),
         lines !! i = Some line -> written !! i = Some (image d line))
  /\ (forall line, first_match d line = None -> image d line = line)
  /\ (no_cr (content f) = true ->
      (forall line, In line lines -> first_match d line = None) ->
      concat_lines written = content f)
  /\ (plain_forcing (object_of args) = true ->
      readlines (concat_lines written) = written).
Proof.
  intros Hrun Hd lines d written.
  rewrite (main_run E args w f Hrun Hd). cbn [fst snd outside fs].
  split; [reflexivity|]. split; [apply lookup_insert_eq|].
  split; [apply length_map|]. split; [|split; [|split]].
  - intros i line Hi. unfold written. rewrite list_lookup_fmap, Hi. reflexivity.
  - intros line Hn. unfold image. rewrite Hn. reflexivity.
  - intros Hcr Hnone. unfold written. rewrite map_image_id by exact Hnone.
    unfold lines, readlines. rewrite universal_newlines_no_cr by exact Hcr.
    apply concat_lines_of.
  - intros Hp. apply readlines_written, plain_values_derive. exact Hp.
Qed.

Lemma rewrite_is_linewise_witness :
  let text := "# runtime parameters" +:+ nl +:+ tmax_line +:+ "nblockx = 1" +:+ nl in
  let r := main example_env example_args (world_with text) in
  times_defined (object_of example_args) = true
  /\ fst r = Return tt
  /\ fs (outside (snd r)) !! "flash.par"
     = Some {| content := "# runtime parameters" +:+ nl +:+ "tmax = 0.5" +:+ nl
                            +:+ "nblockx = 1" +:+ nl;
               mode := 644 |}.
Proof.
  cbv zeta. split; [vm_compute; reflexivity|].
  assert (Hrun : ordinary_run example_env example_args
                   (world_with ("# runtime parameters" +:+ nl +:+ tmax_line
                                  +:+ "nblockx = 1" +:+ nl))
                   {| content := "# runtime parameters" +:+ nl +:+ tmax_line
                                   +:+ "nblockx = 1" +:+ nl;
                      mode := 436 |}).
  { split; [intros op; reflexivity|vm_compute; reflexivity|discriminate
           |vm_compute; reflexivity|discriminate]. }
  destruct (rewrite_is_linewise _ _ _ _ Hrun) as (H1 & H2 & _);
    [vm_compute; reflexivity|].
  split; [exact H1|]. etransitivity; [exact H2|]. vm_compute. reflexivity.
Defined.


(* ================================================================= *)
(** * Further properties of a run *)

(** ** What a run touches *)

Section Effects.
Variable E : environment.

Ltac same_elsewhere :=
  unfold with_fs; cbn [outside fs self];
  repeat first [ rewrite lookup_insert_ne by congruence
               | rewrite lookup_delete_ne by congruence ];
  try reflexivity.

(** Whatever happens, [update_flash_par] writes to the temporary file and to
    the parameter file only. *)
Lemma update_flash_par_frame (st st' : state) (r : outcome unit) :
  update_flash_par E st = (r, st') ->
  forall p, p <> tmp_name E -> p <> file_name (self st) ->
    fs (outside st') !! p = fs (outside st) !! p.
Proof.
  intros H p Hp1 Hp2. unfold update_flash_par in H.
  unfold bind at 1 in H. rewrite io_mkstemp_cases in H.
  destruct (fails E OpMkstemp); [injection H as <- <-; reflexivity|].
  destruct (fs (outside st) !! tmp_name E) eqn:Htmp;
    [injection H as <- <-; reflexivity|].
  unfold bind at 1 in H. rewrite io_open_w_cases in H.
  destruct (fails E OpOpenWrite); [injection H as <- <-; same_elsewhere|].
  unfold with_fs in H. cbn [self outside fs stdout] in H.
  unfold bind at 1, get_attr, gets in H. cbn [self] in H.
  unfold bind at 1 in H. rewrite io_open_r_cases in H.
  destruct (fails E OpOpenRead); [injection H as <- <-; same_elsewhere|].
  cbn [outside fs] in H.
  match type of H with
  | context [match ?x with Some _ => _ | None => _ end] =>
      destruct x as [f|] eqn:Hfn; [|injection H as <- <-; same_elsewhere]
  end.
  unfold bind at 1 in H.
  match type of H with
  | context [rewrite_lines E ?t ?n ?l ?s] =>
      destruct (rewrite_lines E t n l s) as [[[]|e1] s1] eqn:Hloop;
      destruct (rewrite_lines_frame _ _ _ _ _ _ _ Hloop) as (F1 & _ & _)
  end.
  2:{ injection H as <- <-. rewrite F1 by exact Hp1. same_elsewhere. }
  cbn [outside fs] in F1.
  assert (Hs1 : fs (outside s1) !! p = fs (outside st) !! p).
  { rewrite F1 by exact Hp1. same_elsewhere. }
  unfold bind at 1 in H. rewrite io_guard_run in H.
  destruct (fails E OpCloseTemp); [injection H as <- <-; exact Hs1|].
  unfold bind at 1 in H. rewrite io_guard_run in H.
  destruct (fails E OpCloseFd); [injection H as <- <-; exact Hs1|].
  unfold bind at 1 in H. rewrite io_guard_run in H.
  destruct (fails E OpCloseSource); [injection H as <- <-; exact Hs1|].
  unfold bind at 1 in H. rewrite io_remove_cases in H.
  destruct (fails E OpRemove); [injection H as <- <-; exact Hs1|].
  destruct (fs (outside s1) !! file_name (self st));
    [|injection H as <- <-; exact Hs1].
  unfold bind at 1 in H. rewrite io_move_cases in H.
  match type of H with
  | context [match ?x with Some _ => _ | None => _ end] =>
      destruct x as [ft|]; [|injection H as <- <-; same_elsewhere; exact Hs1]
  end.
  destruct (fails E OpMove).
  { injection H as <- <-. unfold left_at.
    destruct (move_left E); same_elsewhere; exact Hs1. }
  unfold with_fs at 1 2 in H. cbn [self outside fs stdout] in H.
  rewrite io_chmod_cases in H.
  destruct (fails E OpChmod);
    [injection H as <- <-; same_elsewhere; exact Hs1|].
  unfold with_fs in H. cbn [self outside fs stdout] in H.
  rewrite lookup_insert_eq in H.
  injection H as <- <-. same_elsewhere. exact Hs1.
Qed.


(** When [update_flash_par] raises after [mkstemp] made the temporary file,
    and before [chmod], the temporary file is still there. *)
Lemma update_flash_par_leak (st st' : state) (e : exn) :
  fs (outside st) !! tmp_name E = None ->
  tmp_name E <> file_name (self st) ->
  update_flash_par E st = (Raise e, st') ->
  e <> OSError OpMkstemp -> e <> OSError OpChmod ->
  exists c, fs (outside st') !! tmp_name E
            = Some {| content := c; mode := 384 |}.
Proof.
  intros Htmp Hne H Hmk Hch. unfold update_flash_par in H.
  unfold bind at 1 in H. rewrite io_mkstemp_cases in H.
  destruct (fails E OpMkstemp); [injection H as <- <-; congruence|].
  rewrite Htmp in H.
  unfold bind at 1 in H. rewrite io_open_w_cases in H.
  destruct (fails E OpOpenWrite).
  { injection H as <- <-. eexists. unfold with_fs. cbn [outside fs].
    apply lookup_insert_eq. }
  unfold with_fs in H. cbn [self outside fs stdout] in H.
  rewrite lookup_insert_eq in H. cbn [mode] in H.
  unfold bind at 1, get_attr, gets in H. cbn [self] in H.
  unfold bind at 1 in H. rewrite io_open_r_cases in H.
  destruct (fails E OpOpenRead).
  { injection H as <- <-. eexists. cbn [outside fs]. apply lookup_insert_eq. }
  cbn [outside fs] in H.
  match type of H with
  | context [match ?x with Some _ => _ | None => _ end] =>
      destruct x as [f|] eqn:Hfn
  end.
  2:{ injection H as <- <-. eexists. cbn [outside fs]. apply lookup_insert_eq. }
  rewrite !lookup_insert_ne in Hfn by exact Hne.
  unfold bind at 1 in H.
  match type of H with
  | context [rewrite_lines E ?t ?n ?l ?s] =>
      destruct (rewrite_lines E t n l s) as [[[]|e1] s1] eqn:Hloop;
      destruct (rewrite_lines_frame _ _ _ _ _ _ _ Hloop) as (F1 & F2 & _)
  end.
  2:{ injection H as <- <-. apply (F2 {| content := ""; mode := 384 |}).
      cbn [outside fs]. apply lookup_insert_eq. }
  cbn [outside fs] in F1, F2.
  destruct (F2 _ (lookup_insert_eq _ _ _)) as [c Hc]. cbn [mode] in Hc.
  assert (Hfn1 : fs (outside s1) !! file_name (self st) = Some f).
  { rewrite F1 by congruence. rewrite !lookup_insert_ne by exact Hne.
    exact Hfn. }
  unfold bind at 1 in H. rewrite io_guard_run in H.
  destruct (fails E OpCloseTemp); [injection H as <- <-; eauto|].
  unfold bind at 1 in H. rewrite io_guard_run in H.
  destruct (fails E OpCloseFd); [injection H as <- <-; eauto|].
  unfold bind at 1 in H. rewrite io_guard_run in H.
  destruct (fails E OpCloseSource); [injection H as <- <-; eauto|].
  unfold bind at 1 in H. rewrite io_remove_cases in H.
  destruct (fails E OpRemove); [injection H as <- <-; eauto|].
  rewrite Hfn1 in H.
  unfold bind at 1 in H. rewrite io_move_cases in H.
  unfold with_fs in H. cbn [self outside fs stdout] in H.
  rewrite lookup_delete_ne in H by congruence. rewrite Hc in H.
  destruct (fails E OpMove).
  { injection H as <- <-. exists c. cbn [outside fs]. unfold left_at.
    destruct (move_left E);
      repeat first [ rewrite lookup_insert_ne by congruence
                   | rewrite lookup_delete_ne by congruence ];
      exact Hc. }
  rewrite io_chmod_cases in H. cbn [self outside fs stdout] in H.
  destruct (fails E OpChmod); [injection H as <- <-; congruence|].
  rewrite lookup_insert_eq in H. discriminate H.
Qed.

(** [main], up to the call of [update_flash_par]: the notice is printed,
    then the copy is made or refused. *)
Lemma main_cases (args : arguments) (w : world) :
  main E args w =
  if fails E OpCopyfile then (Raise (OSError OpCopyfile), refused args w)
  else match fs w !! arg_file_name args with
       | None => (Raise (FileNotFoundError (arg_file_name args)), refused args w)
       | Some f =>
           if String.eqb (arg_file_name args) backup_name
           then (Raise (SameFileError (arg_file_name args)), refused args w)
           else update_flash_par E
                  {| self := object_of args;
                     outside :=
                       {| fs := <[backup_name :=
                                    {| content := content f;
                                       mode := backup_mode E w |}]> (fs w);
                          stdout := (stdout w ++ [backup_message])%list |} |}
       end.
Proof.
  unfold main. fold (object_of args).
  unfold bind at 1. rewrite io_print_run.
  unfold bind at 1. rewrite io_copyfile_cases.
  cbn [printed self outside fs stdout]. fold backup_name. unfold refused.
  destruct (fails E OpCopyfile); [reflexivity|].
  destruct (fs w !! arg_file_name args); [|reflexivity].
  destruct (String.eqb (arg_file_name args) backup_name); reflexivity.
Qed.
End Effects.

(** A temporary name that is taken stops [update_flash_par] at once. *)
Lemma update_flash_par_taken (E : environment) (st : state) (g : file) :
  fs (outside st) !! tmp_name E = Some g ->
  exists e, update_flash_par E st = (Raise e, st).
Proof.
  intros Hg. unfold update_flash_par. unfold bind at 1.
  rewrite io_mkstemp_cases, Hg.
  destruct (fails E OpMkstemp); eexists; reflexivity.
Qed.

(** [update_flash_par] on a file without a line: the loop body never runs,
    so nothing is computed and nothing can be undefined. *)
Lemma update_flash_par_empty (E : environment) (st : state) (f : file) :
  no_faults E ->
  fs (outside st) !! tmp_name E = None ->
  fs (outside st) !! file_name (self st) = Some f ->
  content f = "" ->
  update_flash_par E st =
  (Return tt,
   with_fs (insert (file_name (self st)) {| content := ""; mode := 644 |}) st).
Proof.
  intros HE Htmp Hfile Hc. destruct st as [o [m out]].
  cbn [self outside fs stdout] in *.
  assert (Hne : tmp_name E <> file_name o) by congruence.
  set (t0 := {| content := ""; mode := 384 |}).
  unfold update_flash_par.
  unfold bind at 1, io at 1. cbn [outside self].
  rewrite mkstemp_run by first [apply HE | exact Htmp].
  unfold bind at 1, io at 1. unfold set_fs; cbn [outside self fs stdout].
  rewrite (open_w_run _ _ t0)
    by first [apply HE | cbn [fs]; apply lookup_insert_eq].
  unfold bind at 1, get_attr, gets. unfold set_fs; cbn [self outside fs stdout mode t0].
  unfold bind at 1, io at 1. cbn [outside self].
  rewrite (open_r_run _ _ f)
    by first [apply HE
             | cbn [fs]; rewrite !lookup_insert_ne by exact Hne; exact Hfile].
  rewrite Hc. change (readlines "") with (@nil string).
  unfold bind at 1. cbn [rewrite_lines]. unfold ret.
  unfold bind at 1, io at 1. cbn [outside self]. rewrite guard_ok by apply HE.
  unfold bind at 1, io at 1. cbn [outside self]. rewrite guard_ok by apply HE.
  unfold bind at 1, io at 1. cbn [outside self]. rewrite guard_ok by apply HE.
  unfold bind at 1, io at 1. cbn [outside self].
  rewrite (remove_run _ _ f)
    by first [apply HE
             | cbn [fs]; rewrite !lookup_insert_ne by exact Hne; exact Hfile].
  unfold bind at 1, io at 1. unfold set_fs; cbn [outside self fs stdout].
  rewrite (move_run _ _ _ t0)
    by first [apply HE
             | cbn [fs]; rewrite lookup_delete_ne by congruence;
               apply lookup_insert_eq].
  unfold io. unfold set_fs; cbn [outside self fs stdout].
  rewrite (chmod_run _ _ _ t0)
    by first [apply HE | cbn [fs]; apply lookup_insert_eq].
  unfold set_fs, with_fs; cbn [fs stdout content mode t0 self outside].
  change (Z.land 644 4095) with 644.
  f_equal. f_equal. f_equal.
  apply map_eq. intros p.
  destruct (decide (p = file_name o)) as [->|Hp].
  { rewrite !lookup_insert_eq. reflexivity. }
  rewrite !(lookup_insert_ne _ (file_name o)) by congruence.
  destruct (decide (p = tmp_name E)) as [->|Hp'].
  { rewrite lookup_delete_eq. symmetry. exact Htmp. }
  rewrite lookup_delete_ne by congruence.
  rewrite lookup_delete_ne by congruence.
  rewrite !lookup_insert_ne by congruence. reflexivity.
Qed.

(** X1: the backup comes first and stays.  Once [copyfile] has worked on an
    existing parameter file other than the backup itself,
    [flash.par_restart_backup] holds the bytes of the original, with the mode
    of the backup it overwrote or else the default one, and it still does when
    [main] ends, whether [update_flash_par] returned or raised, whatever
    failed in it. *)
Theorem backup_is_made_first_and_kept (E : environment) (args : arguments)
    (w : world) (f : file) :
  fails E OpCopyfile = false ->
  fs w !! arg_file_name args = Some f ->
  arg_file_name args <> backup_name ->
  fs (outside (snd (main E args w))) !! backup_name
  = Some {| content := content f; mode := backup_mode E w |}.
Proof.
  intros Hc Hf Hnb. rewrite main_cases, Hc, Hf.
  apply String.eqb_neq in Hnb as Hnb'. rewrite Hnb'.
  match goal with
  | |- context [update_flash_par E ?s] =>
      set (st := s);
      assert (Hb : fs (outside st) !! backup_name
                   = Some {| content := content f; mode := backup_mode E w |})
        by apply lookup_insert_eq;
      destruct (update_flash_par E st) as [r st'] eqn:Hr
  end.
  cbn [snd]. destruct (decide (tmp_name E = backup_name)) as [Heq|Hne].
  - rewrite <- Heq in Hb.
    destruct (update_flash_par_taken E st _ Hb) as [e He].
    rewrite Hr in He. injection He as _ ->. rewrite <- Heq. exact Hb.
  - rewrite (update_flash_par_frame E st st' r Hr); [exact Hb|congruence|].
    cbn [st self]. change (file_name (object_of args)) with (arg_file_name args).
    congruence.
Qed.

Lemma backup_is_made_first_and_kept_witness :
  let text := "MagField_z = 1.0" +:+ String CR nl +:+ tmax_line in
  fst (main (failing OpMove) example_args (world_with text))
  = Raise (OSError OpMove)
  /\ fs (outside (snd (main (failing OpMove) example_args (world_with text))))
       !! backup_name
     = Some {| content := text; mode := 420 |}.
Proof.
  cbv zeta. split; [vm_compute; reflexivity|].
  apply (backup_is_made_first_and_kept (failing OpMove) example_args
           (world_with ("MagField_z = 1.0" +:+ String CR nl +:+ tmax_line))
           {| content := "MagField_z = 1.0" +:+ String CR nl +:+ tmax_line;
              mode := 436 |}).
  - reflexivity.
  - vm_compute. reflexivity.
  - discriminate.
Defined.

(** X2: a parameter file that does not exist.  [main] prints its notice,
    [copyfile] raises [FileNotFoundError], and that is all: no backup and no
    temporary file are created, no file is changed, and the object is never
    used. *)
Theorem missing_file_is_refused (E : environment) (args : arguments)
    (w : world) :
  fails E OpCopyfile = false ->
  fs w !! arg_file_name args = None ->
  let r := main E args w in
  fst r = Raise (FileNotFoundError (arg_file_name args))
  /\ fs (outside (snd r)) = fs w
  /\ stdout (outside (snd r)) = (stdout w ++ [backup_message])%list
  /\ self (snd r) = object_of args.
Proof.
  intros Hc Hf r. subst r. rewrite main_cases, Hc, Hf. repeat split.
Qed.

Lemma missing_file_is_refused_witness :
  let args := with_file "flash.par.txt" example_args in
  let r := main example_env args (world_with tmax_line) in
  fst r = Raise (FileNotFoundError "flash.par.txt")
  /\ fs (outside (snd r)) = fs (world_with tmax_line).
Proof.
  cbv zeta.
  destruct (missing_file_is_refused example_env
              (with_file "flash.par.txt" example_args) (world_with tmax_line))
    as (H1 & H2 & _); [reflexivity|vm_compute; reflexivity|].
  split; [exact H1|exact H2].
Defined.

(** X3: the backup as the parameter file.  When [-f] names
    [flash.par_restart_backup] and that file exists, [copyfile] raises
    [SameFileError] and nothing is changed: the fixed name of the backup
    makes the backup the one file the script cannot update. *)
Theorem backup_file_itself_is_refused (E : environment) (args : arguments)
    (w : world) (f : file) :
  fails E OpCopyfile = false ->
  arg_file_name args = backup_name ->
  fs w !! backup_name = Some f ->
  let r := main E args w in
  fst r = Raise (SameFileError backup_name)
  /\ fs (outside (snd r)) = fs w
  /\ stdout (outside (snd r)) = (stdout w ++ [backup_message])%list.
Proof.
  intros Hc Hn Hf r. subst r. rewrite main_cases, Hc, Hn, Hf, String.eqb_refl.
  repeat split.
Qed.

Lemma backup_file_itself_is_refused_witness :
  let args := with_file backup_name example_args in
  let w := {| fs := {[ backup_name := {| content := tmax_line; mode := 420 |} ]};
              stdout := [] |} in
  fst (main example_env args w) = Raise (SameFileError backup_name)
  /\ fs (outside (snd (main example_env args w))) = fs w.
Proof.
  cbv zeta.
  destruct (backup_file_itself_is_refused example_env
              (with_file backup_name example_args)
              {| fs := {[ backup_name := {| content := tmax_line; mode := 420 |} ]};
                 stdout := [] |}
              {| content := tmax_line; mode := 420 |})
    as (H1 & H2 & _); [reflexivity|reflexivity|vm_compute; reflexivity|].
  split; [exact H1|exact H2].
Defined.

(** X4: an empty parameter file.  The loop body never runs, so neither
    [compute_] method is called: the run succeeds for every input, a zero
    Mach number included, the derived attributes keep the placeholder of
    [__init__], nothing but the notice is printed, and the file comes back
    empty with the mode given to [chmod]; the backup is empty as well. *)
Theorem empty_file_needs_no_division (E : environment) (args : arguments)
    (w : world) (f : file) :
  ordinary_run E args w f ->
  content f = "" ->
  let r := main E args w in
  fst r = Return tt
  /\ self (snd r) = object_of args
  /\ derived (self (snd r)) = [None; None; None; None; None; None; None]
  /\ stdout (outside (snd r)) = (stdout w ++ [backup_message])%list
  /\ fs (outside (snd r))
     = <[arg_file_name args := {| content := ""; mode := 644 |}]>
         (<[backup_name := {| content := ""; mode := backup_mode E w |}]> (fs w)).
Proof.
  intros Hrun Hc r. subst r. rewrite (main_prelude E args w f Hrun).
  destruct Hrun as [HE Hf Hnb Htmp Htb].
  rewrite (update_flash_par_empty E _ f); [|exact HE| | |exact Hc].
  - cbn [fst snd self outside fs stdout with_fs]. rewrite Hc.
    repeat split.
  - cbn [outside fs]. rewrite lookup_insert_ne by congruence. exact Htmp.
  - cbn [outside fs self].
    change (file_name (object_of args)) with (arg_file_name args).
    rewrite lookup_insert_ne by congruence. exact Hf.
Qed.

Lemma empty_file_needs_no_division_witness :
  let args := with_mach 0 0 example_args in
  let r := main example_env args (world_with "") in
  times_defined (object_of args) = false
  /\ fst r = Return tt
  /\ fs (outside (snd r)) !! "flash.par" = Some {| content := ""; mode := 644 |}.
Proof.
  cbv zeta. split; [vm_compute; reflexivity|].
  assert (Hrun : ordinary_run example_env (with_mach 0 0 example_args)
                   (world_with "") {| content := ""; mode := 436 |}).
  { split; [intros op; reflexivity|vm_compute; reflexivity|discriminate
           |vm_compute; reflexivity|discriminate]. }
  destruct (empty_file_needs_no_division _ _ _ _ Hrun eq_refl)
    as (H1 & _ & _ & _ & H5).
  split; [exact H1|]. rewrite H5. vm_compute. reflexivity.
Defined.



(** X6: a failed update leaves its temporary file behind.  When
    [update_flash_par] raises after [mkstemp] created the temporary file and
    before [chmod] (a file that cannot be opened or read, a zero division, a
    failed write, close, removal or move), nothing removes the temporary file:
    it is still there, with the mode [0o600] that [mkstemp] gave it. *)
Theorem failed_update_leaves_temporary_file (E : environment)
    (st st' : state) (e : exn) :
  fs (outside st) !! tmp_name E = None ->
  tmp_name E <> file_name (self st) ->
  update_flash_par E st = (Raise e, st') ->
  e <> OSError OpMkstemp -> e <> OSError OpChmod ->
  exists c, fs (outside st') !! tmp_name E
            = Some {| content := c; mode := 384 |}.
Proof. apply update_flash_par_leak. Qed.

Lemma failed_update_leaves_temporary_file_witness :
  let st := {| self := object_of (with_mach 0 1 example_args);
               outside := world_with tmax_line |} in
  fst (update_flash_par example_env st) = Raise ZeroDivisionError
  /\ exists c, fs (outside (snd (update_flash_par example_env st)))
                 !! tmp_name example_env
               = Some {| content := c; mode := 384 |}.
Proof.
  cbv zeta. split; [vm_compute; reflexivity|].
  refine (failed_update_leaves_temporary_file example_env
            {| self := object_of (with_mach 0 1 example_args);
               outside := world_with tmax_line |}
            (snd (update_flash_par example_env
                    {| self := object_of (with_mach 0 1 example_args);
                       outside := world_with tmax_line |}))
            ZeroDivisionError _ _ _ _ _).
  - vm_compute. reflexivity.
  - discriminate.
  - vm_compute. reflexivity.
  - discriminate.
  - discriminate.
Defined.

(** ** Running twice *)

Lemma find_agree {A} (p q : A -> bool) (l : list A) :
  (forall x, In x l -> p x = q x) -> List.find p l = List.find q l.
Proof.
  induction l as [|a l IH]; intros H; [reflexivity|]. cbn [List.find].
  rewrite (H a) by (left; reflexivity).
  rewrite IH; [reflexivity|]. intros x Hx. apply H. right. exact Hx.
Qed.

Lemma find_nowhere {A} (p : A -> bool) (l : list A) :
  (forall x, In x l -> p x = false) -> List.find p l = None.
Proof.
  induction l as [|a l IH]; intros H; [reflexivity|]. cbn [List.find].
  rewrite (H a) by (left; reflexivity). apply IH.
  intros x Hx. apply H. right. exact Hx.
Qed.

Lemma table_keys (o : UpdateFlashParameterFile) (kv : string * string) :
  In kv (target_table o) -> In (fst kv) all_keys.
Proof.
  unfold target_table, forcing_table. intros H.
  apply in_app_or in H as [H|H]; [|apply in_app_or in H as [H|H]].
  - cbn in H. repeat (destruct H as [<-|H]; [in_keys|]). contradiction.
  - cbn in H. repeat (destruct H as [<-|H]; [in_keys|]). contradiction.
  - destruct (forcing_file o); cbn in H; [|contradiction].
    destruct H as [<-|[]]. in_keys.
Qed.

Lemma key_not_space (k : string) (s : string) :
  In k all_keys -> String.prefix k (String " " s) = false.
Proof.
  intros Hk. pose proof all_keys_ok as Hok. rewrite forallb_forall in Hok.
  specialize (Hok k Hk). unfold key_ok in Hok.
  apply andb_true_iff in Hok as [Hok _].
  destruct k as [|c k]; [discriminate|].
  rewrite prefix_cons. rewrite negb_true_iff in Hok. rewrite Hok. reflexivity.
Qed.

Lemma key_no_eq (k : string) : In k all_keys -> before_eq k = None.
Proof.
  intros Hk. pose proof all_keys_ok as Hok. rewrite forallb_forall in Hok.
  specialize (Hok k Hk). unfold key_ok in Hok.
  apply andb_true_iff in Hok as [_ Hok].
  destruct (before_eq k); [discriminate|reflexivity].
Qed.

Lemma before_eq_token (t r : string) :
  before_eq t = None -> before_eq ((t +:+ "=") +:+ r) = Some t.
Proof.
  induction t as [|c t IH]; intros H; [reflexivity|].
  cbn [before_eq] in H. rewrite !append_cons. cbn [before_eq].
  destruct (Ascii.eqb c "="); [discriminate|].
  destruct (before_eq t); [discriminate|]. rewrite IH by reflexivity.
  reflexivity.
Qed.

(** A replaced line that had an ['='] starts with the key it started with,
    and with no other. *)
Lemma first_match_substituted (o o' : UpdateFlashParameterFile)
    (line k v v' t : string) :
  first_match o line = Some (k, v) -> before_eq line = Some t ->
  (forall kv, In kv (target_table o') -> starts (substituted line v') kv = starts line kv).
Proof.
  intros Hm Ht [k' w'] Hin. unfold starts. cbn [fst].
  apply find_starts_some in Hm as [Hk Hp].
  apply in_map_iff in Hk as (kv0 & <- & Hin0).
  pose proof (table_keys o _ Hin0) as Hk.
  pose proof (table_keys o' _ Hin) as Hk'. cbn [fst] in Hk'.
  destruct (String.eqb_spec (fst kv0) k') as [<-|Hne].
  - rewrite Hp, substituted_upto. unfold upto_eq. rewrite Ht.
    apply prefix_app, prefix_app. eapply key_in_token; eauto using key_no_eq.
  - rewrite (other_key_fails (fst kv0) k' line v' Hk Hk' Hne Hp).
    destruct (String.prefix k' line) eqn:Hp'; [|reflexivity].
    exfalso. apply Hne. eapply one_key_per_line; eauto.
Qed.

(** A replaced line that had no ['='] starts with a space, so with no key. *)
Lemma first_match_lost (o' : UpdateFlashParameterFile) (line v : string) :
  before_eq line = None -> first_match o' (substituted line v) = None.
Proof.
  intros Hn. unfold first_match. apply find_nowhere. intros kv Hin.
  unfold starts. rewrite substituted_upto. unfold upto_eq. rewrite Hn.
  change ("" +:+ " " +:+ v +:+ nl) with (String " " (v +:+ nl)).
  apply key_not_space. apply (table_keys o'). exact Hin.
Qed.

(** The loop body changes nothing in a line it produced. *)
Lemma image_idem (o : UpdateFlashParameterFile) (line : string) :
  image o (image o line) = image o line.
Proof.
  unfold image at 2 3.
  destruct (first_match o line) as [[k v]|] eqn:Hm.
  2:{ unfold image. rewrite Hm. reflexivity. }
  destruct (before_eq line) as [t|] eqn:Ht.
  - unfold image.
    assert (Hm' : first_match o (substituted line v) = Some (k, v)).
    { unfold first_match in *. rewrite <- Hm. apply find_agree.
      apply (first_match_substituted o o line k v v t); assumption. }
    rewrite Hm'. rewrite (substituted_upto (substituted line v)).
    rewrite (substituted_upto line) at 1. unfold upto_eq at 1 2. rewrite Ht.
    destruct (before_eq_prefix _ _ Ht) as [_ Hnt].
    rewrite (before_eq_token t _ Hnt).
    rewrite substituted_upto. unfold upto_eq. rewrite Ht. reflexivity.
  - unfold image. rewrite (first_match_lost o line v Ht). reflexivity.
Qed.


(** X7: the loop body is idempotent.  When the time parameters are defined,
    the line that the loop body returns is returned unchanged when it is put
    through the loop body again: a replaced line with an ['='] is matched by
    the same key and given the same text, a line of any other kind is not
    matched at all.  In particular a key line without ['='], once replaced
    by a space and the value, is never matched again, whatever the inputs of
    a later run. *)
Theorem rewritten_line_is_a_fixed_point (st : state) (line : string) :
  times_defined (self st) = true ->
  exists line',
    fst (rewrite_line line st) = Return line'
    /\ fst (rewrite_line line' (snd (rewrite_line line st))) = Return line'
    /\ (is_target (derive (self st)) line = true -> before_eq line = None ->
        forall st2, times_defined (self st2) = true ->
                    fst (rewrite_line line' st2) = Return line').
Proof.
  intros Hd. exists (image (derive (self st)) line).
  rewrite rewrite_line_run by exact Hd. cbn [fst snd].
  split; [reflexivity|]. split.
  - rewrite rewrite_line_run by exact Hd. cbn [fst self printed with_self].
    rewrite derive_idem, image_idem. reflexivity.
  - intros Ht Hn st2 Hd2. rewrite rewrite_line_run by exact Hd2. cbn [fst].
    unfold is_target in Ht.
    destruct (first_match (derive (self st)) line) as [[k v]|] eqn:Hm;
      [|discriminate].
    assert (Hi : image (derive (self st)) line = substituted line v)
      by (unfold image; rewrite Hm; reflexivity).
    rewrite Hi. unfold image. rewrite (first_match_lost _ line v Hn).
    reflexivity.
Qed.

Lemma rewritten_line_is_a_fixed_point_witness :
  let line := "checkpointFileIntervalTime = 1.0 # per turnover" +:+ nl in
  let line' := "checkpointFileIntervalTime = 0.005" +:+ nl in
  fst (rewrite_line line example_state) = Return line'
  /\ fst (rewrite_line line' (snd (rewrite_line line example_state)))
     = Return line'.
Proof.
  cbv zeta.
  destruct (rewritten_line_is_a_fixed_point example_state
              ("checkpointFileIntervalTime = 1.0 # per turnover" +:+ nl))
    as (l' & H1 & H2 & _); [vm_compute; reflexivity|].
  assert (Hl : l' = "checkpointFileIntervalTime = 0.005" +:+ nl).
  { assert (H : Return l' = Return ("checkpointFileIntervalTime = 0.005" +:+ nl))
      by (rewrite <- H1; vm_compute; reflexivity).
    injection H as ->. reflexivity. }
  rewrite <- Hl. split; [exact H1|exact H2].
Defined.



(** ** Lines that are left alone, and what is printed *)

Lemma no_initial_no_match (o : UpdateFlashParameterFile) (line : string) :
  shares_initial line = false -> first_match o line = None.
Proof.
  intros Hs. unfold first_match. apply find_nowhere. intros kv Hin.
  pose proof (table_keys o kv Hin) as Hk. unfold starts.
  destruct (String.prefix (fst kv) line) eqn:Hp; [|reflexivity].
  exfalso. assert (Ht : shares_initial line = true); [|congruence].
  unfold shares_initial. apply existsb_exists. exists (fst kv).
  split; [exact Hk|].
  pose proof (key_not_space (fst kv) "" Hk) as Hne.
  destruct (fst kv) as [|a k]; [discriminate|].
  destruct line as [|b l]; [discriminate|].
  rewrite prefix_cons in Hp. apply andb_true_iff in Hp as [Hab _]. exact Hab.
Qed.

(** X9: lines that cannot be hit.  A line whose first character is not the
    first character of a key (not one of [M], [s], [m], [c], [p], [d], [t]),
    such as a comment, an indented line, a blank line or a key written in
    another case, goes through the loop body unchanged and without a message,
    whatever follows on the line. *)
Theorem line_with_other_initial_is_left_alone (st : state) (line : string) :
  times_defined (self st) = true ->
  shares_initial line = false ->
  rewrite_line line st = (Return line, with_self (derive (self st)) st).
Proof.
  intros Hd Hs. rewrite rewrite_line_run by exact Hd.
  unfold image, log_of. rewrite (no_initial_no_match _ line Hs).
  rewrite printed_nil. reflexivity.
Qed.

Lemma line_with_other_initial_is_left_alone_witness :
  let line := "#tmax = 0.1   (old value)" +:+ nl in
  fst (rewrite_line line example_state) = Return line
  /\ fst (rewrite_line (" dtmax = 1.0" +:+ nl) example_state)
     = Return (" dtmax = 1.0" +:+ nl)
  /\ fst (rewrite_line ("Tmax = 1.0" +:+ nl) example_state)
     = Return ("Tmax = 1.0" +:+ nl)
  /\ fst (rewrite_line nl example_state) = Return nl.
Proof.
  cbv zeta.
  assert (H : forall line, shares_initial line = false ->
                fst (rewrite_line line example_state) = Return line).
  { intros line Hs.
    rewrite (line_with_other_initial_is_left_alone example_state line);
      [reflexivity|vm_compute; reflexivity|exact Hs]. }
  split; [|split; [|split]]; apply H; vm_compute; reflexivity.
Defined.

Lemma log_of_main (args : arguments) (line : string) :
  let d := derive (object_of args) in
  log_of d line
  = if is_target d line
    then [found_line (arg_file_name args) line;
          replaced_with (arg_file_name args) (image d line)]
    else [].
Proof.
  cbv zeta. unfold log_of, is_target, image, messages.
  destruct (first_match (derive (object_of args)) line) as [[k v]|];
    reflexivity.
Qed.

Lemma length_log (d : UpdateFlashParameterFile) (lines : list string) :
  debug d = true ->
  length (flat_map (log_of d) lines)
  = (2 * length (List.filter (is_target d) lines))%nat.
Proof.
  intros Hdebug. induction lines as [|l ls IH]; [reflexivity|].
  cbn [flat_map List.filter]. rewrite length_app, IH.
  unfold log_of, is_target, messages. rewrite Hdebug.
  destruct (first_match d l) as [[k v]|]; cbn [length]; lia.
Qed.

(** X10: what a run prints.  [__init__] switches [debug] on and nothing
    switches it off, so a run in which nothing fails prints the notice of the
    backup and then, for each replaced line in the order of the file, the
    line as found and the line that replaces it, both without trailing white
    space; it prints nothing for any other line.  That makes one message and
    two more for each replaced line. *)
Theorem main_reports_every_replacement (E : environment) (args : arguments)
    (w : world) (f : file) :
  ordinary_run E args w f ->
  times_defined (object_of args) = true ->
  let d := derive (object_of args) in
  let lines := readlines (content f) in
  let out := stdout (outside (snd (main E args w))) in
  out = (stdout w
         ++ backup_message
            :: flat_map
                 (fun line =>
                    if is_target d line
                    then [arg_file_name args +:+ ": found line:" +:+ tab +:+ tab
                            +:+ rstrip line;
                          arg_file_name args +:+ ": replaced with:" +:+ tab
                            +:+ rstrip (image d line)]
                    else []) lines)%list
  /\ length out
     = (length (stdout w) + 1
        + 2 * length (List.filter (is_target d) lines))%nat.
Proof.
  intros Hrun Hd d lines out. subst out.
  rewrite (main_run E args w f Hrun Hd). cbn [snd outside stdout].
  fold d lines. split.
  - rewrite <- app_assoc. cbn [app]. f_equal. f_equal.
    apply flat_map_ext. intros line. apply log_of_main.
  - rewrite !length_app, length_log by reflexivity. cbn [length]. lia.
Qed.

Lemma main_reports_every_replacement_witness :
  let text := "# runtime parameters" +:+ nl +:+ tmax_line +:+ "nblockx = 1" +:+ nl in
  stdout (outside (snd (main example_env example_args (world_with text))))
  = [ backup_message;
      "flash.par: found line:" +:+ tab +:+ tab +:+ "tmax = 999.0";
      "flash.par: replaced with:" +:+ tab +:+ "tmax = 0.5" ].
Proof.
  cbv zeta.
  assert (Hrun : ordinary_run example_env example_args
                   (world_with ("# runtime parameters" +:+ nl +:+ tmax_line
                                  +:+ "nblockx = 1" +:+ nl))
                   {| content := "# runtime parameters" +:+ nl +:+ tmax_line
                                   +:+ "nblockx = 1" +:+ nl;
                      mode := 436 |}).
  { split; [intros op; reflexivity|vm_compute; reflexivity|discriminate
           |vm_compute; reflexivity|discriminate]. }
  destruct (main_reports_every_replacement _ _ _ _ Hrun) as [H _];
    [vm_compute; reflexivity|].
  etransitivity; [exact H|]. vm_compute. reflexivity.
Defined.

Lemma no_cr_written (o : UpdateFlashParameterFile) (bytes : string) :
  plain_values o ->
  no_cr (concat_lines (map (image o) (readlines bytes))) = true.
Proof.
  intros Hv. unfold no_cr. rewrite absent_concat_lines. apply forallb_forall.
  intros l Hin. apply in_map_iff in Hin as (l0 & <- & Hin).
  apply no_cr_image; [exact Hv|].
  pose proof (no_cr_universal_newlines bytes) as Hcr. unfold no_cr in Hcr.
  unfold readlines in Hin.
  rewrite <- (concat_lines_of (universal_newlines bytes)) in Hcr.
  rewrite absent_concat_lines, forallb_forall in Hcr. apply Hcr. exact Hin.
Qed.

(** X11: line endings after a run.  The file is read in text mode and never
    written with a carriage return: after a run in which nothing fails, when
    the name of the forcing file contains no line break, the parameter file
    contains no carriage return at all, whatever line endings it had, on
    replaced lines and on the others alike. *)
Theorem run_leaves_no_carriage_return (E : environment) (args : arguments)
    (w : world) (f : file) :
  ordinary_run E args w f ->
  times_defined (object_of args) = true ->
  plain_forcing (object_of args) = true ->
  exists c,
    fs (outside (snd (main E args w))) !! arg_file_name args
    = Some {| content := c; mode := 644 |}
    /\ no_cr c = true.
Proof.
  intros Hrun Hd Hp. rewrite (main_run E args w f Hrun Hd).
  cbn [snd outside fs]. eexists. split; [apply lookup_insert_eq|].
  apply no_cr_written, plain_values_derive. exact Hp.
Qed.

Lemma run_leaves_no_carriage_return_witness :
  let text := "nblockx = 1" +:+ String CR nl +:+ "tmax = 1.0" +:+ String CR "" in
  let r := main example_env example_args (world_with text) in
  no_cr text = false
  /\ exists c, fs (outside (snd r)) !! "flash.par"
               = Some {| content := c; mode := 644 |}
               /\ no_cr c = true.
Proof.
  cbv zeta. split; [vm_compute; reflexivity|].
  apply (run_leaves_no_carriage_return example_env example_args
           (world_with ("nblockx = 1" +:+ String CR nl +:+ "tmax = 1.0"
                          +:+ String CR ""))
           {| content := "nblockx = 1" +:+ String CR nl +:+ "tmax = 1.0"
                           +:+ String CR "";
              mode := 436 |}).
  - split; [intros op; reflexivity|vm_compute; reflexivity|discriminate
           |vm_compute; reflexivity|discriminate].
  - vm_compute. reflexivity.
  - vm_compute. reflexivity.
Defined.

(** ** Inputs that are not numbers *)

Lemma is_nan_spec (x : float) : is_nan x = true <-> Prim2SF x = S754_nan.
Proof.
  unfold is_nan. rewrite eqb_spec. unfold SFeqb.
  destruct (Prim2SF x) as [[]|[]| |[] m e]; cbn [SFcompare negb];
    try (split; [discriminate|discriminate]);
    try (split; reflexivity);
    rewrite Z.compare_refl;
    change (PosDef.Pos.compare_cont Eq m m) with (Pos.compare m m);
    rewrite Pos.compare_refl; split; discriminate.
Qed.

Lemma mul_nan_r (x y : float) : is_nan y = true -> is_nan (x * y) = true.
Proof.
  rewrite !is_nan_spec, mul_spec. intros ->.
  destruct (Prim2SF x) as [[]|[]| |[] m e]; reflexivity.
Qed.

Lemma mul_nan_l (x y : float) : is_nan x = true -> is_nan (x * y) = true.
Proof. rewrite !is_nan_spec, mul_spec. intros ->. reflexivity. Qed.

Lemma div_nan_r (x y : float) : is_nan y = true -> is_nan (x / y) = true.
Proof.
  rewrite !is_nan_spec, div_spec. intros ->.
  destruct (Prim2SF x) as [[]|[]| |[] m e]; reflexivity.
Qed.

Lemma div_nan_l (x y : float) : is_nan x = true -> is_nan (x / y) = true.
Proof. rewrite !is_nan_spec, div_spec. intros ->. reflexivity. Qed.

Lemma nan_not_zero (x : float) : is_nan x = true -> (x =? 0)%float = false.
Proof. rewrite is_nan_spec, eqb_spec. intros ->. reflexivity. Qed.

Lemma float_repr_nan (x : float) : is_nan x = true -> float_repr x = "nan".
Proof. rewrite is_nan_spec. unfold float_repr. intros ->. reflexivity. Qed.

(** X12: a Mach number that is not a number.  [float] parses [nan], and
    nothing in the script looks at it: when [mach] is NaN (and the product
    of the turnovers and the dumps is not zero) both [compute_] methods
    return, no division raises, and all seven derived attributes are NaN,
    which the loop writes as [nan]. *)
Theorem nan_mach_is_accepted (st : state) :
  is_nan (mach (self st)) = true ->
  (total_turn_overs (self st) * dumps_per_turnover (self st) =? 0)%float = false ->
  exists st',
    (compute_B0 ;; compute_turnover_time_parameters)%py st = (Return tt, st')
    /\ Forall (fun a => exists x, a = Some x /\ is_nan x = true
                                  /\ format_attribute a = "nan")
         (derived (self st')).
Proof.
  intros Hn H2. unfold bind.
  rewrite compute_B0_run, compute_turnover_time_parameters_run.
  cbv zeta. cbn [self with_self set_B0 with_derived driving_scale mach
                 total_turn_overs dumps_per_turnover].
  rewrite (nan_not_zero _ (mul_nan_r (driving_scale (self st)) _ Hn)), H2.
  eexists. split; [reflexivity|].
  set (o := set_B0 (Some (B0_of (self st))) (self st)).
  assert (N0 : is_nan (B0_of (self st)) = true)
    by (unfold B0_of; apply div_nan_l, mul_nan_r, Hn).
  assert (N1 : is_nan (tmax_of o) = true)
    by (unfold tmax_of; apply div_nan_r, mul_nan_r, Hn).
  assert (N2 : is_nan (checkpoint_of o) = true)
    by (unfold checkpoint_of; apply div_nan_l, N1).
  assert (N3 : is_nan (movie_of o) = true)
    by (unfold movie_of, plot_of; apply div_nan_l, N2).
  assert (N4 : is_nan (dtmax_of o) = true)
    by (unfold dtmax_of; apply div_nan_l, N3).
  cbn [self with_self derived set_times with_derived B0 tmax
       checkpointFileIntervalTime plotFileIntervalTime movie_dt_dump
       particleFileIntervalTime dtmax o set_B0].
  repeat constructor; eexists; (split; [reflexivity|]);
    (split; [|cbn [format_attribute]; apply float_repr_nan]); assumption.
Qed.

Lemma nan_mach_is_accepted_witness :
  let st := {| self := object_of (with_mach nan 1 example_args);
               outside := world_with "" |} in
  exists st',
    (compute_B0 ;; compute_turnover_time_parameters)%py st = (Return tt, st')
    /\ Forall (fun a => exists x, a = Some x /\ is_nan x = true
                                  /\ format_attribute a = "nan")
         (derived (self st')).
Proof.
  cbv zeta.
  apply (nan_mach_is_accepted
           {| self := object_of (with_mach nan 1 example_args);
              outside := world_with "" |});
    vm_compute; reflexivity.
Defined.

(** ** The default options *)

(** Doubling a number that is not zero never gives zero: the product with 2
    is exact, or overflows to an infinity. *)
Lemma double_finite_not_zero (s : bool) (m : positive) (e : Z) :
  bounded prec emax m e = true ->
  SFeqb (SFmul prec emax (S754_finite false 4503599627370496 (-51))
           (S754_finite s m e)) (S754_zero false) = false.
Proof.
  intros Hb. unfold bounded, canonical_mantissa in Hb.
  apply andb_prop in Hb as [Hc He].
  apply Z.eqb_eq in Hc. apply Z.leb_le in He.
  unfold fexp, SpecFloat.emin in Hc.
  cbn [SFmul xorb]. unfold binary_round_aux, shr_fexp, fexp, SpecFloat.emin.
  match goal with
  | |- context [(?c * m)%positive] =>
      let x := eval cbv in (c * m)%positive in
      change (c * m)%positive with x
  end.
  cbn [Zdigits2 digits2_pos shr_record_of_loc].
  rewrite !Pos2Z.inj_succ.
  change prec with 53 in *. change emax with 1024 in *.
  pose proof (Pos2Z.is_pos (digits2_pos m)) as Hpos.
  set (d := Z.pos (digits2_pos m)) in *.
  destruct (Z_lt_le_dec (d + e - 53) (-1074)) as [Hlt|Hge].
  - assert (Hee : e = -1074) by lia. subst e.
    match goal with
    | |- context [shr ?r ?e0 ?n] => replace n with 51 by lia
    end.
    cbn [shr].
    match goal with
    | |- context [iter_pos shr_1 ?p ?r] =>
        let x := eval vm_compute in (iter_pos shr_1 p r) in
        change (iter_pos shr_1 p r) with x
    end.
    cbv beta iota zeta.
    cbn [shr_m loc_of_shr_record round_nearest_even Zdigits2 digits2_pos].
    rewrite Pos2Z.inj_succ. fold d.
    match goal with
    | |- context [shr ?r ?e0 ?n] => replace n with 0 by lia
    end.
    cbn [shr shr_m].
    destruct (_ <=? _), s; reflexivity.
  - assert (Hd : d = 53) by lia.
    match goal with
    | |- context [shr ?r ?e0 ?n] => replace n with 52 by lia
    end.
    cbn [shr].
    match goal with
    | |- context [iter_pos shr_1 ?p ?r] =>
        let x := eval vm_compute in (iter_pos shr_1 p r) in
        change (iter_pos shr_1 p r) with x
    end.
    cbv beta iota zeta.
    cbn [shr_m loc_of_shr_record round_nearest_even Zdigits2 digits2_pos].
    fold d.
    match goal with
    | |- context [shr ?r ?e0 ?n] => replace n with 0 by lia
    end.
    cbn [shr shr_m].
    destruct (_ <=? _), s; reflexivity.
Qed.

Lemma double_zero (m : float) : (2 * m =? 0)%float = (m =? 0)%float.
Proof.
  rewrite !eqb_spec, mul_spec.
  change (Prim2SF 2) with (S754_finite false 4503599627370496 (-51)).
  change (Prim2SF 0) with (S754_zero false).
  pose proof (Prim2SF_valid m) as Hv.
  destruct (Prim2SF m) as [[]|[]| |s mm em]; try reflexivity.
  unfold SF64mul. rewrite (double_finite_not_zero s mm em Hv).
  destruct s; reflexivity.
Qed.

Lemma times_defined_defaults (m ma : float) :
  times_defined (object_of (parsed_defaults m ma)) = negb (m =? 0)%float.
Proof.
  unfold times_defined.
  cbn [object_of parsed_defaults init driving_scale mach total_turn_overs
       dumps_per_turnover arg_mach arg_driving_scale arg_total_turn_overs
       arg_dumps_per_turnover].
  rewrite double_zero.
  replace (10 * 10 =? 0)%float with false by reflexivity.
  apply andb_true_r.
Qed.

Lemma readlines_nonempty (bytes : string) :
  bytes <> "" -> readlines bytes <> [].
Proof.
  unfold readlines. destruct bytes as [|c s]; [congruence|]. intros _.
  assert (H : exists c' s', universal_newlines (String c s) = String c' s').
  { cbn [universal_newlines]. destruct (Ascii.eqb c CR); eauto. }
  destruct H as (c' & s' & ->). cbn [lines_of].
  destruct (Ascii.eqb c' LF); [discriminate|].
  destruct (lines_of s'); discriminate.
Qed.

(** X13: the run with the default options.  With [-m] and [-ma] only, the
    driving scale is 2 and the dumps and turnovers are 10 each, and on an
    existing, non-empty [flash.par], when nothing fails, [main] raises
    [ZeroDivisionError] exactly when the Mach number compares equal to zero:
    every other Mach number is accepted, however small, negative, infinite
    or not a number, and so is every Alfven Mach number. *)
Theorem default_run_rejects_exactly_zero_mach (E : environment) (m ma : float)
    (w : world) (f : file) :
  ordinary_run E (parsed_defaults m ma) w f ->
  content f <> "" ->
  fst (main E (parsed_defaults m ma) w)
  = if (m =? 0)%float then Raise ZeroDivisionError else Return tt.
Proof.
  intros Hrun Hc. pose proof (times_defined_defaults m ma) as Hd.
  destruct (m =? 0)%float; cbn [negb] in Hd.
  - rewrite (main_prelude E _ w f Hrun).
    destruct Hrun as [HE Hf Hnb Htmp Htb].
    match goal with
    | |- context [update_flash_par E ?s] =>
        destruct (update_flash_par_undefined E s f HE Hd) as (st' & -> & _)
    end; [| | |reflexivity].
    + cbn [outside fs]. rewrite lookup_insert_ne by congruence. exact Htmp.
    + cbn [outside fs self].
      change (file_name (object_of (parsed_defaults m ma)))
        with (arg_file_name (parsed_defaults m ma)).
      rewrite lookup_insert_ne by congruence. exact Hf.
    + apply readlines_nonempty. exact Hc.
  - rewrite (main_run E _ w f Hrun Hd). reflexivity.
Qed.

Lemma default_run_rejects_exactly_zero_mach_witness :
  fst (main example_env (parsed_defaults (-0) 1) (world_with tmax_line))
  = Raise ZeroDivisionError
  /\ fst (main example_env (parsed_defaults 0x1p-1074 0) (world_with tmax_line))
     = Return tt.
Proof.
  assert (Hrun : forall m ma,
            ordinary_run example_env (parsed_defaults m ma)
              (world_with tmax_line) {| content := tmax_line; mode := 436 |}).
  { intros m ma.
    split; [intros op; reflexivity|vm_compute; reflexivity|discriminate
           |vm_compute; reflexivity|discriminate]. }
  split.
  - rewrite (default_run_rejects_exactly_zero_mach _ _ _ _ _ (Hrun (-0)%float 1%float))
      by discriminate.
    reflexivity.
  - rewrite (default_run_rejects_exactly_zero_mach _ _ _ _ _
               (Hrun 0x1p-1074%float 0%float)) by discriminate.
    reflexivity.
Defined.
